(** * golongtail command line: a shallow embedding of [cmd/longtail/main.go]

    The development follows the Go source function by function.  Go strings
    are [string] (sequences of bytes), unsigned machine integers are [Z] with
    the wrap-around written out, Go maps are [gmap], and the calls into
    [longtaillib], [longtailstorelib] and the operating system are fields of
    an environment record acting on an abstract world, each call leaving an
    event in a trace. *)

From Stdlib Require Import ZArith Ascii String List Lia Bool.
From stdpp Require Import base option list gmap strings.

Local Open Scope string_scope.
Local Open Scope Z_scope.

(** ** Go's [strings] package, as far as [main.go] uses it *)

Module Strings.

(** [strings.HasPrefix(s, prefix)]. *)
Fixpoint HasPrefix (s prefix : string) {struct prefix} : bool :=
  match prefix, s with
  | EmptyString, _ => true
  | String _ _, EmptyString => false
  | String p prefix', String c s' =>
      if Ascii.eqb c p then HasPrefix s' prefix' else false
  end.

(** The scan shared by [Replace] and [Split]: walk [s] from the left; at a
    position where [old] starts, emit the replacement and step over the
    remaining [length old - 1] bytes of the match ([skip] counts them), so
    matches never overlap. *)
Fixpoint replaceFrom (old new s : string) (skip : nat) : string :=
  match s with
  | EmptyString => EmptyString
  | String c s' =>
      match skip with
      | S k => replaceFrom old new s' k
      | O =>
          if HasPrefix s old
          then new +:+ replaceFrom old new s' (String.length old - 1)
          else String c (replaceFrom old new s' 0)
      end
  end.

(** [strings.Replace(s, old, new, -1)] for a non-empty [old] (the only use
    in the source). *)
Definition Replace (s old new : string) : string := replaceFrom old new s 0.

(** The pieces of [s] between occurrences of [sep]: the piece being read
    and the pieces after it. *)
Fixpoint splitFrom (sep s : string) (skip : nat) : string * list string :=
  match s with
  | EmptyString => (EmptyString, [])
  | String c s' =>
      match skip with
      | S k => splitFrom sep s' k
      | O =>
          if HasPrefix s sep
          then let '(h, t) := splitFrom sep s' (String.length sep - 1) in
               (EmptyString, h :: t)
          else let '(h, t) := splitFrom sep s' 0 in (String c h, t)
      end
  end.

(** [strings.Split(s, sep)] for a non-empty [sep]: never an empty slice. *)
Definition Split (s sep : string) : list string :=
  let '(h, t) := splitFrom sep s 0 in h :: t.

(** [strings.Join(elems, sep)]. *)
Fixpoint Join (elems : list string) (sep : string) : string :=
  match elems with
  | [] => EmptyString
  | [e] => e
  | e :: rest => e +:+ sep +:+ Join rest sep
  end.

(** [strings.Contains(s, substr)]. *)
Fixpoint Contains (s substr : string) : bool :=
  HasPrefix s substr ||
  match s with
  | EmptyString => false
  | String _ s' => Contains s' substr
  end.

End Strings.

(** The byte 0x5C. *)
Definition backslash : ascii := ascii_of_nat 92.
Definition slash : ascii := "/"%char.

(** [main.go:29] *)
Definition normalizePath (path : string) : string :=
  let doubleForwardRemoved := Strings.Replace path "//" "/" in
  let doubleBackwardRemoved :=
    Strings.Replace doubleForwardRemoved
      (String backslash (String backslash EmptyString)) "/" in
  let backwardRemoved :=
    Strings.Replace doubleBackwardRemoved (String backslash EmptyString) "/" in
  backwardRemoved.

(** ** Machine integers *)

Definition uint32 (z : Z) : Z := z mod 2 ^ 32.
Definition uint64 (z : Z) : Z := z mod 2 ^ 64.
(** [^uint64(0)] *)
Definition uint64_ones : Z := 2 ^ 64 - 1.

(** ** Errors and the ways a Go function ends *)

(** An [error] value: built by [fmt.Errorf], by
    [errors.Wrapf(longtaillib.ErrnoToError(errno, ...), ...)] for a non-zero
    errno, or handed back by a library call.  Format strings are kept with
    their arguments: a string, a number, or the file handle opened under a
    name. *)
Inductive Arg : Type :=
  | ArgS (s : string)
  | ArgD (n : Z)
  | ArgFile (name : string).

Inductive error : Type :=
  | Errorf (format : string) (args : list Arg)
  | Wrapf (errno : Z) (format : string) (args : list Arg)
  | LibError (msg : string).

(** [errors.Wrapf(longtaillib.ErrnoToError(errno, longtaillib.ErrEIO), ...)]
    where the errno at hand may be zero: the errno 0 is no error, and
    wrapping nil gives nil. *)
Definition wrapf (errno : Z) (format : string) (args : list Arg) : option error :=
  if errno =? 0 then None else Some (Wrapf errno format args).

(** A call returns normally, panics (nil dereference, slice bounds), or ends
    the process through [log.Fatal]. *)
Inductive Outcome (A : Type) : Type :=
  | Returns (a : A)
  | Panics (msg : string)
  | Fatal (e : error).
Arguments Returns {A} a.
Arguments Panics {A} msg.
Arguments Fatal {A} e.

(** ** Handles of [longtaillib] and [longtailstorelib] *)

(** The fields of [url.URL] the program reads. *)
Record URL : Type := mkURL { Scheme : string; Host : string; Path : string }.

Inductive AccessType : Type := ReadOnly | ReadWrite.

Inductive BlobStore : Type :=
  | gcsBlobStore (u : URL) (defaultHashes : bool)
  | s3BlobStore (bucketName prefix : string).

(** Block stores, by the constructor call that made them.  [nilBlockStore]
    is the zero value of [Longtail_BlockStoreAPI]. *)
Inductive BlockStore : Type :=
  | nilBlockStore
  | RemoteBlockStore (blobStore : BlobStore) (optionalStoreIndexPath : string)
      (workerCount : Z) (accessType : AccessType)
  | FSBlockStore (path : string)
  | CacheBlockStore (localStore remoteStore : BlockStore)
  | CompressBlockStore (backing : BlockStore)
  | LRUBlockStore (backing : BlockStore) (maxBlocks : Z)
  | ShareBlockStore (backing : BlockStore).

(** One asset of a version index: the entries of the parallel per-asset
    arrays at one position. *)
Record Asset : Type := mkAsset {
  assetPath : string;
  assetSize : Z;
  assetHash : Z;
  assetPermissions : Z;
  assetChunkCount : Z;
  assetChunkIndexStart : Z
}.

Record VersionIndex : Type := mkVersionIndex {
  viHashIdentifier : Z;
  viTargetChunkSize : Z;
  viAssets : list Asset;
  viChunkHashes : list Z;
  viAssetChunkIndexes : list Z
}.

Record StoreIndex : Type := mkStoreIndex {
  siBlockHashes : list Z;
  siChunkHashes : list Z
}.

(** A stored block: its hash and the chunk hashes of its block index. *)
Record StoredBlock : Type := mkStoredBlock {
  sbBlockHash : Z;
  sbChunkHashes : list Z
}.

Definition Buffer : Type := list Z.
Definition FileInfos : Type := list string.
Definition HashAPI : Type := Z.
(** A path filter; [nilPathFilter] is the zero value. *)
Inductive PathFilter : Type :=
  | nilPathFilter
  | mkPathFilter (includeRegEx excludeRegEx : string).
Inductive VersionDiff : Type := mkVersionDiff (changed : list string).

Definition noCompressionType : Z := 0.

(** ** [longtailstorelib/s3Store.go] *)

(** [u.Path[1:]], which panics on an empty string. *)
Definition dropFirst (s : string) : Outcome string :=
  match s with
  | EmptyString => Panics "slice bounds out of range [1:0]"
  | String _ rest => Returns rest
  end.

(** [NewS3BlobStore] (no options are passed by [main.go]). *)
Definition NewS3BlobStore (u : URL) : error + BlobStore :=
  if negb (String.eqb (Scheme u) "s3")
  then inl (Errorf "invalid scheme '%s', expected 'gs'" [ArgS (Scheme u)])
  else
    let prefix :=
      match Path u with
      | EmptyString => EmptyString
      | String _ rest => rest
      end in
    let prefix := if String.eqb prefix "" then prefix else prefix +:+ "/" in
    inr (s3BlobStore (Host u) prefix).

(** ** The pure part of the environment *)

(** What [main.go] takes from packages outside the repository's sources and
    that does not touch the world: [runtime.NumCPU], [url.Parse],
    [strings.TrimSpace], and whether the two store constructors whose code
    is not at hand fail. *)
Record Config : Type := mkConfig {
  numWorkerCount : Z;
  url_Parse : string -> error + URL;
  strings_TrimSpace : string -> string;
  NewGCSBlobStore_fails : URL -> option error;
  NewRemoteBlockStore_fails : BlobStore -> string -> AccessType -> option error
}.

(** [main.go:36] *)
Definition createBlockStoreForURI (cfg : Config) (uri optionalStoreIndexPath : string)
    (targetBlockSize maxChunksPerBlock : Z) (accessType : AccessType)
    : Outcome (error + BlockStore) :=
  let newRemote (blob : BlobStore) :=
    match NewRemoteBlockStore_fails cfg blob optionalStoreIndexPath accessType with
    | Some err => Returns (inl err)
    | None =>
        Returns (inr (RemoteBlockStore blob optionalStoreIndexPath
                        (numWorkerCount cfg) accessType))
    end in
  let fallback := Returns (inr (FSBlockStore uri)) in
  match url_Parse cfg uri with
  | inr blobStoreURL =>
      if String.eqb (Scheme blobStoreURL) "gs" then
        match NewGCSBlobStore_fails cfg blobStoreURL with
        | Some err => Returns (inl err)
        | None => newRemote (gcsBlobStore blobStoreURL false)
        end
      else if String.eqb (Scheme blobStoreURL) "s3" then
        match NewS3BlobStore blobStoreURL with
        | inl err => Returns (inl err)
        | inr s3 => newRemote s3
        end
      else if String.eqb (Scheme blobStoreURL) "abfs" then
        Returns (inl (Errorf "azure Gen1 storage not yet implemented" []))
      else if String.eqb (Scheme blobStoreURL) "abfss" then
        Returns (inl (Errorf "azure Gen2 storage not yet implemented" []))
      else if String.eqb (Scheme blobStoreURL) "file" then
        match dropFirst (Path blobStoreURL) with
        | Returns p => Returns (inr (FSBlockStore p))
        | Panics m => Panics m
        | Fatal e => Fatal e
        end
      else fallback
  | inl _ => fallback
  end.

(** ** Files, scanners and zip archives *)

(** A text file as [bufio.Scanner] sees it: its lines, and the read error
    the scanner meets after them, if any. *)
Record TextFile : Type := mkTextFile {
  tfLines : list string;
  tfReadError : option error
}.

(** [bufio.Scanner]: [Scan] hands out the lines one by one; [Err] is nil
    until [Scan] has met the read error. *)
Record Scanner : Type := mkScanner {
  scRemaining : list string;
  scText : string;
  scPending : option error;
  scErr : option error
}.

Definition NewScanner (f : TextFile) : Scanner :=
  mkScanner (tfLines f) "" (tfReadError f) None.

Definition Scan (s : Scanner) : bool * Scanner :=
  match scRemaining s with
  | line :: rest => (true, mkScanner rest line (scPending s) (scErr s))
  | [] => (false, mkScanner [] (scText s) (scPending s) (scPending s))
  end.

Definition Text (s : Scanner) : string := scText s.

(** The method [Err] of a scanner pointer: it reads a field of its receiver, so a nil scanner
    panics. *)
Definition Scanner_Err (s : option Scanner) : Outcome (option error) :=
  match s with
  | None => Panics "invalid memory address or nil pointer dereference"
  | Some sc => Returns (scErr sc)
  end.

(** One entry of a zip archive: [f.Name], [f.FileInfo().IsDir()],
    [f.Mode()], whether [f.Open()] and the reader's [Close] fail, and the
    bytes the reader yields. *)
Record ZipFile : Type := mkZipFile {
  zfName : string;
  zfIsDir : bool;
  zfMode : Z;
  zfOpenError : option error;
  zfCloseError : option error;
  zfContent : Buffer
}.

(** ** Events *)

(** What the program prints or logs. *)
Inductive Output : Type :=
  | OutClone (sourceFilePath targetFilePath : string)
  | OutSkipping (sourceFilePath : string) (errno : Z)
  | OutSkippingValidate (targetFilePath : string)
  | OutValidating (targetFilePath : string)
  | OutFallingBack (sourceFileZipPath : string)
  | OutUnzipping (path : string)
  | OutBlockUsage (percent : Z)
  | OutAssetFragmentation (percent : Z)
  | OutPruneWouldKeep (blocks : Z)
  | OutPruned (blocks : Z)
  | LogMissingData (storageURI sourceFilePath : string).

(** The calls that reach outside the process, with the arguments the
    properties below talk about, in program order. *)
Inductive Event : Type :=
  | EvCreateBlockStore (uri optionalStoreIndexPath : string) (accessType : AccessType)
  | EvGetFilesRecursively (path : string)
  | EvReadFromURI (uri : string)
  | EvWriteToURI (uri : string) (buffer : Buffer)
  | EvCreateVersionIndex (hash : HashAPI) (root : string) (targetChunkSize : Z)
  | EvGetExistingStoreIndex (store : BlockStore) (chunkHashes : list Z) (minBlockUsagePercent : Z)
  | EvChangeVersion (store : BlockStore) (versionPath : string) (retainPermissions : bool)
  | EvWriteContent (store : BlockStore) (versionPath : string)
  | EvGetStoredBlock (store : BlockStore) (blockHash : Z)
  | EvPruneBlocks (store : BlockStore) (keep : list Z)
  | EvFlush (stores : list BlockStore)
  | EvFlushWait (stores : list BlockStore)
  | EvOpen (name : string)
  | EvRemoveAll (path : string)
  | EvMkdirAll (path : string) (mode : Z)
  | EvOpenFile (path : string) (mode : Z)
  | EvCopy (path : string) (content : Buffer)
  | EvClose (path : string)
  | EvOutput (o : Output).

(** ** Function bodies over a world *)

(** A step of a function body continues with a value, returns from the
    function, panics, or exits the process. *)
Inductive Step (R A : Type) : Type :=
  | Next (a : A)
  | Return (r : R)
  | Panic (msg : string)
  | Exit (e : error).
Arguments Next {R A} a.
Arguments Return {R A} r.
Arguments Panic {R A} msg.
Arguments Exit {R A} e.

Section Body.
Context {World : Type}.

(** A piece of a body whose function returns an [R]. *)
Definition Body (R A : Type) : Type :=
  World -> list Event -> Step R A * World * list Event.

(** A whole function. *)
Definition Fn (R : Type) : Type :=
  World -> list Event -> Outcome R * World * list Event.

Definition next {R A} (a : A) : Body R A := fun w t => (Next a, w, t).

Definition bind {R A B} (m : Body R A) (k : A -> Body R B) : Body R B :=
  fun w t =>
    match m w t with
    | (Next a, w', t') => k a w' t'
    | (Return r, w', t') => (Return r, w', t')
    | (Panic msg, w', t') => (Panic msg, w', t')
    | (Exit e, w', t') => (Exit e, w', t')
    end.

(** [return r] *)
Definition ret {R A} (r : R) : Body R A := fun w t => (Return r, w, t).
Definition panic {R A} (msg : string) : Body R A := fun w t => (Panic msg, w, t).
(** [log.Fatal(err)] *)
Definition log_Fatal {R A} (e : error) : Body R A := fun w t => (Exit e, w, t).

Definition emit {R} (e : Event) : Body R unit := fun w t => (Next tt, w, (t ++ [e])%list).

(** A call into the world. *)
Definition world {R A} (f : World -> A * World) : Body R A :=
  fun w t => let '(a, w') := f w in (Next a, w', t).

(** A call of a modelled function. *)
Definition call {R A} (f : Fn A) : Body R A :=
  fun w t =>
    match f w t with
    | (Returns a, w', t') => (Next a, w', t')
    | (Panics msg, w', t') => (Panic msg, w', t')
    | (Fatal e, w', t') => (Exit e, w', t')
    end.

Definition pure {R A} (o : Outcome A) : Body R A :=
  fun w t =>
    match o with
    | Returns a => (Next a, w, t)
    | Panics msg => (Panic msg, w, t)
    | Fatal e => (Exit e, w, t)
    end.

(** A body as a function: falling off the end and [return] both return. *)
Definition fn {R} (b : Body R R) : Fn R :=
  fun w t =>
    match b w t with
    | (Next r, w', t') => (Returns r, w', t')
    | (Return r, w', t') => (Returns r, w', t')
    | (Panic msg, w', t') => (Panics msg, w', t')
    | (Exit e, w', t') => (Fatal e, w', t')
    end.

End Body.
Arguments Body : clear implicits.
Arguments Fn : clear implicits.

Notation "'let!' x ':=' m 'in' k" := (bind m (fun x => k))
  (at level 10, x pattern, m at level 100, k at level 200).
Notation "'run!' m 'in' k" := (bind m (fun _ => k))
  (at level 10, m at level 100, k at level 200).

(** ** Go's [path/filepath] on Unix, as far as [main.go] uses it

    The separator is the slash and there are no volume names. *)

Module Filepath.

(** One path element met by [Clean]; [out] holds the elements kept so
    far, the last one first.  A [..] element takes back the element before
    it when that is a name; at the start of a rooted path it is dropped,
    and at the start of a relative one it is kept. *)
Definition cleanStep (rooted : bool) (out : list string) (elem : string)
    : list string :=
  if String.eqb elem "" then out
  else if String.eqb elem "." then out
  else if String.eqb elem ".." then
    match out with
    | top :: rest => if String.eqb top ".." then ".." :: out else rest
    | [] => if rooted then [] else [".."]
    end
  else elem :: out.

(** [filepath.Clean]: the shortest path equivalent to [path] by purely
    lexical processing. *)
Definition Clean (path : string) : string :=
  if String.eqb path "" then "."
  else
    let rooted := Strings.HasPrefix path "/" in
    let out := fold_left (cleanStep rooted) (Strings.Split path "/") [] in
    let body := Strings.Join (rev out) "/" in
    if rooted then "/" +:+ body
    else if String.eqb body "" then "." else body.

(** [filepath.Join(a, b)] *)
Definition Join (a b : string) : string :=
  if negb (String.eqb a "") then Clean (a +:+ "/" +:+ b)
  else if negb (String.eqb b "") then Clean b
  else "".

(** [path] up to and including its last separator. *)
Fixpoint dirPart (path : string) : string :=
  match path with
  | EmptyString => EmptyString
  | String c rest =>
      if Strings.Contains path "/" then String c (dirPart rest) else EmptyString
  end.

(** [filepath.Dir] *)
Definition Dir (path : string) : string := Clean (dirPart path).

End Filepath.

(** ** The environment *)

(** The calls into [longtaillib], [longtailstorelib], [longtailutils], the
    operating system and [archive/zip].  A library call that reports through
    an errno returns it beside its value, as in Go; zero means success.  Calls
    that read or change files or stores act on the world. *)
Record Env (World : Type) : Type := mkEnv {
  cfg : Config;
  MakeRegexPathFilter : string -> string -> error + PathFilter;
  GetFilesRecursively : PathFilter -> string -> World -> (FileInfos * Z) * World;
  ReadFromURI : string -> World -> (error + Buffer) * World;
  WriteToURI : string -> Buffer -> World -> option error * World;
  ReadVersionIndexFromBuffer : Buffer -> VersionIndex * Z;
  WriteVersionIndexToBuffer : VersionIndex -> Buffer * Z;
  ReadStoreIndexFromBuffer : Buffer -> StoreIndex * Z;
  WriteStoreIndexToBuffer : StoreIndex -> Buffer * Z;
  GetHashAPI_errno : Z -> Z;
  CreateVersionIndex :
    HashAPI -> string -> FileInfos -> option (list Z) -> Z ->
    World -> (VersionIndex * Z) * World;
  CreateVersionDiff : HashAPI -> VersionIndex -> VersionIndex -> VersionDiff * Z;
  GetRequiredChunkHashes : VersionIndex -> VersionDiff -> list Z * Z;
  GetExistingStoreIndexSync :
    BlockStore -> list Z -> Z -> World -> (StoreIndex * Z) * World;
  CreateMissingContent :
    HashAPI -> StoreIndex -> VersionIndex -> Z -> Z -> StoreIndex * Z;
  MergeStoreIndex : StoreIndex -> StoreIndex -> StoreIndex * Z;
  ValidateStore : StoreIndex -> VersionIndex -> Z;
  ChangeVersion :
    BlockStore -> HashAPI -> StoreIndex -> VersionIndex -> VersionIndex ->
    VersionDiff -> string -> bool -> World -> Z * World;
  WriteContent :
    BlockStore -> StoreIndex -> VersionIndex -> string -> World -> Z * World;
  FlushStoresSync : list BlockStore -> World -> Z * World;
  FlushStores : list BlockStore -> World -> Z * World;
  FlushStores_Wait : list BlockStore -> World -> Z * World;
  GetStoredBlock : BlockStore -> Z -> World -> (StoredBlock * Z) * World;
  PruneBlocksSync : BlockStore -> list Z -> World -> (Z * Z) * World;
  os_Open : string -> World -> (error + TextFile) * World;
  os_RemoveAll : string -> World -> World;
  os_MkdirAll : string -> Z -> World -> World;
  os_OpenFile : string -> Z -> World -> option error * World;
  io_Copy : string -> Buffer -> World -> option error * World;
  file_Close : string -> World -> option error * World;
  zip_NewReader : Buffer -> error + list ZipFile
}.
Arguments cfg {World} _.
Arguments MakeRegexPathFilter {World} _ _ _.
Arguments GetFilesRecursively {World} _ _ _ _.
Arguments ReadFromURI {World} _ _ _.
Arguments WriteToURI {World} _ _ _ _.
Arguments ReadVersionIndexFromBuffer {World} _ _.
Arguments WriteVersionIndexToBuffer {World} _ _.
Arguments ReadStoreIndexFromBuffer {World} _ _.
Arguments WriteStoreIndexToBuffer {World} _ _.
Arguments GetHashAPI_errno {World} _ _.
Arguments CreateVersionIndex {World} _ _ _ _ _ _ _.
Arguments CreateVersionDiff {World} _ _ _ _.
Arguments GetRequiredChunkHashes {World} _ _ _.
Arguments GetExistingStoreIndexSync {World} _ _ _ _ _.
Arguments CreateMissingContent {World} _ _ _ _ _ _.
Arguments MergeStoreIndex {World} _ _ _.
Arguments ValidateStore {World} _ _ _.
Arguments ChangeVersion {World} _ _ _ _ _ _ _ _ _ _.
Arguments WriteContent {World} _ _ _ _ _ _.
Arguments FlushStoresSync {World} _ _ _.
Arguments FlushStores {World} _ _ _.
Arguments FlushStores_Wait {World} _ _ _.
Arguments GetStoredBlock {World} _ _ _ _.
Arguments PruneBlocksSync {World} _ _ _ _.
Arguments os_Open {World} _ _ _.
Arguments os_RemoveAll {World} _ _ _.
Arguments os_MkdirAll {World} _ _ _ _.
Arguments os_OpenFile {World} _ _ _ _.
Arguments io_Copy {World} _ _ _ _.
Arguments file_Close {World} _ _ _.
Arguments zip_NewReader {World} _ _.

Section Program.
Context {World : Type} (env : Env World).

(** *** Calls into the world, each leaving its event *)

Definition doGetFilesRecursively {R} (pathFilter : PathFilter) (path : string)
    : Body World R (FileInfos * Z) :=
  run! emit (EvGetFilesRecursively path) in
  world (GetFilesRecursively env pathFilter path).

Definition doReadFromURI {R} (uri : string) : Body World R (error + Buffer) :=
  run! emit (EvReadFromURI uri) in world (ReadFromURI env uri).

Definition doWriteToURI {R} (uri : string) (buffer : Buffer) : Body World R (option error) :=
  run! emit (EvWriteToURI uri buffer) in world (WriteToURI env uri buffer).

Definition doCreateVersionIndex {R} (hash : HashAPI) (root : string)
    (fileInfos : FileInfos) (compressionTypes : option (list Z))
    (targetChunkSize : Z) : Body World R (VersionIndex * Z) :=
  run! emit (EvCreateVersionIndex hash root targetChunkSize) in
  world (CreateVersionIndex env hash root fileInfos compressionTypes targetChunkSize).

Definition doGetExistingStoreIndexSync {R} (store : BlockStore)
    (chunkHashes : list Z) (minBlockUsagePercent : Z) : Body World R (StoreIndex * Z) :=
  run! emit (EvGetExistingStoreIndex store chunkHashes minBlockUsagePercent) in
  world (GetExistingStoreIndexSync env store chunkHashes minBlockUsagePercent).

Definition doChangeVersion {R} (store : BlockStore) (hash : HashAPI)
    (storeIndex : StoreIndex) (targetVersionIndex sourceVersionIndex : VersionIndex)
    (versionDiff : VersionDiff) (versionPath : string) (retainPermissions : bool)
    : Body World R Z :=
  run! emit (EvChangeVersion store versionPath retainPermissions) in
  world (ChangeVersion env store hash storeIndex targetVersionIndex
           sourceVersionIndex versionDiff versionPath retainPermissions).

Definition doWriteContent {R} (store : BlockStore) (storeIndex : StoreIndex)
    (versionIndex : VersionIndex) (versionPath : string) : Body World R Z :=
  run! emit (EvWriteContent store versionPath) in
  world (WriteContent env store storeIndex versionIndex versionPath).

Definition doFlushStoresSync {R} (stores : list BlockStore) : Body World R Z :=
  run! emit (EvFlush stores) in world (FlushStoresSync env stores).

Definition doGetStoredBlock {R} (store : BlockStore) (blockHash : Z)
    : Body World R (StoredBlock * Z) :=
  run! emit (EvGetStoredBlock store blockHash) in
  world (GetStoredBlock env store blockHash).

Definition doPruneBlocksSync {R} (store : BlockStore) (keep : list Z)
    : Body World R (Z * Z) :=
  run! emit (EvPruneBlocks store keep) in world (PruneBlocksSync env store keep).

Definition doOpen {R} (name : string) : Body World R (error + TextFile) :=
  run! emit (EvOpen name) in world (os_Open env name).

Definition doCreateBlockStoreForURI {R} (uri optionalStoreIndexPath : string)
    (targetBlockSize maxChunksPerBlock : Z) (accessType : AccessType)
    : Body World R (error + BlockStore) :=
  run! emit (EvCreateBlockStore uri optionalStoreIndexPath accessType) in
  pure (createBlockStoreForURI (cfg env) uri optionalStoreIndexPath
          targetBlockSize maxChunksPerBlock accessType).

Definition printf {R} (o : Output) : Body World R unit := emit (EvOutput o).

(** [hashRegistry.GetHashAPI(hashIdentifier)]: the handle of the algorithm
    with that identifier, or an errno. *)
Definition GetHashAPI (hashIdentifier : Z) : HashAPI * Z :=
  (hashIdentifier, GetHashAPI_errno env hashIdentifier).

(** [x, err := f(); if err != nil { return onError(err) }] *)
Definition orReturn {R A} (x : error + A) (onError : error -> R) : Body World R A :=
  match x with
  | inl e => ret (onError e)
  | inr a => next a
  end.

(** [x, errno := f(); if errno != 0 { return onError(errno) }] *)
Definition orReturnErrno {R A} (x : A * Z) (onError : Z -> R) : Body World R A :=
  if negb (snd x =? 0) then ret (onError (snd x)) else next (fst x).

(** *** [asyncFolderScanner], [main.go:128]

    The goroutine started by [scan] is run to its end where it is started;
    [get] hands out what it left. *)
Record asyncFolderScanner : Type := mkScannerResult {
  scanFileInfos : FileInfos;
  scanErr : option error
}.

Definition zeroFolderScanner : asyncFolderScanner := mkScannerResult [] None.

Definition scan (sourceFolderPath : string) (pathFilter : PathFilter)
    : Fn World asyncFolderScanner :=
  fn (let! r := doGetFilesRecursively pathFilter (normalizePath sourceFolderPath) in
      let '(fileInfos, errno) := r in
      if negb (errno =? 0) then
        next (mkScannerResult fileInfos
                (Some (Wrapf errno "longtaillib.GetFilesRecursively(%s) failed"
                         [ArgS sourceFolderPath])))
      else next (mkScannerResult fileInfos None)).

(** [main.go:81] *)
Definition getCompressionTypesForFiles (fileInfos : FileInfos) (compressionType : Z)
    : list Z :=
  repeat compressionType (length fileInfos).

(** [main.go:161] *)
Definition getFolderIndex (sourceFolderPath sourceIndexPath : string)
    (targetChunkSize compressionType hashIdentifier : Z)
    (pathFilter : PathFilter) (scanner : asyncFolderScanner)
    : Fn World (error + VersionIndex * HashAPI) :=
  fn (if String.eqb sourceIndexPath "" then
        match scanErr scanner with
        | Some err => ret (inl err)
        | None =>
            let fileInfos := scanFileInfos scanner in
            let compressionTypes :=
              getCompressionTypesForFiles fileInfos compressionType in
            let! hash := orReturnErrno (GetHashAPI hashIdentifier)
              (fun errno => inl (Wrapf errno "hashRegistry.GetHashAPI(%d) failed"
                                   [ArgD hashIdentifier])) in
            let! r := doCreateVersionIndex hash (normalizePath sourceFolderPath)
                        fileInfos (Some compressionTypes) targetChunkSize in
            let! vindex := orReturnErrno r
              (fun errno => inl (Wrapf errno "longtaillib.CreateVersionIndex(%s)"
                                   [ArgS sourceFolderPath])) in
            ret (inr (vindex, hash))
        end
      else
        let! r := doReadFromURI sourceIndexPath in
        let! vbuffer := orReturn r inl in
        let! vindex := orReturnErrno (ReadVersionIndexFromBuffer env vbuffer)
          (fun errno => inl (Wrapf errno
                               "longtaillib.ReadVersionIndexFromBuffer(%s) failed"
                               [ArgS sourceIndexPath])) in
        let! hash := orReturnErrno (GetHashAPI hashIdentifier)
          (fun errno => inl (Wrapf errno "hashRegistry.GetHashAPI(%d) failed"
                               [ArgD hashIdentifier])) in
        ret (inr (vindex, hash))).

(** *** [downSyncVersion], [main.go:548] *)

(** Lines 573-584: the target folder when none is given. *)
Definition resolveTargetFolderPath (targetFolderPath sourceFilePath : string)
    : Body World (option error) string :=
  if String.eqb targetFolderPath "" then
    let urlSplit := Strings.Split (normalizePath sourceFilePath) "/" in
    match last urlSplit with
    | None => panic "index out of range [-1]"
    | Some sourceName =>
        let sourceNameSplit := Strings.Split sourceName "." in
        match head sourceNameSplit with
        | None => panic "index out of range [0] with length 0"
        | Some resolvedTargetFolderPath =>
            if String.eqb resolvedTargetFolderPath "" then
              ret (Some (Errorf
                "downSyncVersion: unable to resolve target path using `%s` as base"
                [ArgS sourceFilePath]))
            else next resolvedTargetFolderPath
        end
    end
  else next targetFolderPath.

(** Lines 807-816: the three lookups filled from the source index. *)
Definition sourceLookups (sourceVersionIndex : VersionIndex)
    : gmap string Z * gmap string Z * gmap string Z :=
  fold_left
    (fun '(assetSizeLookup, assetHashLookup, assetPermissionLookup) a =>
       (<[assetPath a := assetSize a]> assetSizeLookup,
        <[assetPath a := assetHash a]> assetHashLookup,
        <[assetPath a := assetPermissions a]> assetPermissionLookup))
    (viAssets sourceVersionIndex) (∅, ∅, ∅).

(** Lines 817-838: the loop over the re-indexed assets, from index [i]. *)
Fixpoint validateAssets (retainPermissions : bool)
    (assetSizeLookup assetHashLookup assetPermissionLookup : gmap string Z)
    (i : Z) (validateAssetList : list Asset) : option error :=
  match validateAssetList with
  | [] => None
  | a :: rest =>
      let validatePath := assetPath a in
      let validateSize := assetSize a in
      let validateHash := assetHash a in
      let hash := default 0 (assetHashLookup !! validatePath) in
      match assetSizeLookup !! validatePath with
      | None =>
          Some (Errorf "downSyncVersion: failed validation: invalid path %s"
                  [ArgS validatePath])
      | Some size =>
          if negb (size =? validateSize) then
            Some (Errorf "downSyncVersion: failed validation: asset %d size mismatch"
                    [ArgD i])
          else if negb (hash =? validateHash) then
            Some (Errorf "downSyncVersion: failed validation: asset %d hash mismatch"
                    [ArgD i])
          else if retainPermissions
                  && negb (default 0 (assetPermissionLookup !! validatePath)
                           =? assetPermissions a) then
            Some (Errorf
                    "downSyncVersion: failed validation: asset %d permission mismatch"
                    [ArgD i])
          else
            validateAssets retainPermissions assetSizeLookup assetHashLookup
              assetPermissionLookup (i + 1) rest
      end
  end.

(** Lines 798-838: the comparison of the re-indexed target with the
    source. *)
Definition validateAgainstSource (retainPermissions : bool)
    (validateVersionIndex sourceVersionIndex : VersionIndex) : option error :=
  if negb (Z.of_nat (length (viAssets validateVersionIndex))
           =? Z.of_nat (length (viAssets sourceVersionIndex))) then
    Some (Errorf "downSyncVersion: failed validation: asset count mismatch" [])
  else
    let '(assetSizeLookup, assetHashLookup, assetPermissionLookup) :=
      sourceLookups sourceVersionIndex in
    validateAssets retainPermissions assetSizeLookup assetHashLookup
      assetPermissionLookup 0 (viAssets validateVersionIndex).

(** Lines 768-841: the [validate] block. *)
Definition downSyncValidate (pathFilter : PathFilter)
    (resolvedTargetFolderPath : string) (hash : HashAPI) (targetChunkSize : Z)
    (retainPermissions : bool) (sourceVersionIndex : VersionIndex)
    : Body World (option error) unit :=
  let! r := doGetFilesRecursively pathFilter
              (normalizePath resolvedTargetFolderPath) in
  let! validateFileInfos := orReturnErrno r
    (fun errno => Some (Wrapf errno
       "downSyncVersion: longtaillib.GetFilesRecursively() failed" [])) in
  let! r := doCreateVersionIndex hash (normalizePath resolvedTargetFolderPath)
              validateFileInfos None targetChunkSize in
  let! validateVersionIndex := orReturnErrno r
    (fun errno => Some (Wrapf errno
       "downSyncVersion: longtaillib.CreateVersionIndex() failed" [])) in
  match validateAgainstSource retainPermissions validateVersionIndex
          sourceVersionIndex with
  | Some err => ret (Some err)
  | None => next tt
  end.

(** Lines 612-843: the body once the source index is read. *)
Definition downSyncFromSource (blobStoreURI resolvedTargetFolderPath
    targetIndexPath localCachePath : string) (retainPermissions validate : bool)
    (versionLocalStoreIndexPath : string) (pathFilter : PathFilter)
    (targetFolderScanner : asyncFolderScanner) (sourceVersionIndex : VersionIndex)
    : Body World (option error) (option error) :=
  let hashIdentifier := viHashIdentifier sourceVersionIndex in
  let targetChunkSize := viTargetChunkSize sourceVersionIndex in
  let! targetIndexReader :=
    call (getFolderIndex resolvedTargetFolderPath targetIndexPath targetChunkSize
            noCompressionType hashIdentifier pathFilter targetFolderScanner) in
  let! r := doCreateBlockStoreForURI blobStoreURI versionLocalStoreIndexPath
              8388608 1024 ReadOnly in
  let! remoteIndexStore := orReturn r Some in
  let '(localIndexStore, cacheBlockStore, compressBlockStore) :=
    if String.eqb localCachePath "" then
      (nilBlockStore, nilBlockStore, CompressBlockStore remoteIndexStore)
    else
      let localIndexStore := FSBlockStore (normalizePath localCachePath) in
      let cacheBlockStore := CacheBlockStore localIndexStore remoteIndexStore in
      (localIndexStore, cacheBlockStore, CompressBlockStore cacheBlockStore) in
  let lruBlockStore := LRUBlockStore compressBlockStore 32 in
  let indexStore := ShareBlockStore lruBlockStore in
  let! _ := orReturnErrno (GetHashAPI hashIdentifier)
    (fun errno => Some (Wrapf errno
       "downSyncVersion: longtaillib.GetHashAPI() failed" [])) in
  let! (targetVersionIndex, hash) := orReturn targetIndexReader Some in
  let! versionDiff :=
    orReturnErrno (CreateVersionDiff env hash targetVersionIndex sourceVersionIndex)
      (fun errno => Some (Wrapf errno
         "downSyncVersion: longtaillib.CreateVersionDiff() failed" [])) in
  let! chunkHashes :=
    orReturnErrno (GetRequiredChunkHashes env sourceVersionIndex versionDiff)
      (fun errno => Some (Wrapf errno
         "cloneStore: longtaillib.GetRequiredChunkHashes() failed" [])) in
  let! r := doGetExistingStoreIndexSync indexStore chunkHashes 0 in
  let! retargettedVersionStoreIndex := orReturnErrno r
    (fun errno => Some (Wrapf errno
       "downSyncVersion: longtailutils.GetExistingStoreIndexSync(indexStore, chunkHashes) failed"
       [])) in
  let! errno := doChangeVersion indexStore hash retargettedVersionStoreIndex
                  targetVersionIndex sourceVersionIndex versionDiff
                  (normalizePath resolvedTargetFolderPath) retainPermissions in
  if negb (errno =? 0) then
    ret (Some (Wrapf errno "downSyncVersion: longtaillib.ChangeVersion() failed" []))
  else
  let stores := [indexStore; lruBlockStore; compressBlockStore; cacheBlockStore;
                 localIndexStore; remoteIndexStore] in
  let! errno := doFlushStoresSync stores in
  if negb (errno =? 0) then
    ret (Some (Wrapf errno "longtailutils.FlushStoresSync: Failed for `%v`" []))
  else
  run! (if validate then
          downSyncValidate pathFilter resolvedTargetFolderPath hash targetChunkSize
            retainPermissions sourceVersionIndex
        else next tt) in
  ret None.

(** The returned store and time statistics are left out: the function is
    modelled by the error it returns. *)
Definition downSyncVersion (blobStoreURI sourceFilePath targetFolderPath
    targetIndexPath localCachePath : string) (retainPermissions validate : bool)
    (versionLocalStoreIndexPath includeFilterRegEx excludeFilterRegEx : string)
    : Fn World (option error) :=
  fn (let! pathFilter :=
        orReturn (MakeRegexPathFilter env includeFilterRegEx excludeFilterRegEx)
          Some in
      let! resolvedTargetFolderPath :=
        resolveTargetFolderPath targetFolderPath sourceFilePath in
      let! targetFolderScanner :=
        if String.eqb targetIndexPath "" then
          call (scan resolvedTargetFolderPath pathFilter)
        else next zeroFolderScanner in
      let! r := doReadFromURI sourceFilePath in
      let! vbuffer := orReturn r Some in
      let! sourceVersionIndex :=
        orReturnErrno (ReadVersionIndexFromBuffer env vbuffer)
          (fun errno => Some (Wrapf errno
             "downSyncVersion: longtaillib.ReadVersionIndexFromBuffer() failed"
             [])) in
      downSyncFromSource blobStoreURI resolvedTargetFolderPath targetIndexPath
        localCachePath retainPermissions validate versionLocalStoreIndexPath
        pathFilter targetFolderScanner sourceVersionIndex).

(** *** [stats], [main.go:1424] *)

(** The slices [blockHashes[i : i+batchSize]] of the loop at line 1504,
    for a batch size of at least one; [fuel] bounds the number of
    batches.  The worker count is [runtime.NumCPU()] or a [--worker-count]
    other than 0 ([main.go:2851]), so a batch size of 0, with which the
    loops at lines 1504 and 2252 do not end, does not arise; a negative one
    is dealt with where the slice or channel of that size is made. *)
Fixpoint batches {A} (fuel batchSize : nat) (l : list A) : list (list A) :=
  match fuel with
  | O => []
  | S fuel' =>
      match l with
      | [] => []
      | _ => take batchSize l :: batches fuel' batchSize (drop batchSize l)
      end
  end.

(** Lines 1510-1516: the requests of one batch.  They run concurrently in
    the source; here one after the other. *)
Fixpoint fetchBlocks {R} (indexStore : BlockStore) (batch : list Z)
    : Body World R (list (Z * (StoredBlock * Z))) :=
  match batch with
  | [] => next []
  | blockHash :: rest =>
      let! r := doGetStoredBlock indexStore blockHash in
      let! rs := fetchBlocks indexStore rest in
      next ((blockHash, r) :: rs)
  end.

(** Lines 1524-1526 *)
Definition addBlock (blockLookup : gmap Z Z) (blockHash : Z) (chunkHashes : list Z)
    : gmap Z Z :=
  fold_left (fun m chunkHash => <[chunkHash := blockHash]> m) chunkHashes blockLookup.

(** Lines 1518-1528: the completions of one batch, in order.  [errno] is
    the variable of that name at line 1521, last set by
    [GetExistingStoreIndexSync]. *)
Fixpoint collectBlocks (completions : list (Z * (StoredBlock * Z))) (errno : Z)
    (blockLookup : gmap Z Z) (blockChunkCount : Z)
    : Body World (option error) (gmap Z Z * Z) :=
  match completions with
  | [] => next (blockLookup, blockChunkCount)
  | (blockHash, (storedBlock, err)) :: rest =>
      if negb (err =? 0) then
        ret (wrapf errno "stats: remoteStoreIndex.GetStoredBlock() failed" [])
      else
        collectBlocks rest errno
          (addBlock blockLookup blockHash (sbChunkHashes storedBlock))
          (uint32 (blockChunkCount
                   + uint32 (Z.of_nat (length (sbChunkHashes storedBlock)))))
  end.

(** Lines 1504-1532 *)
Fixpoint fetchAllBlocks (indexStore : BlockStore) (bs : list (list Z)) (errno : Z)
    (blockLookup : gmap Z Z) (blockChunkCount : Z)
    : Body World (option error) (gmap Z Z * Z) :=
  match bs with
  | [] => next (blockLookup, blockChunkCount)
  | batch :: rest =>
      let! completions := fetchBlocks indexStore batch in
      let! (blockLookup', blockChunkCount') :=
        collectBlocks completions errno blockLookup blockChunkCount in
      fetchAllBlocks indexStore rest errno blockLookup' blockChunkCount'
  end.

(** Lines 1537-1540 *)
Definition blockUsage (existingStoreIndex : StoreIndex) (blockChunkCount : Z) : Z :=
  if 0 <? blockChunkCount then
    uint32 (uint32 (100 * uint32 (Z.of_nat (length (siChunkHashes existingStoreIndex))))
            / blockChunkCount)
  else uint32 100.

(** Lines 1552-1561: [n] rounds of the loop over the chunks of one asset,
    from position [c].  [None] is an index out of range. *)
Fixpoint countFragments (chunkHashes assetChunkIndexes : list Z)
    (blockLookup : gmap Z Z) (n : nat) (c : Z) (lastBlockIndex : Z)
    (assetFragmentCount : Z) : option (Z * Z) :=
  match n with
  | O => Some (lastBlockIndex, assetFragmentCount)
  | S n' =>
      match assetChunkIndexes !! Z.to_nat c with
      | None => None
      | Some chunkIndex =>
          match chunkHashes !! Z.to_nat chunkIndex with
          | None => None
          | Some chunkHash =>
              let blockIndex := default 0 (blockLookup !! chunkHash) in
              if negb (blockIndex =? lastBlockIndex) then
                countFragments chunkHashes assetChunkIndexes blockLookup n'
                  (uint32 (c + 1)) blockIndex (uint64 (assetFragmentCount + 1))
              else
                countFragments chunkHashes assetChunkIndexes blockLookup n'
                  (uint32 (c + 1)) lastBlockIndex assetFragmentCount
          end
      end
  end.

(** The number of rounds of [for c := chunkIndexOffset;
    c < chunkIndexOffset+chunkCount; c++] in [uint32]. *)
Definition chunkLoopRounds (chunkIndexOffset chunkCount : Z) : nat :=
  Z.to_nat (uint32 (chunkIndexOffset + chunkCount) - chunkIndexOffset).

(** Lines 1547-1562: the loop over the assets. *)
Fixpoint countAssetFragments (chunkHashes assetChunkIndexes : list Z)
    (blockLookup : gmap Z Z) (assets : list Asset) (assetFragmentCount : Z)
    : option Z :=
  match assets with
  | [] => Some assetFragmentCount
  | a :: rest =>
      let chunkCount := assetChunkCount a in
      let chunkIndexOffset := assetChunkIndexStart a in
      let lastBlockIndex := uint64_ones in
      match countFragments chunkHashes assetChunkIndexes blockLookup
              (chunkLoopRounds chunkIndexOffset chunkCount) chunkIndexOffset
              lastBlockIndex assetFragmentCount with
      | None => None
      | Some (_, assetFragmentCount') =>
          countAssetFragments chunkHashes assetChunkIndexes blockLookup rest
            assetFragmentCount'
      end
  end.

(** Lines 1542-1566 *)
Definition assetFragmentation (versionIndex : VersionIndex) (blockLookup : gmap Z Z)
    : option Z :=
  match countAssetFragments (viChunkHashes versionIndex)
          (viAssetChunkIndexes versionIndex) blockLookup (viAssets versionIndex) 0 with
  | None => None
  | Some assetFragmentCount =>
      let assetCount := Z.of_nat (length (viAssets versionIndex)) in
      if 0 <? assetCount then
        Some (uint32 (uint64 (uint64 (100 * assetFragmentCount) / assetCount - 100)))
      else Some (uint32 0)
  end.

Definition stats (blobStoreURI versionIndexPath localCachePath : string)
    : Fn World (option error) :=
  fn (let! r := doCreateBlockStoreForURI blobStoreURI "" 8388608 1024 ReadOnly in
      let! remoteIndexStore := orReturn r Some in
      let '(localIndexStore, cacheBlockStore, indexStore) :=
        if String.eqb localCachePath "" then
          (nilBlockStore, nilBlockStore, remoteIndexStore)
        else
          let localIndexStore := FSBlockStore (normalizePath localCachePath) in
          let cacheBlockStore := CacheBlockStore localIndexStore remoteIndexStore in
          (localIndexStore, cacheBlockStore, cacheBlockStore) in
      let! r := doReadFromURI versionIndexPath in
      let! vbuffer := orReturn r Some in
      let! versionIndex :=
        orReturnErrno (ReadVersionIndexFromBuffer env vbuffer)
          (fun errno => Some (Wrapf errno
             "stats: longtaillib.ReadVersionIndexFromBuffer() failed" [])) in
      let! r := doGetExistingStoreIndexSync indexStore
                  (viChunkHashes versionIndex) 0 in
      let! existingStoreIndex := orReturnErrno r
        (fun errno => Some (Wrapf errno
           "stats: longtailutils.GetExistingStoreIndexSync() failed" [])) in
      let errno := snd r in
      let blockHashes := siBlockHashes existingStoreIndex in
      let maxBatchSize := numWorkerCount (cfg env) in
      (* line 1509: [make([]..., batchSize)] with a negative [batchSize] *)
      run! (if (maxBatchSize <? 0) && (0 <? Z.of_nat (length blockHashes)) then
              panic "makeslice: len out of range"
            else next tt) in
      let! (blockLookup, blockChunkCount) :=
        fetchAllBlocks indexStore
          (batches (length blockHashes) (Z.to_nat maxBatchSize) blockHashes)
          errno ∅ 0 in
      match assetFragmentation versionIndex blockLookup with
      | None => panic "index out of range"
      | Some fragmentation =>
          run! printf (OutBlockUsage (blockUsage existingStoreIndex blockChunkCount)) in
          run! printf (OutAssetFragmentation fragmentation) in
          let stores := [cacheBlockStore; localIndexStore; remoteIndexStore] in
          let! errno := doFlushStoresSync stores in
          if negb (errno =? 0) then
            ret (Some (Wrapf errno
                   "longtailutils.FlushStoresSync: Failed for `%v`" []))
          else ret None
      end).

(** *** [validateOneVersion], [main.go:1661] *)

Definition validateOneVersion (targetStore : BlockStore) (targetFilePath : string)
    (skipValidate : bool) : Fn World (option error) :=
  fn (let! r := doReadFromURI targetFilePath in
      let! tbuffer := orReturn r Some in
      if skipValidate then
        run! printf (OutSkippingValidate targetFilePath) in ret None
      else
        run! printf (OutValidating targetFilePath) in
        let! targetVersionIndex :=
          orReturnErrno (ReadVersionIndexFromBuffer env tbuffer)
            (fun errno => Some (Wrapf errno
               "validateOneVersion: longtaillib.ReadVersionIndexFromBuffer() failed"
               [])) in
        let! r := doGetExistingStoreIndexSync targetStore
                    (viChunkHashes targetVersionIndex) 0 in
        let! targetStoreIndex := orReturnErrno r
          (fun errno => Some (Wrapf errno
             "validateOneVersion: longtailutils.GetExistingStoreIndexSync() failed"
             [])) in
        let errno := ValidateStore env targetStoreIndex targetVersionIndex in
        if negb (errno =? 0) then
          ret (Some (Wrapf errno
                 "validateOneVersion: longtaillib.ValidateStore() failed" []))
        else ret None).

(** *** Version index handles

    A [Longtail_VersionIndex] value is a handle that may be invalid (the
    zero value); calls on an invalid handle see an empty index. *)
Definition zeroVersionIndex : VersionIndex := mkVersionIndex 0 0 [] [] [].

Definition deref (v : option VersionIndex) : VersionIndex :=
  default zeroVersionIndex v.

(** [main.go:1694] *)
Definition Clone (v : option VersionIndex) : option VersionIndex :=
  match v with
  | None => None
  | Some vi =>
      let '(vbuffer, errno) := WriteVersionIndexToBuffer env vi in
      if negb (errno =? 0) then None
      else
        let '(copy, errno) := ReadVersionIndexFromBuffer env vbuffer in
        if negb (errno =? 0) then None else Some copy
  end.

(** *** The zip fallback of [cloneOneVersion] *)

(** [defer]: the deferred call runs when the body returns or panics; a
    panic of the deferred call wins. *)
Definition withDefer {R} (deferred : Body World R unit) (body : Body World R R)
    : Body World R R :=
  fun w t =>
    match body w t with
    | (Next r, w', t') | (Return r, w', t') =>
        match deferred w' t' with
        | (Panic msg, w'', t'') => (Panic msg, w'', t'')
        | (Exit e, w'', t'') => (Exit e, w'', t'')
        | (_, w'', t'') => (Return r, w'', t'')
        end
    | (Panic msg, w', t') =>
        match deferred w' t' with
        | (Panic msg', w'', t'') => (Panic msg', w'', t'')
        | (Exit e, w'', t'') => (Exit e, w'', t'')
        | (_, w'', t'') => (Panic msg, w'', t'')
        end
    | (Exit e, w', t') => (Exit e, w', t')
    end.

Definition doMkdirAll {R} (path : string) (mode : Z) : Body World R unit :=
  run! emit (EvMkdirAll path mode) in
  world (fun w => (tt, os_MkdirAll env path mode w)).

Definition doRemoveAll {R} (path : string) : Body World R unit :=
  run! emit (EvRemoveAll path) in world (fun w => (tt, os_RemoveAll env path w)).

Definition doOpenFile {R} (path : string) (mode : Z) : Body World R (option error) :=
  run! emit (EvOpenFile path mode) in world (os_OpenFile env path mode).

Definition doCopy {R} (path : string) (content : Buffer) : Body World R (option error) :=
  run! emit (EvCopy path content) in world (io_Copy env path content).

Definition doClose {R} (path : string) : Body World R (option error) :=
  run! emit (EvClose path) in world (file_Close env path).

(** [if err := x.Close(); err != nil { panic(err) }] *)
Definition panicOnError {R} (err : option error) : Body World R unit :=
  match err with
  | Some _ => panic "Close failed"
  | None => next tt
  end.

(** The closure [extractAndWriteFile], lines 1847-1886. *)
Definition extractAndWriteFile (targetPath : string) (f : ZipFile)
    : Fn World (option error) :=
  fn (match zfOpenError f with
      | Some err => ret (Some err)
      | None =>
          withDefer (panicOnError (zfCloseError f))
            (let path := Filepath.Join targetPath (zfName f) in
             run! printf (OutUnzipping path) in
             if negb (Strings.HasPrefix path (Filepath.Clean targetPath +:+ "/")) then
               ret (Some (Errorf "illegal file path: %s" [ArgS path]))
             else if zfIsDir f then
               run! doMkdirAll path (zfMode f) in ret None
             else
               run! doMkdirAll (Filepath.Dir path) 511 in
               let! err := doOpenFile path (zfMode f) in
               match err with
               | Some e => ret (Some e)
               | None =>
                   withDefer (let! err := doClose path in panicOnError err)
                     (let! err := doCopy path (zfContent f) in
                      match err with
                      | Some e => ret (Some e)
                      | None => ret None
                      end)
               end)
      end).

(** Lines 1888-1893: the entries in archive order, up to the first
    error. *)
Fixpoint extractAll {R} (targetPath : string) (files : list ZipFile)
    (onError : error -> R) : Body World R unit :=
  match files with
  | [] => next tt
  | f :: rest =>
      let! err := call (extractAndWriteFile targetPath f) in
      match err with
      | Some e => ret (onError e)
      | None => extractAll targetPath rest onError
      end
  end.

(** *** [cloneOneVersion], [main.go:1709]

    The result is the returned version index handle and the returned
    error. *)

(** Lines 1828-1938: the branch taken when [ChangeVersion] failed with
    [errno]; [err] is the variable of that name at line 1830.  It yields
    the new version index and the buffer to write. *)
Definition zipFallback (targetPath sourceFilePath sourceFileZipPath : string)
    (pathFilter : PathFilter) (hashIdentifier targetChunkSize errno : Z)
    (err : option error)
    : Body World (option VersionIndex * option error) (VersionIndex * Buffer) :=
  if String.eqb sourceFileZipPath "" then
    run! printf (OutSkipping sourceFilePath errno) in
    ret (None, err)
  else
    run! printf (OutFallingBack sourceFileZipPath) in
    let! r := doReadFromURI sourceFileZipPath in
    let! zipBytes := orReturn r
      (fun _ => (None, Some (Wrapf errno
                   "cloneStore: longtailstorelib.ReadFromURI() failed" []))) in
    let! files := orReturn (zip_NewReader env zipBytes)
      (fun _ => (None, Some (Wrapf errno
                   "cloneStore: zip.OpenReader()  failed" []))) in
    run! doRemoveAll targetPath in
    run! doMkdirAll targetPath 493 in
    run! extractAll targetPath files (fun e => (None, Some e)) in
    let! r := doGetFilesRecursively pathFilter (normalizePath targetPath) in
    let! fileInfos := orReturnErrno r
      (fun errno => (None, Some (Wrapf errno
         "cloneStore: longtaillib.GetFilesRecursively() failed" []))) in
    let compressionTypes := getCompressionTypesForFiles fileInfos noCompressionType in
    let! hash := orReturnErrno (GetHashAPI hashIdentifier)
      (fun errno => (None, Some (Wrapf errno
         "cloneStore: hashRegistry.GetHashAPI() failed" []))) in
    let! r := doCreateVersionIndex hash (normalizePath targetPath) fileInfos
                (Some compressionTypes) targetChunkSize in
    let! newVersionIndex := orReturnErrno r
      (fun errno => (None, Some (Wrapf errno
         "cloneStore: longtaillib.CreateVersionIndex() failed" []))) in
    let! vbuffer := orReturnErrno (WriteVersionIndexToBuffer env newVersionIndex)
      (fun errno => (None, Some (Wrapf errno
         "cloneStore: longtaillib.WriteVersionIndexToBuffer() failed" []))) in
    next (newVersionIndex, vbuffer).

Definition cloneOneVersion (targetPath : string) (pathFilter : PathFilter)
    (retainPermissions createVersionLocalStoreIndex skipValidate : bool)
    (minBlockUsagePercent targetBlockSize maxChunksPerBlock : Z)
    (sourceStore targetStore sourceRemoteIndexStore targetRemoteStore : BlockStore)
    (targetFilePath sourceFilePath sourceFileZipPath : string)
    (currentVersionIndex : option VersionIndex)
    : Fn World (option VersionIndex * option error) :=
  fn (let! targetFolderScanner := call (scan targetPath pathFilter) in
      let! err := call (validateOneVersion targetStore targetFilePath skipValidate) in
      match err with
      | None => ret (Clone currentVersionIndex, None)
      | Some _ =>
      run! printf (OutClone sourceFilePath targetFilePath) in
      let! r := doReadFromURI sourceFilePath in
      let! vbuffer := orReturn r (fun e => (Clone currentVersionIndex, Some e)) in
      let! sourceVersionIndex :=
        orReturnErrno (ReadVersionIndexFromBuffer env vbuffer)
          (fun _ => (Clone currentVersionIndex, None)) in
      let hashIdentifier := viHashIdentifier sourceVersionIndex in
      let targetChunkSize := viTargetChunkSize sourceVersionIndex in
      let! (targetVersionIndex, hash) :=
        match currentVersionIndex with
        | Some _ =>
            let! hash := orReturnErrno (GetHashAPI hashIdentifier)
              (fun errno => (Clone currentVersionIndex,
                             Some (Wrapf errno "hashRegistry.GetHashAPI(%d) failed"
                                     [ArgD hashIdentifier]))) in
            next (Clone currentVersionIndex, hash)
        | None =>
            let! targetIndexReader :=
              call (getFolderIndex targetPath "" targetChunkSize noCompressionType
                      hashIdentifier pathFilter targetFolderScanner) in
            let! (vi, hash) :=
              orReturn targetIndexReader
                (fun e => (Clone currentVersionIndex, Some e)) in
            next (Some vi, hash)
        end in
      let! versionDiff :=
        orReturnErrno (CreateVersionDiff env hash (deref targetVersionIndex)
                         sourceVersionIndex)
          (fun errno => (Clone currentVersionIndex,
                         Some (Wrapf errno
                           "cloneStore: longtaillib.CreateVersionDiff() failed" []))) in
      let! chunkHashes :=
        orReturnErrno (GetRequiredChunkHashes env sourceVersionIndex versionDiff)
          (fun errno => (Clone currentVersionIndex,
                         Some (Wrapf errno
                           "cloneStore: longtaillib.GetRequiredChunkHashes() failed"
                           []))) in
      let! r := doGetExistingStoreIndexSync sourceStore chunkHashes 0 in
      let! existingStoreIndex := orReturnErrno r
        (fun errno => (Clone currentVersionIndex,
                       Some (Wrapf errno
                         "cloneStore: longtailutils.GetExistingStoreIndexSync() failed"
                         []))) in
      let! errno := doChangeVersion sourceStore hash existingStoreIndex
                      (deref targetVersionIndex) sourceVersionIndex versionDiff
                      (normalizePath targetPath) retainPermissions in
      let! (newVersionIndex, vbuffer) :=
        if errno =? 0 then next (Clone (Some sourceVersionIndex), vbuffer)
        else
          let! (vi, vbuffer') :=
            zipFallback targetPath sourceFilePath sourceFileZipPath pathFilter
              hashIdentifier targetChunkSize errno None in
          next (Some vi, vbuffer') in
      let! r := doGetExistingStoreIndexSync targetStore
                  (viChunkHashes (deref newVersionIndex)) minBlockUsagePercent in
      let! newExistingStoreIndex := orReturnErrno r
        (fun errno => (Clone (Some sourceVersionIndex),
                       Some (Wrapf errno
                         "cloneStore: longtailutils.GetExistingStoreIndexSync() failed"
                         []))) in
      let! versionMissingStoreIndex :=
        orReturnErrno (CreateMissingContent env hash newExistingStoreIndex
                         (deref newVersionIndex) targetBlockSize maxChunksPerBlock)
          (fun errno => (Clone newVersionIndex,
                         Some (Wrapf errno
                           "cloneStore: CreateMissingContent() failed" []))) in
      run! (if 0 <? Z.of_nat (length (siBlockHashes versionMissingStoreIndex)) then
              let! errno := doWriteContent targetStore versionMissingStoreIndex
                              (deref newVersionIndex) (normalizePath targetPath) in
              if negb (errno =? 0) then
                ret (Clone newVersionIndex,
                     Some (Wrapf errno
                       "cloneStore: longtaillib.WriteContent() failed" []))
              else next tt
            else next tt) in
      let stores := [targetRemoteStore; sourceRemoteIndexStore] in
      let! errno := (run! emit (EvFlush stores) in world (FlushStores env stores)) in
      if negb (errno =? 0) then
        ret (Clone newVersionIndex,
             Some (Wrapf errno "longtailutils.FlushStores: Failed for `%v`" []))
      else
      let! err := doWriteToURI targetFilePath vbuffer in
      match err with
      | Some _ =>
          ret (Clone newVersionIndex,
               wrapf errno "cloneStore: longtailstorelib.WriteToURI() failed" [])
      | None =>
      run! (if createVersionLocalStoreIndex then
              let! versionLocalStoreIndex :=
                orReturnErrno (MergeStoreIndex env newExistingStoreIndex
                                 versionMissingStoreIndex)
                  (fun errno => (Clone newVersionIndex,
                                 Some (Wrapf errno
                                   "cloneStore: longtaillib.MergeStoreIndex() failed"
                                   []))) in
              let r := WriteStoreIndexToBuffer env versionLocalStoreIndex in
              let! versionLocalStoreIndexBuffer := orReturnErrno r
                (fun errno => (Clone newVersionIndex,
                               Some (Wrapf errno
                                 "cloneStore: longtaillib.WriteStoreIndexToBuffer() failed"
                                 []))) in
              let errno := snd r in
              let versionLocalStoreIndexPath :=
                Strings.Replace targetFilePath ".lvi" ".lsi" in
              let! err := doWriteToURI versionLocalStoreIndexPath
                            versionLocalStoreIndexBuffer in
              match err with
              | Some _ =>
                  ret (Clone newVersionIndex,
                       wrapf errno "cloneStore: longtailstorelib.WriteToURI() failed" [])
              | None => next tt
              end
            else next tt) in
      let! errno := (run! emit (EvFlushWait stores) in
                     world (FlushStores_Wait env stores)) in
      if negb (errno =? 0) then
        ret (Clone newVersionIndex,
             Some (Wrapf errno "longtailutils.FlushStores: Failed for `%v`" []))
      else ret (Clone newVersionIndex, None)
      end
      end).

(** *** [cloneStore], [main.go:2015] *)

(** Lines 2115-2156.  [remaining] holds the lines the sources scanner has
    not handed out yet and [text] the line it handed out last.  The loop
    yields the three scanners as it leaves them. *)
Fixpoint cloneLoop (targetPath : string)
    (retainPermissions createVersionLocalStoreIndex skipValidate : bool)
    (minBlockUsagePercent targetBlockSize maxChunksPerBlock : Z)
    (sourceStore targetStore sourceRemoteIndexStore targetRemoteStore : BlockStore)
    (remaining : list string) (text : string) (pending : option error)
    (targetsScanner : Scanner) (sourcesZipScanner : option Scanner)
    (pathFilter : PathFilter) (currentVersionIndex : option VersionIndex)
    : Body World (option error) (Scanner * Scanner * option Scanner) :=
  match remaining with
  | [] => next (mkScanner [] text pending pending, targetsScanner, sourcesZipScanner)
  | line :: rest =>
      let sourcesScanner := mkScanner rest line pending None in
      let '(ok, targetsScanner) := Scan targetsScanner in
      if negb ok then next (sourcesScanner, targetsScanner, sourcesZipScanner)
      else
        let '(ok, sourcesZipScanner, sourceFileZipPath) :=
          match sourcesZipScanner with
          | Some z => let '(ok, z') := Scan z in (ok, Some z', Text z')
          | None => (true, None, "")
          end in
        if negb ok then next (sourcesScanner, targetsScanner, sourcesZipScanner)
        else
          let sourceFilePath := Text sourcesScanner in
          let targetFilePath := Text targetsScanner in
          let! (newCurrentVersionIndex, err) :=
            call (cloneOneVersion targetPath pathFilter retainPermissions
                    createVersionLocalStoreIndex skipValidate minBlockUsagePercent
                    targetBlockSize maxChunksPerBlock sourceStore targetStore
                    sourceRemoteIndexStore targetRemoteStore targetFilePath
                    sourceFilePath sourceFileZipPath currentVersionIndex) in
          match err with
          | Some e => ret (Some e)
          | None =>
              cloneLoop targetPath retainPermissions createVersionLocalStoreIndex
                skipValidate minBlockUsagePercent targetBlockSize maxChunksPerBlock
                sourceStore targetStore sourceRemoteIndexStore targetRemoteStore
                rest line pending targetsScanner sourcesZipScanner pathFilter
                newCurrentVersionIndex
          end
  end.

(** [if err := scanner.Err(); err != nil { log.Fatal(err) }] *)
Definition fatalOnScannerError {R} (scanner : option Scanner) : Body World R unit :=
  let! err := pure (Scanner_Err scanner) in
  match err with
  | Some e => log_Fatal e
  | None => next tt
  end.

(** [f, err := os.Open(name); if err != nil { log.Fatal(err) }] *)
Definition openOrFatal {R} (name : string) : Body World R TextFile :=
  let! r := doOpen name in
  match r with
  | inl e => log_Fatal e
  | inr f => next f
  end.

Definition cloneStore (sourceStoreURI targetStoreURI localCachePath targetPath
    sourcePaths sourceZipPaths targetPaths : string)
    (targetBlockSize maxChunksPerBlock : Z)
    (retainPermissions createVersionLocalStoreIndex : bool)
    (hashing compression : string) (minBlockUsagePercent : Z) (skipValidate : bool)
    : Fn World (option error) :=
  fn (let! r := doCreateBlockStoreForURI sourceStoreURI "" 8388608 1024 ReadOnly in
      let! sourceRemoteIndexStore := orReturn r Some in
      let sourceCompressBlockStore :=
        if 0 <? Z.of_nat (String.length localCachePath) then
          let localIndexStore := FSBlockStore (normalizePath localCachePath) in
          let cacheBlockStore := CacheBlockStore localIndexStore sourceRemoteIndexStore in
          CompressBlockStore cacheBlockStore
        else CompressBlockStore sourceRemoteIndexStore in
      let sourceLRUBlockStore := LRUBlockStore sourceCompressBlockStore 32 in
      let sourceStore := ShareBlockStore sourceLRUBlockStore in
      let! r := doCreateBlockStoreForURI targetStoreURI "" targetBlockSize
                  maxChunksPerBlock ReadWrite in
      let! targetRemoteStore := orReturn r Some in
      let targetStore := CompressBlockStore targetRemoteStore in
      let! sourcesFile := openOrFatal sourcePaths in
      let! sourcesZipScanner :=
        if negb (String.eqb sourceZipPaths "") then
          let! sourcesZipFile := openOrFatal sourceZipPaths in
          next (Some (NewScanner sourcesZipFile))
        else next None in
      let! targetsFile := openOrFatal targetPaths in
      let sourcesScanner := NewScanner sourcesFile in
      let targetsScanner := NewScanner targetsFile in
      let! (sourcesScanner, targetsScanner, sourcesZipScanner) :=
        cloneLoop targetPath retainPermissions createVersionLocalStoreIndex
          skipValidate minBlockUsagePercent targetBlockSize maxChunksPerBlock
          sourceStore targetStore sourceRemoteIndexStore targetRemoteStore
          (scRemaining sourcesScanner) (scText sourcesScanner)
          (scPending sourcesScanner) targetsScanner sourcesZipScanner
          nilPathFilter None in
      run! fatalOnScannerError (Some sourcesScanner) in
      run! fatalOnScannerError sourcesZipScanner in
      run! fatalOnScannerError (Some targetsScanner) in
      ret None).

(** *** [pruneStore], [main.go:2171] *)

(** The goroutine of lines 2265-2336 for one version: what it sends on
    [batchErrors] and what it leaves in [blockHashesPerBatch[batchPos]].
    Where the source sends the variable [err] while it is nil, the model
    sends nil. *)
Definition pruneOneVersion (remoteStore : BlockStore) (storageURI : string)
    (writeVersionLocalStoreIndex dryRun : bool)
    (sourceFilePath versionLocalStoreIndexFilePath : string)
    : Fn World (option error * list Z) :=
  fn (let! r := doReadFromURI sourceFilePath in
      let! vbuffer := orReturn r (fun e => (Some e, [])) in
      let! sourceVersionIndex :=
        orReturnErrno (ReadVersionIndexFromBuffer env vbuffer)
          (fun _ => (None, [])) in
      let! fromFile :=
        if negb (String.eqb versionLocalStoreIndexFilePath "")
           && negb writeVersionLocalStoreIndex then
          let! r := doReadFromURI versionLocalStoreIndexFilePath in
          match r with
          | inr sbuffer =>
              let! existingStoreIndex :=
                orReturnErrno (ReadStoreIndexFromBuffer env sbuffer)
                  (fun _ => (None, [])) in
              let errno := ValidateStore env existingStoreIndex sourceVersionIndex in
              if negb (errno =? 0) then next None
              else next (Some existingStoreIndex)
          | inl _ => next None
          end
        else next None in
      let! existingStoreIndex :=
        match fromFile with
        | Some existingStoreIndex => next existingStoreIndex
        | None =>
            let! r := doGetExistingStoreIndexSync remoteStore
                        (viChunkHashes sourceVersionIndex) 0 in
            let! existingStoreIndex := orReturnErrno r (fun _ => (None, [])) in
            let errno := ValidateStore env existingStoreIndex sourceVersionIndex in
            if negb (errno =? 0) then
              if dryRun then
                run! printf (LogMissingData storageURI sourceFilePath) in
                ret (None, [])
              else
                ret (Some (Wrapf errno
                       "Data is missing in store `%s` for version `%s`"
                       [ArgS storageURI; ArgS sourceFilePath]), [])
            else next existingStoreIndex
        end in
      let blockHashes := siBlockHashes existingStoreIndex in
      run! (if negb (String.eqb versionLocalStoreIndexFilePath "")
               && writeVersionLocalStoreIndex && negb dryRun then
              let! sbuffer :=
                orReturnErrno (WriteStoreIndexToBuffer env existingStoreIndex)
                  (fun _ => (None, blockHashes)) in
              let! err := doWriteToURI versionLocalStoreIndexFilePath sbuffer in
              match err with
              | Some e => ret (Some e, blockHashes)
              | None => next tt
              end
            else next tt) in
      ret (None, blockHashes)).

(** Lines 2258-2337: the goroutines of one batch, each run where it is
    started.  An entry is the index [i] and [sourceFilePaths[i]]. *)
Fixpoint runBatch {R} (remoteStore : BlockStore) (storageURI : string)
    (writeVersionLocalStoreIndex dryRun : bool)
    (versionLocalStoreIndexFilePaths : list string) (batch : list (nat * string))
    : Body World R (list (option error * list Z)) :=
  match batch with
  | [] => next []
  | (i, sourceFilePath) :: rest =>
      let! versionLocalStoreIndexFilePath :=
        if 0 <? Z.of_nat (length versionLocalStoreIndexFilePaths) then
          match versionLocalStoreIndexFilePaths !! i with
          | Some path => next path
          | None => panic "index out of range"
          end
        else next "" in
      let! result :=
        call (pruneOneVersion remoteStore storageURI writeVersionLocalStoreIndex
                dryRun sourceFilePath versionLocalStoreIndexFilePath) in
      let! results := runBatch remoteStore storageURI writeVersionLocalStoreIndex
                        dryRun versionLocalStoreIndexFilePaths rest in
      next (result :: results)
  end.

(** Lines 2339-2345: the first error received, taking the messages in
    batch order. *)
Fixpoint firstError (results : list (option error * list Z)) : option error :=
  match results with
  | [] => None
  | (Some e, _) :: _ => Some e
  | (None, _) :: rest => firstError rest
  end.

(** Lines 2346-2350: [usedBlocks[h] += 1] for every hash of the batch. *)
Definition countBlocks (usedBlocks : gmap Z Z) (results : list (option error * list Z))
    : gmap Z Z :=
  fold_left
    (fun m r =>
       fold_left (fun m h => <[h := uint32 (default 0 (m !! h) + 1)]> m) (snd r) m)
    results usedBlocks.

(** Lines 2252-2353 *)
Fixpoint pruneBatches (remoteStore : BlockStore) (storageURI : string)
    (writeVersionLocalStoreIndex dryRun : bool)
    (versionLocalStoreIndexFilePaths : list string)
    (bs : list (list (nat * string))) (usedBlocks : gmap Z Z)
    : Body World (option error) (gmap Z Z) :=
  match bs with
  | [] => next usedBlocks
  | batch :: rest =>
      let! results := runBatch remoteStore storageURI writeVersionLocalStoreIndex
                        dryRun versionLocalStoreIndexFilePaths batch in
      match firstError results with
      | Some batchError => ret (Some batchError)
      | None =>
          pruneBatches remoteStore storageURI writeVersionLocalStoreIndex dryRun
            versionLocalStoreIndexFilePaths rest (countBlocks usedBlocks results)
      end
  end.

Definition pruneStore (storageURI sourcePaths versionLocalStoreIndexesPath : string)
    (writeVersionLocalStoreIndex dryRun : bool) : Fn World (option error) :=
  fn (let storeMode := if negb dryRun then ReadWrite else ReadOnly in
      let! r := doCreateBlockStoreForURI storageURI "" 8388608 1024 storeMode in
      let! remoteStore := orReturn r Some in
      let! sourcesFile := openOrFatal sourcePaths in
      let sourceFilePaths := tfLines sourcesFile in
      let! versionLocalStoreIndexFilePaths :=
        if negb (String.eqb (strings_TrimSpace (cfg env) versionLocalStoreIndexesPath)
                   "") then
          let! versionLocalStoreIndexFile := openOrFatal versionLocalStoreIndexesPath in
          let versionLocalStoreIndexFilePaths := tfLines versionLocalStoreIndexFile in
          if negb (Z.of_nat (length sourceFilePaths)
                   =? Z.of_nat (length versionLocalStoreIndexFilePaths)) then
            ret (Some (Errorf
                   "Number of files in `%s` does not match number of files in `%s`"
                   [ArgFile sourcePaths; ArgS versionLocalStoreIndexesPath]))
          else next versionLocalStoreIndexFilePaths
        else next [] in
      let batchCount :=
        Z.min (numWorkerCount (cfg env)) (Z.of_nat (length sourceFilePaths)) in
      (* line 2249: [make(chan error, batchCount)] *)
      run! (if batchCount <? 0 then panic "makechan: size out of range"
            else next tt) in
      let indexed := imap (fun i sourceFilePath => (i, sourceFilePath)) sourceFilePaths in
      let! usedBlocks :=
        pruneBatches remoteStore storageURI writeVersionLocalStoreIndex dryRun
          versionLocalStoreIndexFilePaths
          (batches (length indexed) (Z.to_nat batchCount) indexed) ∅ in
      if dryRun then
        run! printf (OutPruneWouldKeep (Z.of_nat (size usedBlocks))) in
        ret None
      else
        let blockHashes := (map_to_list usedBlocks).*1 in
        let! r := doPruneBlocksSync remoteStore blockHashes in
        let! prunedBlockCount := orReturnErrno r
          (fun errno => Some (Wrapf errno "store.PruneBlocks() failed" [])) in
        run! printf (OutPruned prunedBlockCount) in
        let! errno := doFlushStoresSync [remoteStore] in
        if negb (errno =? 0) then
          ret (Some (Wrapf errno "longtailutils.FlushStore: Failed for `%s`" []))
        else ret None).

End Program.


(** * Vocabulary of the properties *)

(** [s] without its first [k] bytes. *)
Fixpoint dropBytes (k : nat) (s : string) : string :=
  match k, s with
  | O, _ => s
  | S _, EmptyString => EmptyString
  | S k', String _ s' => dropBytes k' s'
  end.

(** Whether the byte [c] occurs in [s]. *)
Fixpoint occurs (c : ascii) (s : string) : bool :=
  match s with
  | EmptyString => false
  | String x s' => Ascii.eqb x c || occurs c s'
  end.

(** [s] up to its first [c], all of [s] when it has none. *)
Fixpoint beforeFirst (c : ascii) (s : string) : string :=
  match s with
  | EmptyString => EmptyString
  | String x s' => if Ascii.eqb x c then EmptyString else String x (beforeFirst c s')
  end.

(** [s] after its last [c], all of [s] when it has none. *)
Fixpoint afterLast (c : ascii) (s : string) : string :=
  match s with
  | EmptyString => EmptyString
  | String x s' =>
      if occurs c s' then afterLast c s'
      else if Ascii.eqb x c then s' else s
  end.

(** The name [downSyncVersion] gives the target folder when none is passed:
    the last slash-separated segment of the normalized source path, cut at
    its first dot. *)
Definition defaultTargetName (sourceFilePath : string) : string :=
  beforeFirst "." (afterLast "/" (normalizePath sourceFilePath)).

(** What holds of the value a step continues or returns with. *)
Definition stepPost {R A} (QN : A -> Prop) (QR : R -> Prop) (s : Step R A) : Prop :=
  match s with
  | Next a => QN a
  | Return r => QR r
  | _ => True
  end.

Definition outcomePost {R} (Q : R -> Prop) (o : Outcome R) : Prop :=
  match o with
  | Returns r => Q r
  | _ => True
  end.

(** From every world and trace, the events a piece of a body adds to the
    trace all satisfy [P], the value it continues with satisfies [QN] and
    the value it returns from the function with satisfies [QR]. *)
Definition bodySpec {World R A} (P : Event -> Prop) (QN : A -> Prop) (QR : R -> Prop)
    (m : Body World R A) : Prop :=
  forall w t, exists new,
    snd (m w t) = (t ++ new)%list /\ Forall P new /\
    stepPost QN QR (fst (fst (m w t))).

(** The same for a whole function and the value it returns. *)
Definition fnSpec {World R} (P : Event -> Prop) (Q : R -> Prop) (f : Fn World R) : Prop :=
  forall w t, exists new,
    snd (f w t) = (t ++ new)%list /\ Forall P new /\
    outcomePost Q (fst (fst (f w t))).

(** Modelled from the spec: [longtaillib.ValidateStore], which is not among
    the sources.  "Asserts that every chunk hash in version_index appears in
    store_index"; the errno of a failure is [ENOENT]. *)
Definition ValidateStore_spec (storeIndex : StoreIndex) (versionIndex : VersionIndex) : Z :=
  if forallb (fun h => existsb (Z.eqb h) (siChunkHashes storeIndex))
       (viChunkHashes versionIndex)
  then 0 else 2.

(** ** A small world to run the functions in

    One version with one asset of one chunk, stored in one block; every call
    succeeds and nothing depends on the state of the world.  The fields that
    matter to an example are arguments. *)
Definition demoVersionIndex : VersionIndex :=
  mkVersionIndex 3 32768 [mkAsset "a.txt" 10 77 420 1 0] [11] [0].

Definition demoStoreIndex : StoreIndex := mkStoreIndex [5] [11].

Definition demoConfig (parse : string -> error + URL) : Config :=
  mkConfig 4 parse (fun s => s) (fun _ => None) (fun _ _ _ => None).

(** What [url.Parse] gives for a path without a scheme. *)
Definition parseBarePath (uri : string) : error + URL := inr (mkURL "" "" uri).

Definition demoEnvWith (parse : string -> error + URL)
    (files : string -> error + TextFile)
    (readStoreIndex : Buffer -> StoreIndex * Z)
    (existing : StoreIndex * Z)
    (reindexed : VersionIndex)
    (archive : list ZipFile) : Env unit :=
  mkEnv unit (demoConfig parse)
    (fun inc exc => inr (mkPathFilter inc exc))
    (fun _ _ w => (["a.txt"], 0, w))
    (fun _ w => (inr [1], w))
    (fun _ _ w => (None, w))
    (fun _ => (demoVersionIndex, 0))
    (fun _ => ([1], 0))
    readStoreIndex
    (fun _ => ([2], 0))
    (fun _ => 0)
    (fun _ _ _ _ _ w => (reindexed, 0, w))
    (fun _ _ _ => (mkVersionDiff [], 0))
    (fun _ _ => ([11], 0))
    (fun _ _ _ w => (existing, w))
    (fun _ _ _ _ _ => (mkStoreIndex [] [], 0))
    (fun a _ => (a, 0))
    ValidateStore_spec
    (fun _ _ _ _ _ _ _ _ w => (0, w))
    (fun _ _ _ _ w => (0, w))
    (fun _ w => (0, w))
    (fun _ w => (0, w))
    (fun _ w => (0, w))
    (fun _ h w => (mkStoredBlock h [11], 0, w))
    (fun _ _ w => (0, 0, w))
    (fun name w => (files name, w))
    (fun _ w => w)
    (fun _ _ w => w)
    (fun _ _ w => (None, w))
    (fun _ _ w => (None, w))
    (fun _ w => (None, w))
    (fun _ => inr archive).

Definition demoFiles (name : string) : error + TextFile :=
  inr (mkTextFile ["store/v1.lvi"] None).

Definition demoEnv : Env unit :=
  demoEnvWith parseBarePath demoFiles (fun _ => (demoStoreIndex, 0))
    (demoStoreIndex, 0) demoVersionIndex [].

(** An event that builds a version index builds it with the hash [h] and
    the target chunk size [cs]. *)
Definition buildsWith (h cs : Z) (e : Event) : Prop :=
  forall hash root targetChunkSize,
    e = EvCreateVersionIndex hash root targetChunkSize ->
    hash = h /\ targetChunkSize = cs.



(** An event that scans, indexes or changes a folder does so in [folder]. *)
Definition inFolder (folder : string) (e : Event) : Prop :=
  match e with
  | EvGetFilesRecursively path => path = folder
  | EvCreateVersionIndex _ root _ => root = folder
  | EvChangeVersion _ versionPath _ => versionPath = folder
  | _ => True
  end.

(** The source's entry for [path]: the last asset of the source index with
    that path (the lookups of [downSyncVersion] keep the last one written). *)
Definition sourceEntry (sourceVersionIndex : VersionIndex) (path : string)
    : option Asset :=
  last (filter (fun a => assetPath a = path) (viAssets sourceVersionIndex)).

(** A re-indexed asset agrees with the source: the source has an entry for
    its path, of the same size and content hash, and of the same permissions
    when permissions are retained. *)
Definition matchesSource (retainPermissions : bool) (sourceVersionIndex : VersionIndex)
    (a : Asset) : Prop :=
  exists s,
    sourceEntry sourceVersionIndex (assetPath a) = Some s /\
    assetSize s = assetSize a /\
    assetHash s = assetHash a /\
    (retainPermissions = true -> assetPermissions s = assetPermissions a).

(** The events of a dry run: stores are opened read-only, files and indexes
    are read, and lines are printed; nothing is written, pruned, flushed or
    changed. *)
Definition dryRunEvent (e : Event) : Prop :=
  match e with
  | EvCreateBlockStore _ _ accessType => accessType = ReadOnly
  | EvOpen _ | EvReadFromURI _ | EvGetExistingStoreIndex _ _ _ | EvOutput _ => True
  | _ => False
  end.

(** The distinct block hashes among the block sets of [results]. *)
Definition keptBlocks (results : list (option error * list Z)) : gset Z :=
  list_to_set (concat (results.*2)).

(** From every world and trace, the value a piece of a body continues or
    returns with is related to the events it has added. *)
Definition bodyPost {World R A} (QN : A -> list Event -> Prop)
    (QR : R -> list Event -> Prop) (m : Body World R A) : Prop :=
  forall w t, exists new,
    snd (m w t) = (t ++ new)%list /\
    match fst (fst (m w t)) with
    | Next a => QN a new
    | Return r => QR r new
    | _ => True
    end.

(** From the world [w1], [pruneStore] gets no block set out of the
    per-version store index file and is left in the world [w2]: no file is
    named, or the index is to be written anew, or the file cannot be read,
    or the index read from it does not validate against the version. *)
Definition fileIndexUnusable {World} (env : Env World)
    (versionLocalStoreIndexFilePath : string) (writeVersionLocalStoreIndex : bool)
    (sourceVersionIndex : VersionIndex) (w1 w2 : World) : Prop :=
  ((versionLocalStoreIndexFilePath = "" \/ writeVersionLocalStoreIndex = true) /\
   w2 = w1) \/
  (versionLocalStoreIndexFilePath <> "" /\ writeVersionLocalStoreIndex = false /\
   ((exists e, ReadFromURI env versionLocalStoreIndexFilePath w1 = (inl e, w2)) \/
    (exists sbuffer storeIndex,
       ReadFromURI env versionLocalStoreIndexFilePath w1 = (inr sbuffer, w2) /\
       ReadStoreIndexFromBuffer env sbuffer = (storeIndex, 0) /\
       ValidateStore env storeIndex sourceVersionIndex <> 0))).

(** A world in which the per-version store index file and the remote store
    name different blocks for the chunk of the one version. *)
Definition twoIndexEnv : Env unit :=
  demoEnvWith parseBarePath demoFiles (fun _ => (mkStoreIndex [1] [11], 0))
    (mkStoreIndex [2] [11], 0) demoVersionIndex [].

(** What the goroutine of [pruneStore] does once the per-version file has
    given no block set, from the world [w2] and the trace [t2]: it queries
    the remote store and goes on from the answer. *)
Definition afterFile {World} (env : Env World) (remoteStore : BlockStore)
    (storageURI : string) (writeVersionLocalStoreIndex dryRun : bool)
    (sourceFilePath versionLocalStoreIndexFilePath : string)
    (sourceVersionIndex : VersionIndex) (w2 : World) (t2 : list Event)
    : Outcome (option error * list Z) * World * list Event :=
  let t3 := (t2 ++ [EvGetExistingStoreIndex remoteStore
                      (viChunkHashes sourceVersionIndex) 0])%list in
  let '(storeIndex, errno, w3) :=
    GetExistingStoreIndexSync env remoteStore (viChunkHashes sourceVersionIndex) 0 w2 in
  if negb (errno =? 0) then (Returns (None, []), w3, t3)
  else if negb (ValidateStore env storeIndex sourceVersionIndex =? 0) then
    if dryRun then
      (Returns (None, []), w3,
       (t3 ++ [EvOutput (LogMissingData storageURI sourceFilePath)])%list)
    else
      (Returns (Some (Wrapf (ValidateStore env storeIndex sourceVersionIndex)
                        "Data is missing in store `%s` for version `%s`"
                        [ArgS storageURI; ArgS sourceFilePath]), []), w3, t3)
  else if negb (String.eqb versionLocalStoreIndexFilePath "")
          && writeVersionLocalStoreIndex && negb dryRun then
    let '(sbuffer, errno) := WriteStoreIndexToBuffer env storeIndex in
    if negb (errno =? 0) then (Returns (None, siBlockHashes storeIndex), w3, t3)
    else
      let '(err, w4) := WriteToURI env versionLocalStoreIndexFilePath sbuffer w3 in
      (Returns (err, siBlockHashes storeIndex), w4,
       (t3 ++ [EvWriteToURI versionLocalStoreIndexFilePath sbuffer])%list)
  else (Returns (None, siBlockHashes storeIndex), w3, t3).

(** The block a chunk position of a version lies in, as [stats] sees it:
    the block hash recorded for the chunk's hash, 0 for a chunk of no fetched
    block.  [None] when the position or the chunk index is out of range. *)
Definition chunkBlock (versionIndex : VersionIndex) (blockLookup : gmap Z Z) (c : nat)
    : option Z :=
  match viAssetChunkIndexes versionIndex !! c with
  | None => None
  | Some chunkIndex =>
      match viChunkHashes versionIndex !! Z.to_nat chunkIndex with
      | None => None
      | Some chunkHash => Some (default 0 (blockLookup !! chunkHash))
      end
  end.

(** The blocks of the [n] chunk positions from [c] on. *)
Fixpoint blocksFrom (versionIndex : VersionIndex) (blockLookup : gmap Z Z)
    (c n : nat) : option (list Z) :=
  match n with
  | O => Some []
  | S n' =>
      match chunkBlock versionIndex blockLookup c with
      | None => None
      | Some b =>
          match blocksFrom versionIndex blockLookup (S c) n' with
          | None => None
          | Some bs => Some (b :: bs)
          end
      end
  end.

(** The blocks of the chunks of an asset, in order. *)
Definition assetBlocks (versionIndex : VersionIndex) (blockLookup : gmap Z Z)
    (a : Asset) : option (list Z) :=
  blocksFrom versionIndex blockLookup
    (Z.to_nat (assetChunkIndexStart a)) (Z.to_nat (assetChunkCount a)).

(** The number of maximal runs of equal neighbours in a list: the fragments
    of an asset with these blocks. *)
Fixpoint runs (blocks : list Z) : Z :=
  match blocks with
  | [] => 0
  | x :: rest =>
      match rest with
      | [] => 1
      | y :: _ => (if x =? y then 0 else 1) + runs rest
      end
  end.

(** The number of elements that differ from the element before them, the
    first one being compared with [before]. *)
Fixpoint changes (before : Z) (blocks : list Z) : Z :=
  match blocks with
  | [] => 0
  | x :: rest => (if x =? before then 0 else 1) + changes x rest
  end.

(** The index is well formed for [stats]: the chunk range of every asset is
    a range of 32-bit numbers that lies within the chunk index table, whose
    entries are chunks of the chunk table; [blocks] lists the blocks of the
    chunks of each asset. *)
Definition assetsIndexed (versionIndex : VersionIndex) (blockLookup : gmap Z Z)
    (blocks : list (list Z)) : Prop :=
  Forall2
    (fun a bs =>
       0 <= assetChunkIndexStart a /\ 0 <= assetChunkCount a /\
       assetChunkIndexStart a + assetChunkCount a < 2 ^ 32 /\
       assetBlocks versionIndex blockLookup a = Some bs)
    (viAssets versionIndex) blocks.

Definition sumZ (l : list Z) : Z := fold_right Z.add 0 l.

(** A version whose one chunk lies in a block with the hash [2^64 - 1]. *)
Definition onesLookup : gmap Z Z := {[ 11 := uint64_ones ]}.

(** What is printed as asset fragmentation is the fragmentation, for some
    block lookup, of a version index read from [versionIndexPath]. *)
Definition reportsFragmentation {World} (env : Env World) (versionIndexPath : string)
    (e : Event) : Prop :=
  forall p, e = EvOutput (OutAssetFragmentation p) ->
    exists w vbuffer blockLookup,
      fst (ReadFromURI env versionIndexPath w) = inr vbuffer /\
      snd (ReadVersionIndexFromBuffer env vbuffer) = 0 /\
      assetFragmentation (fst (ReadVersionIndexFromBuffer env vbuffer)) blockLookup
      = Some p.

(** A world whose one block has the hash [2^64 - 1]. *)
Definition onesEnv : Env unit :=
  demoEnvWith parseBarePath demoFiles (fun _ => (demoStoreIndex, 0))
    (mkStoreIndex [uint64_ones] [11], 0) demoVersionIndex [].

(** The directory a path names from the working directory [cwd] (its
    elements from the root): [..] steps up, and stays at the root. *)
Definition resolveStep (dir : list string) (elem : string) : list string :=
  if String.eqb elem "" then dir
  else if String.eqb elem "." then dir
  else if String.eqb elem ".." then removelast dir
  else (dir ++ [elem])%list.

Definition resolvePath (cwd : list string) (path : string) : list string :=
  fold_left resolveStep (Strings.Split path "/")
    (if Strings.HasPrefix path "/" then [] else cwd).

Fixpoint isPrefixOf (d p : list string) : bool :=
  match d, p with
  | [], _ => true
  | _ :: _, [] => false
  | x :: d', y :: p' => String.eqb x y && isPrefixOf d' p'
  end.

(** [path] names something strictly inside the directory [dir]. *)
Definition liesStrictlyInside (cwd : list string) (dir path : string) : bool :=
  isPrefixOf (resolvePath cwd dir) (resolvePath cwd path)
  && (length (resolvePath cwd dir) <? length (resolvePath cwd path))%nat.

(** What [url.Parse] gives for ["file://store"]: the scheme [file], the host
    [store] and an empty path. *)
Definition parseFileHost (uri : string) : error + URL := inr (mkURL "file" "store" "").

(** An archive entry that steps out of the directory it is unpacked in. *)
Definition evilEntry : ZipFile := mkZipFile "../evil.txt" false 420 None None [1; 2; 3].

(** * More of the command line: vocabulary *)

(** The events of a download: a store is opened read-only only, and nothing
    is written to a URI or to a store, pruned, unpacked or deleted. *)
Definition downloadEvent (e : Event) : Prop :=
  match e with
  | EvCreateBlockStore _ _ accessType => accessType = ReadOnly
  | EvGetFilesRecursively _ | EvReadFromURI _ | EvCreateVersionIndex _ _ _
  | EvGetExistingStoreIndex _ _ _ | EvChangeVersion _ _ _ | EvFlush _ => True
  | _ => False
  end.


(** [r] is what the goroutine of [pruneStore] yields for the version at
    line [i] of the list of sources, with the per-version store index file of
    that line when such files are listed. *)
Definition prunedVersionAt {World} (env : Env World) (remoteStore : BlockStore)
    (storageURI : string) (writeVersionLocalStoreIndex dryRun : bool)
    (versionLocalStoreIndexFilePaths : list string)
    (entry : nat * string) (r : option error * list Z) : Prop :=
  exists versionLocalStoreIndexFilePath w t,
    (if 0 <? Z.of_nat (length versionLocalStoreIndexFilePaths)
     then versionLocalStoreIndexFilePaths !! fst entry
          = Some versionLocalStoreIndexFilePath
     else versionLocalStoreIndexFilePath = "") /\
    fst (fst (pruneOneVersion env remoteStore storageURI writeVersionLocalStoreIndex
                dryRun (snd entry) versionLocalStoreIndexFilePath w t))
    = Returns r.

(** What [pruneStore] passes to [PruneBlocks]: the store it has opened for
    writing at [storageURI], and as the blocks to keep, each once, the
    blocks of the block sets that the versions listed in the file
    [sourcePaths] have yielded, every version without an error. *)
Definition prunesToVersions {World} (env : Env World)
    (storageURI sourcePaths : string) (writeVersionLocalStoreIndex : bool)
    (e : Event) : Prop :=
  forall store keep, e = EvPruneBlocks store keep ->
    createBlockStoreForURI (cfg env) storageURI "" 8388608 1024 ReadWrite
    = Returns (inr store) /\
    NoDup keep /\
    exists w0 sourcesFile versionLocalStoreIndexFilePaths results,
      fst (os_Open env sourcePaths w0) = inr sourcesFile /\
      Forall2 (prunedVersionAt env store storageURI writeVersionLocalStoreIndex false
                 versionLocalStoreIndexFilePaths)
        (imap (fun i sourceFilePath => (i, sourceFilePath)) (tfLines sourcesFile))
        results /\
      Forall (fun r => fst r = None) results /\
      forall h, In h keep <-> exists r, In r results /\ In h (snd r).

(** No line is printed for a skipped version. *)
Definition notSkipping (e : Event) : Prop :=
  forall sourceFilePath errno, e <> EvOutput (OutSkipping sourceFilePath errno).

(** An event that is no write to a URI. *)
Definition notWritten (e : Event) : Prop :=
  forall uri buffer, e <> EvWriteToURI uri buffer.

(** From every world and trace, a piece of a body relates the value it
    continues or returns with to the events it has added, and the events of
    a run that panics or exits satisfy [QX]. *)
Definition bodyEnds {World R A} (QN : A -> list Event -> Prop)
    (QR : R -> list Event -> Prop) (QX : list Event -> Prop)
    (m : Body World R A) : Prop :=
  forall w t, exists new,
    snd (m w t) = (t ++ new)%list /\
    match fst (fst (m w t)) with
    | Next a => QN a new
    | Return r => QR r new
    | _ => QX new
    end.

(** A run of [cloneOneVersion] that skips its version: the last thing it
    has done is to print that it skips the version, for a non-zero errno;
    before that it has written nothing to a URI; no zip file was named; and
    it returns an invalid version index and no error. *)
Definition skippedVersion (sourceFilePath sourceFileZipPath : string)
    (r : option VersionIndex * option error) (new : list Event) : Prop :=
  exists before errno,
    new = (before ++ [EvOutput (OutSkipping sourceFilePath errno)])%list /\
    errno <> 0 /\
    Forall (fun e => notSkipping e /\ notWritten e) before /\
    r = (None, None) /\
    sourceFileZipPath = "".

(** An environment with another answer of [ChangeVersion]. *)
Definition withChangeVersion {World} (env : Env World)
    (changeVersion : BlockStore -> HashAPI -> StoreIndex -> VersionIndex ->
                     VersionIndex -> VersionDiff -> string -> bool ->
                     World -> Z * World) : Env World :=
  mkEnv World (cfg env) (MakeRegexPathFilter env) (GetFilesRecursively env)
    (ReadFromURI env) (WriteToURI env) (ReadVersionIndexFromBuffer env)
    (WriteVersionIndexToBuffer env) (ReadStoreIndexFromBuffer env)
    (WriteStoreIndexToBuffer env) (GetHashAPI_errno env) (CreateVersionIndex env)
    (CreateVersionDiff env) (GetRequiredChunkHashes env)
    (GetExistingStoreIndexSync env) (CreateMissingContent env) (MergeStoreIndex env)
    (ValidateStore env) changeVersion (WriteContent env) (FlushStoresSync env)
    (FlushStores env) (FlushStores_Wait env) (GetStoredBlock env)
    (PruneBlocksSync env) (os_Open env) (os_RemoveAll env) (os_MkdirAll env)
    (os_OpenFile env) (io_Copy env) (file_Close env) (zip_NewReader env).

(** A world whose store holds no chunk and in which [ChangeVersion] fails
    with the errno 5. *)
Definition brokenStoreEnv : Env unit :=
  withChangeVersion
    (demoEnvWith parseBarePath demoFiles (fun _ => (demoStoreIndex, 0))
       (mkStoreIndex [] [], 0) demoVersionIndex [])
    (fun _ _ _ _ _ _ _ _ w => (5, w)).

(** Two runs with the same first part: where the run [rf] returns without
    an error, the run [rt] is as [Q] says of the world and the trace [rf]
    has returned with; where [rf] ends otherwise, [rt] ends as [rf] does.
    [rf] does not fall off its end. *)
Definition continuesWith {World A}
    (Q : World -> list Event -> Step (option error) A * World * list Event -> Prop)
    (rf rt : Step (option error) A * World * list Event) : Prop :=
  match rf with
  | (Return None, w, t) => Q w t rt
  | (Next _, _, _) => False
  | _ => rt = rf
  end.

(** A world in which indexing the target folder finds the file of the
    version with another content hash. *)
Definition changedTargetIndex : VersionIndex :=
  mkVersionIndex 3 32768 [mkAsset "a.txt" 10 78 420 1 0] [11] [0].

Definition changedTargetEnv : Env unit :=
  demoEnvWith parseBarePath demoFiles (fun _ => (demoStoreIndex, 0))
    (demoStoreIndex, 0) changedTargetIndex [].

(** The lines of the list of per-version store index files that
    [pruneStore] reads in the world [w]: none when no list is named. *)
Definition listedIndexFiles {World} (env : Env World)
    (versionLocalStoreIndexesPath : string) (w : World) : list string :=
  if String.eqb (strings_TrimSpace (cfg env) versionLocalStoreIndexesPath) "" then []
  else match fst (os_Open env versionLocalStoreIndexesPath w) with
       | inr versionLocalStoreIndexFile => tfLines versionLocalStoreIndexFile
       | inl _ => []
       end.

(** The answers of the store to requests for the blocks [blockHashes], made
    one after the other from the world [w], and the world they leave. *)
Fixpoint storedBlocks {World} (env : Env World) (indexStore : BlockStore)
    (blockHashes : list Z) (w : World) : list (Z * (StoredBlock * Z)) * World :=
  match blockHashes with
  | [] => ([], w)
  | blockHash :: rest =>
      let '(r, w1) := GetStoredBlock env indexStore blockHash w in
      let '(rs, w2) := storedBlocks env indexStore rest w1 in
      ((blockHash, r) :: rs, w2)
  end.

(** The block of a chunk among fetched blocks: the last of them whose block
    index lists the hash of the chunk. *)
Fixpoint blockOfChunk (fetched : list (Z * (StoredBlock * Z))) (chunkHash : Z)
    : option Z :=
  match fetched with
  | [] => None
  | (blockHash, (storedBlock, _)) :: rest =>
      match blockOfChunk rest chunkHash with
      | Some later => Some later
      | None =>
          if existsb (Z.eqb chunkHash) (sbChunkHashes storedBlock) then Some blockHash
          else None
      end
  end.

(** The number of chunks the block indexes of fetched blocks list, added up
    in 32 bits. *)
Definition fetchedChunkCount (fetched : list (Z * (StoredBlock * Z))) : Z :=
  fold_left
    (fun count c =>
       uint32 (count + uint32 (Z.of_nat (length (sbChunkHashes (fst (snd c)))))))
    fetched 0.

(** An environment with other answers about the version index read, the
    blocks of the store and the content of a block. *)
Definition withStoredBlocks {World} (env : Env World)
    (readVersionIndex : Buffer -> VersionIndex * Z)
    (existing : BlockStore -> list Z -> Z -> World -> (StoreIndex * Z) * World)
    (getStoredBlock : BlockStore -> Z -> World -> (StoredBlock * Z) * World)
    : Env World :=
  mkEnv World (cfg env) (MakeRegexPathFilter env) (GetFilesRecursively env)
    (ReadFromURI env) (WriteToURI env) readVersionIndex
    (WriteVersionIndexToBuffer env) (ReadStoreIndexFromBuffer env)
    (WriteStoreIndexToBuffer env) (GetHashAPI_errno env) (CreateVersionIndex env)
    (CreateVersionDiff env) (GetRequiredChunkHashes env)
    existing (CreateMissingContent env) (MergeStoreIndex env)
    (ValidateStore env) (ChangeVersion env) (WriteContent env) (FlushStoresSync env)
    (FlushStores env) (FlushStores_Wait env) getStoredBlock
    (PruneBlocksSync env) (os_Open env) (os_RemoveAll env) (os_MkdirAll env)
    (os_OpenFile env) (io_Copy env) (file_Close env) (zip_NewReader env).

(** A version of two files, the first of two chunks and the second of one;
    the store keeps the chunks of the first file in two blocks, and the chunk
    of the second file in the first of these. *)
Definition fragmentedVersionIndex : VersionIndex :=
  mkVersionIndex 3 32768
    [mkAsset "a.txt" 20 77 420 2 0; mkAsset "b.txt" 10 78 420 1 2]
    [11; 12; 13] [0; 1; 2].

Definition fragmentedStoreIndex : StoreIndex := mkStoreIndex [5; 6] [11; 12; 13].

Definition fragmentedEnv : Env unit :=
  withStoredBlocks demoEnv
    (fun _ => (fragmentedVersionIndex, 0))
    (fun _ _ _ w => (fragmentedStoreIndex, 0, w))
    (fun _ blockHash w =>
       (mkStoredBlock blockHash (if blockHash =? 5 then [11; 13] else [12]), 0, w)).

Definition fragmentedLookup : gmap Z Z := {[ 11 := 5; 12 := 6; 13 := 5 ]}.

(** A world with two versions listed, each with the blocks 5 and 6. *)
Definition twoVersionsEnv : Env unit :=
  demoEnvWith parseBarePath
    (fun _ => inr (mkTextFile ["store/v1.lvi"; "store/v2.lvi"] None))
    (fun _ => (demoStoreIndex, 0)) (mkStoreIndex [5; 6] [11], 0)
    demoVersionIndex [].

(** An environment with another worker count. *)
Definition withWorkerCount {World} (env : Env World) (workers : Z) : Env World :=
  mkEnv World
    (mkConfig workers (url_Parse (cfg env)) (strings_TrimSpace (cfg env))
       (NewGCSBlobStore_fails (cfg env)) (NewRemoteBlockStore_fails (cfg env)))
    (MakeRegexPathFilter env) (GetFilesRecursively env)
    (ReadFromURI env) (WriteToURI env) (ReadVersionIndexFromBuffer env)
    (WriteVersionIndexToBuffer env) (ReadStoreIndexFromBuffer env)
    (WriteStoreIndexToBuffer env) (GetHashAPI_errno env) (CreateVersionIndex env)
    (CreateVersionDiff env) (GetRequiredChunkHashes env)
    (GetExistingStoreIndexSync env) (CreateMissingContent env) (MergeStoreIndex env)
    (ValidateStore env) (ChangeVersion env) (WriteContent env) (FlushStoresSync env)
    (FlushStores env) (FlushStores_Wait env) (GetStoredBlock env)
    (PruneBlocksSync env) (os_Open env) (os_RemoveAll env) (os_MkdirAll env)
    (os_OpenFile env) (io_Copy env) (file_Close env) (zip_NewReader env).

(** * Properties *)

(** ** Strings *)

Section StringFacts.

Lemma HasPrefix_length s prefix :
  Strings.HasPrefix s prefix = true -> (String.length prefix <= String.length s)%nat.
Proof.
  revert s; induction prefix as [|p prefix IH]; intros [|c s]; simpl; try lia.
  destruct (Ascii.eqb c p); [|discriminate].
  intros H; apply IH in H; lia.
Qed.

Lemma HasPrefix_empty prefix :
  prefix <> "" -> Strings.HasPrefix "" prefix = false.
Proof. destruct prefix; [congruence|reflexivity]. Qed.

Lemma length_app (s1 s2 : string) :
  String.length (s1 +:+ s2) = (String.length s1 + String.length s2)%nat.
Proof. induction s1 as [|c s1 IH]; [reflexivity|]. simpl. congruence. Qed.

(** Where no occurrence of [old] starts, [Replace] changes nothing. *)
Lemma Replace_absent s old new :
  Strings.Contains s old = false -> Strings.Replace s old new = s.
Proof.
  unfold Strings.Replace.
  induction s as [|c s IH]; [reflexivity|].
  cbn [Strings.Contains Strings.replaceFrom].
  intros H; apply orb_false_iff in H as [Hp Hc].
  rewrite Hp, (IH Hc); reflexivity.
Qed.

(** A replacement no longer than the pattern never lengthens the string. *)
Lemma replaceFrom_length_le old new :
  (String.length new <= String.length old)%nat ->
  forall s skip,
    (String.length (Strings.replaceFrom old new s skip) + Nat.min skip (String.length s)
     <= String.length s)%nat.
Proof.
  intros Hlen; induction s as [|c s IH]; intros skip; [simpl; lia|].
  destruct skip as [|k]; cbn [Strings.replaceFrom].
  - destruct (Strings.HasPrefix (String c s) old) eqn:Hp.
    + apply HasPrefix_length in Hp. simpl in Hp.
      rewrite length_app.
      specialize (IH (String.length old - 1)%nat). simpl. lia.
    + specialize (IH 0%nat). simpl in *. lia.
  - specialize (IH k). simpl. lia.
Qed.

(** A shorter replacement shortens every string in which the pattern
    occurs. *)
Lemma replaceFrom_length_lt old new :
  (String.length new < String.length old)%nat ->
  forall s skip,
    (skip <= String.length s)%nat ->
    Strings.Contains (dropBytes skip s) old = true ->
    (String.length (Strings.replaceFrom old new s skip) + skip < String.length s)%nat.
Proof.
  intros Hlen; induction s as [|c s IH]; intros skip Hskip Hc.
  - destruct skip; simpl in Hc; destruct old; simpl in *; try lia; discriminate.
  - destruct skip as [|k]; cbn [Strings.replaceFrom].
    + cbn [dropBytes Strings.Contains] in Hc.
      destruct (Strings.HasPrefix (String c s) old) eqn:Hp.
      * apply HasPrefix_length in Hp. simpl in Hp.
        rewrite length_app.
        pose proof (replaceFrom_length_le old new ltac:(lia) s
                      (String.length old - 1)%nat). simpl. lia.
      * simpl in Hc. specialize (IH 0%nat ltac:(lia) Hc). simpl. lia.
    + simpl in Hskip. specialize (IH k ltac:(lia) Hc). simpl. lia.
Qed.

Lemma Replace_length_le s old new :
  (String.length new <= String.length old)%nat ->
  (String.length (Strings.Replace s old new) <= String.length s)%nat.
Proof.
  intros H. pose proof (replaceFrom_length_le old new H s 0%nat).
  unfold Strings.Replace. lia.
Qed.

Lemma Replace_length_lt s old new :
  (String.length new < String.length old)%nat ->
  Strings.Contains s old = true ->
  (String.length (Strings.Replace s old new) < String.length s)%nat.
Proof.
  intros H Hc.
  pose proof (replaceFrom_length_lt old new H s 0%nat ltac:(lia) Hc).
  unfold Strings.Replace. lia.
Qed.

Lemma Contains_byte_app (c : ascii) (a b : string) :
  Strings.Contains (a +:+ b) (String c "")
  = Strings.Contains a (String c "") || Strings.Contains b (String c "").
Proof.
  induction a as [|x a IH]; [reflexivity|].
  change (String x a +:+ b) with (String x (a +:+ b)).
  cbn [Strings.Contains Strings.HasPrefix]. rewrite IH.
  destruct (Ascii.eqb x c); reflexivity.
Qed.

(** Replacing a byte by another string that is free of it removes the
    byte. *)
Lemma Replace_byte_gone (c : ascii) new s :
  Strings.Contains new (String c "") = false ->
  Strings.Contains (Strings.Replace s (String c "") new) (String c "") = false.
Proof.
  intros Hnew. unfold Strings.Replace.
  induction s as [|x s IH]; [reflexivity|].
  cbn [Strings.replaceFrom Strings.HasPrefix String.length Nat.sub].
  destruct (Ascii.eqb x c) eqn:Hx.
  - rewrite Contains_byte_app, Hnew, IH. reflexivity.
  - cbn [Strings.Contains Strings.HasPrefix]. rewrite Hx. exact IH.
Qed.

(** A string free of a byte is free of every pattern that starts with
    it. *)
Lemma Contains_byte_absent (c : ascii) rest s :
  Strings.Contains s (String c "") = false ->
  Strings.Contains s (String c rest) = false.
Proof.
  induction s as [|x s IH]; [reflexivity|].
  cbn [Strings.Contains Strings.HasPrefix].
  destruct (Ascii.eqb x c); [discriminate|]. simpl. exact IH.
Qed.

End StringFacts.

(** ** [normalizePath] *)

Section NormalizePath.

Lemma normalizePath_no_backslash (p : string) :
  Strings.Contains (normalizePath p) (String backslash "") = false.
Proof. unfold normalizePath. apply Replace_byte_gone. reflexivity. Qed.

(** On a path without backslashes and without a doubled slash,
    [normalizePath] changes nothing. *)
Lemma normalizePath_fixed (q : string) :
  Strings.Contains q (String backslash "") = false ->
  Strings.Contains q "//" = false ->
  normalizePath q = q.
Proof.
  intros Hb Hs. unfold normalizePath.
  rewrite (Replace_absent q "//" "/" Hs).
  rewrite (Replace_absent q _ "/" (Contains_byte_absent _ _ _ Hb)).
  apply Replace_absent, Hb.
Qed.

(** A doubled slash makes [normalizePath] shorten the path. *)
Lemma normalizePath_shortens (q : string) :
  Strings.Contains q "//" = true ->
  (String.length (normalizePath q) < String.length q)%nat.
Proof.
  intros Hs. unfold normalizePath.
  pose proof (Replace_length_lt q "//" "/" ltac:(simpl; lia) Hs) as H1.
  pose proof (Replace_length_le (Strings.Replace q "//" "/")
                (String backslash (String backslash "")) "/"
                ltac:(simpl; lia)) as H2.
  pose proof (Replace_length_le
                (Strings.Replace (Strings.Replace q "//" "/")
                   (String backslash (String backslash "")) "/")
                (String backslash "") "/" ltac:(simpl; lia)) as H3.
  lia.
Qed.

End NormalizePath.

(** C10, as stated, fails: [normalizePath] takes ["///"] to ["//"] and that
    to ["/"], so applying it twice differs from applying it once. *)
Lemma normalizePath_not_idempotent :
  normalizePath "///" = "//" /\
  normalizePath (normalizePath "///") = "/" /\
  normalizePath (normalizePath "///") <> normalizePath "///".
Proof. repeat split; try reflexivity. vm_compute. discriminate. Qed.

(** C10, amended: the result of [normalizePath] never holds a backslash, and
    [normalizePath] applied to its own result returns that result exactly
    when the result holds no doubled slash. *)
Theorem normalizePath_idempotent_iff (p : string) :
  Strings.Contains (normalizePath p) (String backslash "") = false /\
  (normalizePath (normalizePath p) = normalizePath p <->
   Strings.Contains (normalizePath p) "//" = false).
Proof.
  split; [apply normalizePath_no_backslash|]. split.
  - intros Heq.
    destruct (Strings.Contains (normalizePath p) "//") eqn:Hs; [|reflexivity].
    apply normalizePath_shortens in Hs. rewrite Heq in Hs. lia.
  - intros Hs. apply normalizePath_fixed; [apply normalizePath_no_backslash|exact Hs].
Qed.

(** ** [strings.Split] at a one-byte separator *)

Section SplitByte.
Variable c : ascii.

Lemma beforeFirst_absent s : occurs c s = false -> beforeFirst c s = s.
Proof.
  induction s as [|x s IH]; [reflexivity|]. simpl.
  destruct (Ascii.eqb x c); [discriminate|]. simpl. intros H. f_equal. auto.
Qed.

Lemma afterLast_absent s : occurs c s = false -> afterLast c s = s.
Proof.
  destruct s as [|x s]; [reflexivity|]. simpl.
  destruct (Ascii.eqb x c); [discriminate|]. simpl. intros ->. reflexivity.
Qed.

Lemma splitFrom_byte s :
  forall h t, Strings.splitFrom (String c "") s 0 = (h, t) ->
    h = beforeFirst c s /\
    last (h :: t) = Some (afterLast c s) /\
    (occurs c s = false -> t = []) /\
    (occurs c s = true -> t <> []).
Proof.
  induction s as [|x s IH]; intros h t.
  - simpl. intros [= <- <-]. repeat split; congruence.
  - cbn [Strings.splitFrom Strings.HasPrefix String.length Nat.sub].
    destruct (Strings.splitFrom (String c "") s 0) as [h' t'] eqn:E.
    destruct (IH h' t' eq_refl) as (Hh & Hl & Hno & Hyes).
    cbn [beforeFirst afterLast occurs].
    destruct (Ascii.eqb x c) eqn:Hx; intros [= <- <-]; cbn [orb].
    + repeat split; try congruence.
      change (last ("" :: h' :: t')) with (last (h' :: t')).
      rewrite Hl. destruct (occurs c s) eqn:Ho; [reflexivity|].
      rewrite afterLast_absent by assumption. reflexivity.
    + split; [congruence|]. split; [|split; assumption].
      destruct (occurs c s) eqn:Ho.
      * destruct t' as [|y t']; [exfalso; apply Hyes; reflexivity|].
        rewrite <- Hl. reflexivity.
      * rewrite (Hno eq_refl). simpl.
        rewrite Hh, beforeFirst_absent by assumption. reflexivity.
Qed.

Lemma Split_byte_head s :
  head (Strings.Split s (String c "")) = Some (beforeFirst c s).
Proof.
  unfold Strings.Split.
  destruct (Strings.splitFrom (String c "") s 0) as [h t] eqn:E.
  apply splitFrom_byte in E as (-> & _). reflexivity.
Qed.

Lemma Split_byte_last s :
  last (Strings.Split s (String c "")) = Some (afterLast c s).
Proof.
  unfold Strings.Split.
  destruct (Strings.splitFrom (String c "") s 0) as [h t] eqn:E.
  apply splitFrom_byte in E as (_ & H & _). exact H.
Qed.

End SplitByte.

(** ** Traces and results *)

Section Specs.
Context {World : Type}.
Variable P : Event -> Prop.

Lemma bodySpec_silent {R A} (QN : A -> Prop) (QR : R -> Prop) (m : Body World R A) :
  (forall w t, snd (m w t) = t /\ stepPost QN QR (fst (fst (m w t)))) ->
  bodySpec P QN QR m.
Proof.
  intros H w t. exists []. destruct (H w t) as [E Q].
  rewrite E, app_nil_r. repeat split; [constructor|exact Q].
Qed.

Lemma bodySpec_next {R A} (QN : A -> Prop) (QR : R -> Prop) (a : A) :
  QN a -> bodySpec P QN QR (next (World:=World) a).
Proof. intros H. apply bodySpec_silent. intros; split; [reflexivity|exact H]. Qed.

Lemma bodySpec_ret {R A} (QN : A -> Prop) (QR : R -> Prop) (r : R) :
  QR r -> bodySpec P QN QR (ret (World:=World) r).
Proof. intros H. apply bodySpec_silent. intros; split; [reflexivity|exact H]. Qed.

Lemma bodySpec_panic {R A} (QN : A -> Prop) (QR : R -> Prop) msg :
  bodySpec P QN QR (panic (World:=World) msg).
Proof. apply bodySpec_silent. intros; split; [reflexivity|exact I]. Qed.

Lemma bodySpec_log_Fatal {R A} (QN : A -> Prop) (QR : R -> Prop) e :
  bodySpec P QN QR (log_Fatal (World:=World) e).
Proof. apply bodySpec_silent. intros; split; [reflexivity|exact I]. Qed.

Lemma bodySpec_world {R A} (QR : R -> Prop) (f : World -> A * World) :
  bodySpec P (fun a => exists w, a = fst (f w)) QR (world f).
Proof.
  apply bodySpec_silent. intros w t. unfold world.
  destruct (f w) as [a w'] eqn:E. split; [reflexivity|].
  simpl. exists w. rewrite E. reflexivity.
Qed.

Lemma bodySpec_pure {R A} (QR : R -> Prop) (o : Outcome A) :
  bodySpec P (fun a => o = Returns a) QR (pure (World:=World) o).
Proof.
  apply bodySpec_silent. intros w t. destruct o; (split; [reflexivity|]); simpl; auto.
Qed.

Lemma bodySpec_emit {R} (QR : R -> Prop) (e : Event) :
  P e -> bodySpec P (fun _ => True) QR (emit (World:=World) e).
Proof.
  intros H w t. exists [e]. split; [reflexivity|]. split; [|exact I].
  repeat constructor. exact H.
Qed.

Lemma bodySpec_bind {R A B} (QA : A -> Prop) (QB : B -> Prop) (QR : R -> Prop)
    (m : Body World R A) (k : A -> Body World R B) :
  bodySpec P QA QR m ->
  (forall a, QA a -> bodySpec P QB QR (k a)) ->
  bodySpec P QB QR (bind m k).
Proof.
  intros Hm Hk w t. unfold bind.
  destruct (Hm w t) as (new & E & Hnew & Hq).
  destruct (m w t) as [[s w'] t']. simpl in E, Hq. subst t'.
  destruct s as [a|r|msg|e]; try (exists new; repeat split; assumption).
  destruct (Hk a Hq w' (t ++ new)%list) as (new' & E' & Hnew' & Hq').
  exists (new ++ new')%list. rewrite E', app_assoc. split; [reflexivity|].
  split; [apply Forall_app; split; assumption|exact Hq'].
Qed.

Lemma bodySpec_weaken {R A} (QN QN' : A -> Prop) (QR QR' : R -> Prop)
    (m : Body World R A) :
  bodySpec P QN QR m ->
  (forall a, QN a -> QN' a) -> (forall r, QR r -> QR' r) ->
  bodySpec P QN' QR' m.
Proof.
  intros Hm HN HR w t. destruct (Hm w t) as (new & E & Hnew & Hq).
  exists new. repeat split; try assumption.
  destruct (fst (fst (m w t))); simpl in *; auto.
Qed.

Lemma bodySpec_call {R A} (Q : A -> Prop) (QR : R -> Prop) (f : Fn World A) :
  fnSpec P Q f -> bodySpec P Q QR (call f).
Proof.
  intros Hf w t. destruct (Hf w t) as (new & E & Hnew & Hq). exists new.
  unfold call. destruct (f w t) as [[o w'] t']. simpl in E, Hq. subst.
  destruct o; repeat split; auto.
Qed.

Lemma fnSpec_fn {R} (Q : R -> Prop) (b : Body World R R) :
  bodySpec P Q Q b -> fnSpec P Q (fn b).
Proof.
  intros Hb w t. destruct (Hb w t) as (new & E & Hnew & Hq). exists new.
  unfold fn. destruct (b w t) as [[s w'] t']. simpl in E, Hq. subst.
  destruct s; repeat split; auto.
Qed.

Lemma bodySpec_orReturn {R A} (QR : R -> Prop) (x : error + A) (onError : error -> R) :
  (forall e, x = inl e -> QR (onError e)) ->
  bodySpec P (fun a => x = inr a) QR (orReturn (World:=World) x onError).
Proof.
  intros H. destruct x; [apply bodySpec_ret|apply bodySpec_next]; auto.
Qed.

Lemma bodySpec_orReturnErrno {R A} (QR : R -> Prop) (x : A * Z) (onError : Z -> R) :
  (snd x <> 0 -> QR (onError (snd x))) ->
  bodySpec P (fun a => a = fst x /\ snd x = 0) QR
    (orReturnErrno (World:=World) x onError).
Proof.
  intros H. unfold orReturnErrno. destruct (Z.eqb_spec (snd x) 0) as [E|E]; simpl.
  - apply bodySpec_next. auto.
  - apply bodySpec_ret. auto.
Qed.

Lemma bodySpec_withDefer {R} (QN : R -> Prop) (QR : R -> Prop)
    (deferred : Body World R unit) (body : Body World R R) :
  bodySpec P (fun _ => True) (fun _ => True) deferred ->
  bodySpec P QR QR body ->
  bodySpec P QN QR (withDefer deferred body).
Proof.
  intros Hd Hb w t. unfold withDefer.
  destruct (Hb w t) as (new & E & Hnew & Hq).
  destruct (body w t) as [[s w'] t']. simpl in E, Hq. subst t'.
  destruct (Hd w' (t ++ new)%list) as (new' & E' & Hnew' & _).
  destruct s as [a|r|msg|e];
    try (destruct (deferred w' (t ++ new)%list) as [[s' w''] t''];
         simpl in E'; subst t''; exists (new ++ new')%list;
         rewrite app_assoc;
         destruct s'; (split; [reflexivity|split;
           [apply Forall_app; split; assumption|simpl; auto]])).
  exists new. repeat split; auto.
Qed.

End Specs.

Lemma bodySpec_events {World R A} (P P' : Event -> Prop) (QN : A -> Prop)
    (QR : R -> Prop) (m : Body World R A) :
  (forall e, P e -> P' e) -> bodySpec P QN QR m -> bodySpec P' QN QR m.
Proof.
  intros HP Hm w t. destruct (Hm w t) as (new & E & Hnew & Hq).
  exists new. repeat split; try assumption.
  eapply Forall_impl; eauto.
Qed.

Lemma bodySpec_bind_any {World R A B} (P : Event -> Prop) (QB : B -> Prop)
    (QR : R -> Prop) (m : Body World R A) (k : A -> Body World R B) :
  bodySpec P (fun _ => True) QR m ->
  (forall a, bodySpec P QB QR (k a)) ->
  bodySpec P QB QR (bind m k).
Proof. intros Hm Hk. eapply bodySpec_bind; [exact Hm|auto]. Qed.

Lemma bodySpec_any {World R A} (P : Event -> Prop) (QN : A -> Prop) (QR : R -> Prop)
    (m : Body World R A) :
  bodySpec P QN QR m -> bodySpec P (fun _ => True) QR m.
Proof. intros H. eapply bodySpec_weaken; eauto. Qed.

(** A logged call into the world. *)
Lemma bodySpec_logged {World R A} (P : Event -> Prop) (QR : R -> Prop)
    (e : Event) (f : World -> A * World) :
  P e ->
  bodySpec P (fun a => exists w, a = fst (f w)) QR (bind (emit e) (fun _ => world f)).
Proof.
  intros H. eapply bodySpec_bind; [apply bodySpec_emit, H|].
  intros _ _. apply bodySpec_world.
Qed.

(** One step of a proof about a body: the rule of its head construct. *)
Ltac spec_head :=
  lazymatch goal with
  | |- bodySpec _ _ _ (next _) => apply bodySpec_next
  | |- bodySpec _ _ _ (ret _) => apply bodySpec_ret
  | |- bodySpec _ _ _ (panic _) => apply bodySpec_panic
  | |- bodySpec _ _ _ (log_Fatal _) => apply bodySpec_log_Fatal
  | |- bodySpec _ _ _ (world _) => eapply bodySpec_any; apply bodySpec_world
  | |- bodySpec _ _ _ (pure _) => eapply bodySpec_any; apply bodySpec_pure
  | |- bodySpec _ _ _ (emit _) => apply bodySpec_emit
  | |- bodySpec _ _ _ (printf _) => apply bodySpec_emit
  | |- bodySpec _ _ _ (orReturn _ _) => eapply bodySpec_any; apply bodySpec_orReturn
  | |- bodySpec _ _ _ (orReturnErrno _ _) =>
      eapply bodySpec_any; apply bodySpec_orReturnErrno
  | |- bodySpec _ _ _ (call _) => apply bodySpec_call
  | |- bodySpec _ _ _ (withDefer _ _) => apply bodySpec_withDefer
  | |- bodySpec _ _ _ (bind (emit _) (fun _ => world _)) =>
      eapply bodySpec_any; apply bodySpec_logged
  | |- bodySpec _ _ _ (bind (orReturn _ _) _) =>
      eapply bodySpec_bind; [apply bodySpec_orReturn|intros ? ?]
  | |- bodySpec _ _ _ (bind (orReturnErrno _ _) _) =>
      eapply bodySpec_bind; [apply bodySpec_orReturnErrno|intros ? [? ?]]
  | |- bodySpec _ _ _ (bind (bind (emit _) (fun _ => world _)) _) =>
      eapply bodySpec_bind; [apply bodySpec_logged|intros ? [? ?]]
  | |- bodySpec _ _ _ (bind _ _) => apply bodySpec_bind_any; [|intros ?]
  | |- bodySpec _ _ _ (match ?x with _ => _ end) => destruct x eqn:?
  | |- fnSpec _ _ (fn _) => apply fnSpec_fn
  end.

(** ** [downSyncVersion]: the parameters of the indexes it builds *)

Ltac unfold_calls :=
  unfold doGetFilesRecursively, doReadFromURI, doWriteToURI, doCreateVersionIndex,
    doGetExistingStoreIndexSync, doChangeVersion, doWriteContent, doFlushStoresSync,
    doGetStoredBlock, doPruneBlocksSync, doOpen, doCreateBlockStoreForURI,
    doMkdirAll, doRemoveAll, doOpenFile, doCopy, doClose, printf.

Ltac other_event := intros ? ? ? ?; discriminate.

Section DownSyncParameters.
Context {World : Type} (env : Env World).


Lemma scan_buildsWith h cs folder pathFilter :
  fnSpec (buildsWith h cs) (fun _ => True) (scan env folder pathFilter).
Proof.
  unfold scan. unfold_calls. repeat (spec_head; try other_event; try exact I).
Qed.

Lemma getFolderIndex_buildsWith folder indexPath targetChunkSize compressionType
    hashIdentifier pathFilter scanner :
  fnSpec (buildsWith hashIdentifier targetChunkSize)
    (fun r => forall vi h, r = inr (vi, h) -> h = hashIdentifier)
    (getFolderIndex env folder indexPath targetChunkSize compressionType
       hashIdentifier pathFilter scanner).
Proof.
  unfold getFolderIndex. unfold_calls.
  repeat (spec_head; try other_event; try discriminate; try exact I).
  all: try (intros; discriminate).
  all: try (intros ? ? [= <- <-]; subst; reflexivity).
  intros ? ? ? [= <- <- <-]. subst. split; reflexivity.
Qed.



End DownSyncParameters.

Lemma fnSpec_In {World R} (P : Event -> Prop) (Q : R -> Prop) (f : Fn World R) :
  fnSpec P Q f -> forall w e, In e (snd (f w [])) -> P e.
Proof.
  intros Hf w e Hin. destruct (Hf w []) as (new & E & Hnew & _).
  rewrite E in Hin. simpl in Hin.
  rewrite Forall_forall in Hnew. apply Hnew. apply list_elem_of_In. exact Hin.
Qed.

Section DownSyncSource.
Context {World : Type} (env : Env World).

Lemma scan_emits (P : Event -> Prop) folder pathFilter :
  P (EvGetFilesRecursively (normalizePath folder)) ->
  fnSpec P (fun _ => True) (scan env folder pathFilter).
Proof.
  intros H. unfold scan, doGetFilesRecursively.
  repeat (spec_head; try exact H; try exact I).
Qed.


End DownSyncSource.




(** ** Runs that share their first part *)

Section Runs.
Context {World : Type}.

Lemma bind_ext {R A B} (m : Body World R A) (k1 k2 : A -> Body World R B) w t :
  (forall a w' t', m w t = (Next a, w', t') -> k1 a w' t' = k2 a w' t') ->
  bind m k1 w t = bind m k2 w t.
Proof.
  intros H. unfold bind.
  destruct (m w t) as [[[a|r|msg|e] w'] t']; try reflexivity.
  apply H. reflexivity.
Qed.

Lemma fn_ext {R} (b1 b2 : Body World R R) w t :
  b1 w t = b2 w t -> fn b1 w t = fn b2 w t.
Proof. intros H. unfold fn. rewrite H. reflexivity. Qed.

Lemma bind_Next {R A B} (m : Body World R A) (k : A -> Body World R B) w t a w' t' :
  m w t = (Next a, w', t') -> bind m k w t = k a w' t'.
Proof. intros H. unfold bind. rewrite H. reflexivity. Qed.

Lemma fn_bind_Next {R A} (m : Body World R A) (k : A -> Body World R R)
    w t a w' t' :
  m w t = (Next a, w', t') -> fn (bind m k) w t = fn (k a) w' t'.
Proof. intros H. unfold fn. rewrite (bind_Next _ _ _ _ _ _ _ H). reflexivity. Qed.

(** A call into the world that leaves its event. *)
Lemma logged_run {R A} (e : Event) (f : World -> A * World) w t :
  bind (R:=R) (emit e) (fun _ => world f) w t
  = (Next (fst (f w)), snd (f w), (t ++ [e])%list).
Proof. unfold bind, emit, world. destruct (f w). reflexivity. Qed.

(** A function that returns without an error has gone through its first
    step when that step does not return so. *)
Lemma fn_bind_inv {A} (m : Body World (option error) A)
    (k : A -> Body World (option error) (option error)) w t :
  fst (fst (fn (bind m k) w t)) = Returns None ->
  (forall w' t', m w t <> (Return None, w', t')) ->
  exists a w' t', m w t = (Next a, w', t') /\ fn (bind m k) w t = fn (k a) w' t'.
Proof.
  unfold fn, bind. intros Hret Hnil.
  destruct (m w t) as [[[a|[e|]|msg|e] w'] t']; try discriminate.
  - eexists _, _, _. split; reflexivity.
  - destruct (Hnil w' t'). reflexivity.
Qed.

(** The events of a function are added to the trace. *)
Lemma fn_appends {R} (P : Event -> Prop) (QN QR : R -> Prop) (b : Body World R R) w t :
  bodySpec P QN QR b -> exists new, snd (fn b w t) = (t ++ new)%list.
Proof.
  intros Hb. destruct (Hb w t) as (new & E & _). exists new.
  unfold fn. destruct (b w t) as [[[] ?] ?]; exact E.
Qed.

End Runs.

(** ** [downSyncVersion]: the default target folder *)

Section DefaultTarget.
Context {World : Type} (env : Env World).

Lemma resolveTargetFolderPath_default sourceFilePath (w : World) t :
  resolveTargetFolderPath "" sourceFilePath w t
  = (if String.eqb (defaultTargetName sourceFilePath) ""
     then Return (Some (Errorf
            "downSyncVersion: unable to resolve target path using `%s` as base"
            [ArgS sourceFilePath]))
     else Next (defaultTargetName sourceFilePath), w, t).
Proof.
  unfold resolveTargetFolderPath, defaultTargetName. simpl String.eqb.
  change "/" with (String "/"%char "").
  rewrite Split_byte_last.
  change "." with (String "."%char "").
  rewrite Split_byte_head.
  destruct (String.eqb (beforeFirst _ _) _); reflexivity.
Qed.

Lemma resolveTargetFolderPath_given targetFolderPath sourceFilePath (w : World) t :
  targetFolderPath <> "" ->
  resolveTargetFolderPath targetFolderPath sourceFilePath w t
  = (Next targetFolderPath, w, t).
Proof.
  intros H. unfold resolveTargetFolderPath.
  destruct (String.eqb_spec targetFolderPath ""); [contradiction|reflexivity].
Qed.

(** Without a name for the target folder, [downSyncVersion] returns an
    error before it touches anything. *)
Lemma downSyncVersion_no_target_name blobStoreURI sourceFilePath targetIndexPath
    localCachePath retainPermissions validate versionLocalStoreIndexPath
    includeFilterRegEx excludeFilterRegEx (w : World) t :
  defaultTargetName sourceFilePath = "" ->
  exists e,
    downSyncVersion env blobStoreURI sourceFilePath "" targetIndexPath
      localCachePath retainPermissions validate versionLocalStoreIndexPath
      includeFilterRegEx excludeFilterRegEx w t
    = (Returns (Some e), w, t).
Proof.
  intros Hname. unfold downSyncVersion, fn, bind at 1, orReturn.
  destruct (MakeRegexPathFilter env includeFilterRegEx excludeFilterRegEx)
    as [e|pathFilter]; [exists e; reflexivity|].
  unfold next at 1. unfold bind at 1.
  rewrite resolveTargetFolderPath_default, Hname. simpl.
  eexists. reflexivity.
Qed.

Lemma getFolderIndex_inFolder folder indexPath targetChunkSize compressionType
    hashIdentifier pathFilter scanner :
  fnSpec (inFolder (normalizePath folder)) (fun _ => True)
    (getFolderIndex env folder indexPath targetChunkSize compressionType
       hashIdentifier pathFilter scanner).
Proof.
  unfold getFolderIndex. unfold_calls.
  repeat (spec_head; try exact I; try reflexivity).
  all: intros; exact I.
Qed.

Lemma downSyncFromSource_inFolder blobStoreURI resolved targetIndexPath
    localCachePath retainPermissions validate versionLocalStoreIndexPath pathFilter
    targetFolderScanner sourceVersionIndex :
  bodySpec (inFolder (normalizePath resolved)) (fun _ => True) (fun _ => True)
    (downSyncFromSource env blobStoreURI resolved targetIndexPath localCachePath
       retainPermissions validate versionLocalStoreIndexPath pathFilter
       targetFolderScanner sourceVersionIndex).
Proof.
  unfold downSyncFromSource, downSyncValidate. unfold_calls.
  eapply bodySpec_bind_any;
    [apply bodySpec_call, getFolderIndex_inFolder|intros targetIndexReader].
  repeat (spec_head; try exact I; try reflexivity).
  all: intros; exact I.
Qed.

Lemma downSyncVersion_inFolder blobStoreURI sourceFilePath targetIndexPath
    localCachePath retainPermissions validate versionLocalStoreIndexPath
    includeFilterRegEx excludeFilterRegEx :
  fnSpec (inFolder (normalizePath (defaultTargetName sourceFilePath)))
    (fun _ => True)
    (downSyncVersion env blobStoreURI sourceFilePath "" targetIndexPath
       localCachePath retainPermissions validate versionLocalStoreIndexPath
       includeFilterRegEx excludeFilterRegEx).
Proof.
  unfold downSyncVersion. apply fnSpec_fn.
  spec_head; [exact (fun _ _ => I)|].
  eapply bodySpec_bind with (QA := fun r => r = defaultTargetName sourceFilePath).
  { apply bodySpec_silent. intros w t.
    rewrite resolveTargetFolderPath_default.
    destruct (String.eqb _ _); simpl; auto. }
  intros resolved ->.
  apply bodySpec_bind_any.
  { spec_head; [|spec_head; exact I].
    apply bodySpec_call, scan_emits. reflexivity. }
  intros targetFolderScanner. unfold doReadFromURI.
  repeat (spec_head; try exact I; try (intros; exact I)).
  eapply bodySpec_weaken; [apply downSyncFromSource_inFolder|auto|auto].
Qed.

(** A call without a target folder runs as the call that names the
    default one. *)
Lemma downSyncVersion_default_target blobStoreURI sourceFilePath targetIndexPath
    localCachePath retainPermissions validate versionLocalStoreIndexPath
    includeFilterRegEx excludeFilterRegEx (w : World) t :
  defaultTargetName sourceFilePath <> "" ->
  downSyncVersion env blobStoreURI sourceFilePath "" targetIndexPath
    localCachePath retainPermissions validate versionLocalStoreIndexPath
    includeFilterRegEx excludeFilterRegEx w t
  = downSyncVersion env blobStoreURI sourceFilePath
      (defaultTargetName sourceFilePath) targetIndexPath
      localCachePath retainPermissions validate versionLocalStoreIndexPath
      includeFilterRegEx excludeFilterRegEx w t.
Proof.
  intros Hname. unfold downSyncVersion.
  apply fn_ext, bind_ext. intros pathFilter w' t' _.
  unfold bind at 1. rewrite resolveTargetFolderPath_default.
  destruct (String.eqb_spec (defaultTargetName sourceFilePath) "");
    [contradiction|].
  symmetry. unfold bind at 1.
  rewrite (resolveTargetFolderPath_given _ _ _ _ Hname). reflexivity.
Qed.

Lemma downSyncVersion_unresolved blobStoreURI sourceFilePath targetIndexPath
    localCachePath retainPermissions validate versionLocalStoreIndexPath
    includeFilterRegEx excludeFilterRegEx pathFilter (w : World) t :
  MakeRegexPathFilter env includeFilterRegEx excludeFilterRegEx = inr pathFilter ->
  defaultTargetName sourceFilePath = "" ->
  downSyncVersion env blobStoreURI sourceFilePath "" targetIndexPath
    localCachePath retainPermissions validate versionLocalStoreIndexPath
    includeFilterRegEx excludeFilterRegEx w t
  = (Returns (Some (Errorf
       "downSyncVersion: unable to resolve target path using `%s` as base"
       [ArgS sourceFilePath])), w, t).
Proof.
  intros Hfilter Hname. unfold downSyncVersion, fn, bind at 1, orReturn.
  rewrite Hfilter. unfold next at 1. unfold bind at 1.
  rewrite resolveTargetFolderPath_default, Hname. reflexivity.
Qed.

Lemma scan_run folder pathFilter (w : World) t :
  exists scanner,
    scan env folder pathFilter w t
    = (Returns scanner,
       snd (GetFilesRecursively env pathFilter (normalizePath folder) w),
       (t ++ [EvGetFilesRecursively (normalizePath folder)])%list).
Proof.
  unfold scan, doGetFilesRecursively.
  erewrite fn_bind_Next by apply logged_run.
  destruct (fst (GetFilesRecursively env pathFilter (normalizePath folder) w))
    as [fileInfos errno].
  destruct (negb (errno =? 0)); eexists; reflexivity.
Qed.

(** With a default name and no index file of the target, the run starts
    with the scan of the default folder and the read of the source. *)
Lemma downSyncVersion_default_scan blobStoreURI sourceFilePath
    localCachePath retainPermissions validate versionLocalStoreIndexPath
    includeFilterRegEx excludeFilterRegEx pathFilter (w : World) t :
  MakeRegexPathFilter env includeFilterRegEx excludeFilterRegEx = inr pathFilter ->
  defaultTargetName sourceFilePath <> "" ->
  exists rest,
    snd (downSyncVersion env blobStoreURI sourceFilePath "" ""
           localCachePath retainPermissions validate versionLocalStoreIndexPath
           includeFilterRegEx excludeFilterRegEx w t)
    = (t ++ EvGetFilesRecursively (normalizePath (defaultTargetName sourceFilePath))
         :: EvReadFromURI sourceFilePath :: rest)%list.
Proof.
  intros Hfilter Hname. unfold downSyncVersion.
  erewrite fn_bind_Next by (unfold orReturn; rewrite Hfilter; reflexivity).
  apply String.eqb_neq in Hname.
  erewrite fn_bind_Next
    by (rewrite resolveTargetFolderPath_default, Hname; reflexivity).
  change (String.eqb "" "") with true. cbv iota.
  destruct (scan_run (defaultTargetName sourceFilePath) pathFilter w t)
    as [scanner Hscan].
  erewrite fn_bind_Next by (unfold call; rewrite Hscan; reflexivity).
  unfold doReadFromURI. erewrite fn_bind_Next by apply logged_run.
  match goal with
  | |- context [fn ?b ?w2 ?t2] =>
      destruct (fn_appends (fun _ => True) (fun _ => True) (fun _ => True) b w2 t2)
        as [rest E]
  end.
  { repeat (spec_head; try exact I; try (intros; exact I)).
    eapply bodySpec_events;
      [|eapply bodySpec_weaken;
        [apply downSyncFromSource_inFolder|auto|auto]].
    intros; exact I. }
  exists rest. rewrite E, <- !app_assoc. reflexivity.
Qed.

End DefaultTarget.

(** C9: with an empty target folder path, [downSyncVersion] resolves the
    target folder to the last slash-separated segment of the normalized
    source path cut at its first dot (["store/v1.lvi"] gives ["v1"]).  When
    that name is empty it returns the error that the target path cannot be
    resolved, having done nothing.  Otherwise the call runs as the call that
    names this folder as its target: it begins, when no index file of the
    target is given, with the scan of this folder and the read of the
    source, and it scans, indexes and changes this folder only. *)
Theorem downSync_default_target_folder {World} (env : Env World)
    (blobStoreURI sourceFilePath targetIndexPath localCachePath : string)
    (retainPermissions validate : bool)
    (versionLocalStoreIndexPath includeFilterRegEx excludeFilterRegEx : string) :
  defaultTargetName "store/v1.lvi" = "v1" /\
  (forall (w : World) t,
     resolveTargetFolderPath "" sourceFilePath w t
     = (if String.eqb (defaultTargetName sourceFilePath) ""
        then Return (Some (Errorf
               "downSyncVersion: unable to resolve target path using `%s` as base"
               [ArgS sourceFilePath]))
        else Next (defaultTargetName sourceFilePath), w, t)) /\
  (defaultTargetName sourceFilePath = "" ->
   forall w t, exists e,
     downSyncVersion env blobStoreURI sourceFilePath "" targetIndexPath
       localCachePath retainPermissions validate versionLocalStoreIndexPath
       includeFilterRegEx excludeFilterRegEx w t
     = (Returns (Some e), w, t)) /\
  (forall w e,
     In e (snd (downSyncVersion env blobStoreURI sourceFilePath "" targetIndexPath
                  localCachePath retainPermissions validate
                  versionLocalStoreIndexPath includeFilterRegEx excludeFilterRegEx
                  w [])) ->
     inFolder (normalizePath (defaultTargetName sourceFilePath)) e) /\
  (defaultTargetName sourceFilePath <> "" ->
   forall w t,
     downSyncVersion env blobStoreURI sourceFilePath "" targetIndexPath
       localCachePath retainPermissions validate versionLocalStoreIndexPath
       includeFilterRegEx excludeFilterRegEx w t
     = downSyncVersion env blobStoreURI sourceFilePath
         (defaultTargetName sourceFilePath) targetIndexPath
         localCachePath retainPermissions validate versionLocalStoreIndexPath
         includeFilterRegEx excludeFilterRegEx w t) /\
  (forall pathFilter,
     MakeRegexPathFilter env includeFilterRegEx excludeFilterRegEx = inr pathFilter ->
     (defaultTargetName sourceFilePath = "" ->
      forall w t,
        downSyncVersion env blobStoreURI sourceFilePath "" targetIndexPath
          localCachePath retainPermissions validate versionLocalStoreIndexPath
          includeFilterRegEx excludeFilterRegEx w t
        = (Returns (Some (Errorf
             "downSyncVersion: unable to resolve target path using `%s` as base"
             [ArgS sourceFilePath])), w, t)) /\
     (defaultTargetName sourceFilePath <> "" ->
      forall w t, exists rest,
        snd (downSyncVersion env blobStoreURI sourceFilePath "" ""
               localCachePath retainPermissions validate versionLocalStoreIndexPath
               includeFilterRegEx excludeFilterRegEx w t)
        = (t ++ EvGetFilesRecursively
                  (normalizePath (defaultTargetName sourceFilePath))
             :: EvReadFromURI sourceFilePath :: rest)%list)).
Proof.
  split; [reflexivity|]. split; [apply resolveTargetFolderPath_default|].
  split; [|split; [|split]].
  - intros Hname w t. apply downSyncVersion_no_target_name, Hname.
  - intros w e Hin. eapply fnSpec_In; [apply downSyncVersion_inFolder|exact Hin].
  - intros Hname w t. apply downSyncVersion_default_target, Hname.
  - intros pathFilter Hfilter. split.
    + intros Hname w t. eapply downSyncVersion_unresolved; eassumption.
    + intros Hname w t. eapply downSyncVersion_default_scan; eassumption.
Qed.

(** The download of ["store/v1.lvi"] without a target folder in the small
    world: it runs as the download to ["v1"], and it scans, indexes and
    changes the folder ["v1"]. *)
Lemma downSync_default_target_folder_witness :
  defaultTargetName "store/v1.lvi" = "v1" /\
  downSyncVersion demoEnv "store" "store/v1.lvi" "" "" "" true false "" "" "" tt []
  = downSyncVersion demoEnv "store" "store/v1.lvi" "v1" "" "" true false "" "" "" tt [] /\
  downSyncVersion demoEnv "store" "store/v1.lvi" "" "" "" true false "" "" "" tt []
  = (Returns None, tt,
     [EvGetFilesRecursively "v1"; EvReadFromURI "store/v1.lvi";
      EvCreateVersionIndex 3 "v1" 32768;
      EvCreateBlockStore "store" "" ReadOnly;
      EvGetExistingStoreIndex
        (ShareBlockStore (LRUBlockStore (CompressBlockStore (FSBlockStore "store")) 32))
        [11] 0;
      EvChangeVersion
        (ShareBlockStore (LRUBlockStore (CompressBlockStore (FSBlockStore "store")) 32))
        "v1" true;
      EvFlush
        [ShareBlockStore (LRUBlockStore (CompressBlockStore (FSBlockStore "store")) 32);
         LRUBlockStore (CompressBlockStore (FSBlockStore "store")) 32;
         CompressBlockStore (FSBlockStore "store"); nilBlockStore; nilBlockStore;
         FSBlockStore "store"]]).
Proof.
  split; [reflexivity|]. split; [|vm_compute; reflexivity].
  apply (proj1 (proj2 (proj2 (proj2 (proj2
           (downSync_default_target_folder demoEnv "store" "store/v1.lvi" "" ""
              true false "" "" "")))))).
  vm_compute. discriminate.
Defined.

(** The name for a source path that ends in a slash, or whose last segment
    starts with a dot, is empty. *)
Example defaultTargetName_empty :
  defaultTargetName "store/" = "" /\ defaultTargetName "store/.lvi" = "" /\
  defaultTargetName "" = "".
Proof. repeat split. Qed.

Example downSyncVersion_no_target_name_run :
  downSyncVersion demoEnv "store" "store/.lvi" "" "" "" true false "" "" "" tt []
  = (Returns (Some (Errorf
       "downSyncVersion: unable to resolve target path using `%s` as base"
       [ArgS "store/.lvi"])), tt, []).
Proof. reflexivity. Qed.

(** ** [downSyncVersion]: the validation *)

Section Validation.

Lemma sourceLookups_fold (l : list Asset) :
  forall (m1 m2 m3 : gmap string Z) (p : string),
    let '(s, h, pm) :=
      fold_left
        (fun '(assetSizeLookup, assetHashLookup, assetPermissionLookup) a =>
           (<[assetPath a := assetSize a]> assetSizeLookup,
            <[assetPath a := assetHash a]> assetHashLookup,
            <[assetPath a := assetPermissions a]> assetPermissionLookup))
        l (m1, m2, m3) in
    s !! p = match last (filter (fun a => assetPath a = p) l) with
             | Some a => Some (assetSize a) | None => m1 !! p end /\
    h !! p = match last (filter (fun a => assetPath a = p) l) with
             | Some a => Some (assetHash a) | None => m2 !! p end /\
    pm !! p = match last (filter (fun a => assetPath a = p) l) with
              | Some a => Some (assetPermissions a) | None => m3 !! p end.
Proof.
  induction l as [|a l IH]; intros m1 m2 m3 p; [simpl; auto|].
  cbn [fold_left].
  specialize (IH (<[assetPath a := assetSize a]> m1)
                 (<[assetPath a := assetHash a]> m2)
                 (<[assetPath a := assetPermissions a]> m3) p).
  destruct (fold_left _ l _) as [[s h] pm].
  rewrite filter_cons. destruct (decide (assetPath a = p)) as [E|E].
  - rewrite last_cons. subst p.
    destruct (last (filter _ l)); [exact IH|].
    rewrite !lookup_insert_eq in IH. exact IH.
  - destruct (last (filter _ l)); [exact IH|].
    rewrite !lookup_insert_ne in IH by exact E. exact IH.
Qed.

Lemma sourceLookups_lookup (src : VersionIndex) (p : string) :
  let '(s, h, pm) := sourceLookups src in
  s !! p = assetSize <$> sourceEntry src p /\
  h !! p = assetHash <$> sourceEntry src p /\
  pm !! p = assetPermissions <$> sourceEntry src p.
Proof.
  unfold sourceLookups, sourceEntry.
  pose proof (sourceLookups_fold (viAssets src) ∅ ∅ ∅ p) as H.
  destruct (fold_left _ _ _) as [[s h] pm].
  destruct (last _); simpl; rewrite ?lookup_empty in H; exact H.
Qed.

Lemma validateAssets_None retain (src : VersionIndex) (s h pm : gmap string Z) :
  (forall p, s !! p = assetSize <$> sourceEntry src p) ->
  (forall p, h !! p = assetHash <$> sourceEntry src p) ->
  (forall p, pm !! p = assetPermissions <$> sourceEntry src p) ->
  forall l i,
    validateAssets retain s h pm i l = None <-> Forall (matchesSource retain src) l.
Proof.
  intros Hs Hh Hp. induction l as [|a l IH]; intros i.
  - simpl. split; [constructor|reflexivity].
  - cbn [validateAssets]. rewrite Hs, Hh, Hp.
    destruct (sourceEntry src (assetPath a)) as [e|] eqn:E; simpl.
    2: { split; [discriminate|]. intros H. inversion H as [|? ? (e & He & _) _].
         congruence. }
    destruct (Z.eqb_spec (assetSize e) (assetSize a)) as [Es|Es]; simpl.
    2: { split; [discriminate|]. intros H. inversion H as [|? ? (e' & He & ? & _) _].
         congruence. }
    destruct (Z.eqb_spec (assetHash e) (assetHash a)) as [Eh|Eh]; simpl.
    2: { split; [discriminate|].
         intros H. inversion H as [|? ? (e' & He & ? & ? & _) _]. congruence. }
    destruct retain; simpl.
    + destruct (Z.eqb_spec (assetPermissions e) (assetPermissions a)) as [Ep|Ep]; simpl.
      * rewrite IH. split.
        -- intros H. constructor; [exists e; auto|exact H].
        -- intros H. inversion H; assumption.
      * split; [discriminate|].
        intros H. inversion H as [|? ? (e' & He & ? & ? & Hperm) _].
        specialize (Hperm eq_refl). congruence.
    + rewrite IH. split.
      * intros H. constructor; [exists e; repeat split; auto; discriminate|exact H].
      * intros H. inversion H; assumption.
Qed.

Lemma validateAgainstSource_None retain (v src : VersionIndex) :
  validateAgainstSource retain v src = None <->
  length (viAssets v) = length (viAssets src) /\
  Forall (matchesSource retain src) (viAssets v).
Proof.
  unfold validateAgainstSource.
  destruct (Z.eqb_spec (Z.of_nat (length (viAssets v)))
              (Z.of_nat (length (viAssets src)))) as [E|E]; simpl.
  - pose proof (fun p => sourceLookups_lookup src p) as H.
    destruct (sourceLookups src) as [[s h] pm].
    rewrite (validateAssets_None retain src s h pm);
      [|intros p; apply (H p)..].
    split; [intros ?; split; [lia|assumption]|intros [_ ?]; assumption].
  - split; [discriminate|]. intros [Hl _]. lia.
Qed.

End Validation.

Lemma downSyncValidate_run {World} (env : Env World) pathFilter resolved hash
    targetChunkSize retainPermissions sourceVersionIndex
    (w : World) t validateFileInfos w1 validateVersionIndex w2 :
  GetFilesRecursively env pathFilter (normalizePath resolved) w
  = (validateFileInfos, 0, w1) ->
  CreateVersionIndex env hash (normalizePath resolved) validateFileInfos None
    targetChunkSize w1 = (validateVersionIndex, 0, w2) ->
  downSyncValidate env pathFilter resolved hash targetChunkSize retainPermissions
    sourceVersionIndex w t
  = (match validateAgainstSource retainPermissions validateVersionIndex
             sourceVersionIndex with
     | Some err => Return (Some err)
     | None => Next tt
     end, w2,
     (t ++ [EvGetFilesRecursively (normalizePath resolved);
            EvCreateVersionIndex hash (normalizePath resolved) targetChunkSize])%list).
Proof.
  intros Hscan Hindex.
  unfold downSyncValidate, doGetFilesRecursively, doCreateVersionIndex,
    orReturnErrno, bind, emit, world, next, ret.
  rewrite Hscan. simpl. rewrite Hindex. simpl.
  rewrite <- app_assoc. simpl.
  destruct (validateAgainstSource _ _ _); reflexivity.
Qed.

(** A step that does not return without an error. *)
Ltac not_nil :=
  intros ? ?; unfold_calls; rewrite ?logged_run;
  unfold orReturn, orReturnErrno, call, bind, emit, pure, ret, next, panic;
  repeat match goal with
         | |- context [match ?x with _ => _ end] => destruct x
         end;
  discriminate.

Section ValidationRun.
Context {World : Type} (env : Env World).

Lemma continuesWith_bind {A B}
    (Q : World -> list Event ->
         Step (option error) B * World * list Event -> Prop)
    (m : Body World (option error) A) (kf kt : A -> Body World (option error) B)
    w t :
  (forall w' t', m w t <> (Return None, w', t')) ->
  (forall a w' t', m w t = (Next a, w', t') ->
     continuesWith Q (kf a w' t') (kt a w' t')) ->
  continuesWith Q (bind m kf w t) (bind m kt w t).
Proof.
  intros Hnil Hk. unfold bind.
  destruct (m w t) as [[[a|[e|]|msg|e] w'] t'] eqn:E; try reflexivity.
  - apply Hk. reflexivity.
  - destruct (Hnil w' t'). reflexivity.
Qed.

Lemma continuesWith_end {A}
    (Q : World -> list Event ->
         Step (option error) A * World * list Event -> Prop)
    (rf rt : Step (option error) A * World * list Event) :
  rt = rf -> (forall w t, rf <> (Return None, w, t)) ->
  (forall a w t, rf <> (Next a, w, t)) ->
  continuesWith Q rf rt.
Proof.
  intros -> Hnil Hnext. unfold continuesWith.
  destruct rf as [[[a|[e|]|msg|e] w] t]; try reflexivity.
  - destruct (Hnext a w t). reflexivity.
  - destruct (Hnil w t). reflexivity.
Qed.

Lemma continuesWith_fn
    (Q : World -> list Event ->
         Step (option error) (option error) * World * list Event -> Prop)
    (bf bt : Body World (option error) (option error)) w t :
  continuesWith Q (bf w t) (bt w t) ->
  (fst (fst (fn bf w t)) <> Returns None -> fn bt w t = fn bf w t) /\
  (forall w6 t6, fn bf w t = (Returns None, w6, t6) -> Q w6 t6 (bt w t)).
Proof.
  unfold continuesWith, fn.
  destruct (bf w t) as [[[a|[e|]|msg|e] w'] t']; simpl; intros H.
  - contradiction.
  - rewrite H. split; [reflexivity|intros ? ? [=]].
  - split; [intros Hn; contradiction Hn; reflexivity|].
    intros w6 t6 [= <- <-]. exact H.
  - rewrite H. split; [reflexivity|intros ? ? [=]].
  - rewrite H. split; [reflexivity|intros ? ? [=]].
Qed.

Lemma continuesWith_weaken {A}
    (Q Q' : World -> list Event ->
            Step (option error) A * World * list Event -> Prop)
    (rf rt : Step (option error) A * World * list Event) :
  (forall w t, Q w t rt -> Q' w t rt) ->
  continuesWith Q rf rt -> continuesWith Q' rf rt.
Proof.
  intros HQ. unfold continuesWith.
  destruct rf as [[[a|[e|]|msg|e] w] t]; auto.
Qed.

Ltac same_end :=
  apply continuesWith_end; [reflexivity|intros ? ?; discriminate|intros ? ? ?; discriminate].

(** Once the source index is read, the download with the validation is the
    download without it, followed, when that has not failed, by the
    validation against the source index, with the hash identifier and the
    target chunk size of the source index. *)
Lemma downSyncFromSource_validated blobStoreURI resolved targetIndexPath
    localCachePath retainPermissions versionLocalStoreIndexPath pathFilter
    targetFolderScanner sourceVersionIndex w t :
  continuesWith
    (fun w6 t6 rt =>
       rt = bind (downSyncValidate env pathFilter resolved
                    (viHashIdentifier sourceVersionIndex)
                    (viTargetChunkSize sourceVersionIndex)
                    retainPermissions sourceVersionIndex)
              (fun _ => ret None) w6 t6)
    (downSyncFromSource env blobStoreURI resolved targetIndexPath localCachePath
       retainPermissions false versionLocalStoreIndexPath pathFilter
       targetFolderScanner sourceVersionIndex w t)
    (downSyncFromSource env blobStoreURI resolved targetIndexPath localCachePath
       retainPermissions true versionLocalStoreIndexPath pathFilter
       targetFolderScanner sourceVersionIndex w t).
Proof.
  unfold downSyncFromSource. cbv zeta.
  apply continuesWith_bind; [not_nil|]. intros targetIndexReader w1 t1 Hreader.
  apply continuesWith_bind; [not_nil|]. intros r w2 t2 _.
  apply continuesWith_bind; [not_nil|]. intros remoteIndexStore w3 t3 _.
  destruct (String.eqb localCachePath ""); cbv iota beta.
  all: apply continuesWith_bind; [not_nil|]; intros _ w4 t4 _.
  all: apply continuesWith_bind; [not_nil|]; intros [targetVersionIndex hash] w5 t5 Hhash.
  all: apply continuesWith_bind; [not_nil|]; intros versionDiff w6 t6 _.
  all: apply continuesWith_bind; [not_nil|]; intros chunkHashes w7 t7 _.
  all: apply continuesWith_bind; [not_nil|]; intros r0 w8 t8 _.
  all: apply continuesWith_bind; [not_nil|]; intros storeIndex w9 t9 _.
  all: apply continuesWith_bind; [not_nil|]; intros errno w10 t10 _.
  all: destruct (negb (errno =? 0)); [same_end|].
  all: apply continuesWith_bind; [not_nil|]; intros errno' w11 t11 _.
  all: destruct (negb (errno' =? 0)); [same_end|].
  all: assert (Hh : hash = viHashIdentifier sourceVersionIndex)
         by (destruct targetIndexReader as [e|[vi h]]; [discriminate|];
             injection Hhash as -> -> _ _;
             unfold call in Hreader;
             destruct (getFolderIndex_buildsWith env resolved targetIndexPath
                         (viTargetChunkSize sourceVersionIndex) noCompressionType
                         (viHashIdentifier sourceVersionIndex) pathFilter
                         targetFolderScanner w t) as (new & _ & _ & Hpost);
             destruct (getFolderIndex _ _ _ _ _ _ _ _ w t) as [[[] ?] ?];
             try discriminate;
             injection Hreader as -> _ _; exact (Hpost _ _ eq_refl)).
  all: subst hash; reflexivity.
Qed.

(** The same of the whole function, with the source index it has read. *)
Lemma downSyncVersion_validated blobStoreURI sourceFilePath targetFolderPath
    targetIndexPath localCachePath retainPermissions
    versionLocalStoreIndexPath includeFilterRegEx excludeFilterRegEx w t :
  let resolved :=
    if String.eqb targetFolderPath "" then defaultTargetName sourceFilePath
    else targetFolderPath in
  continuesWith
    (fun w6 t6 rt =>
       exists pathFilter vbuffer,
         let sourceVersionIndex := fst (ReadVersionIndexFromBuffer env vbuffer) in
         MakeRegexPathFilter env includeFilterRegEx excludeFilterRegEx
         = inr pathFilter /\
         fst (ReadFromURI env sourceFilePath
                (if String.eqb targetIndexPath "" then
                   snd (GetFilesRecursively env pathFilter (normalizePath resolved) w)
                 else w)) = inr vbuffer /\
         snd (ReadVersionIndexFromBuffer env vbuffer) = 0 /\
         rt = bind (downSyncValidate env pathFilter resolved
                      (viHashIdentifier sourceVersionIndex)
                      (viTargetChunkSize sourceVersionIndex)
                      retainPermissions sourceVersionIndex)
                (fun _ => ret None) w6 t6)
    ((let! pathFilter :=
        orReturn (MakeRegexPathFilter env includeFilterRegEx excludeFilterRegEx)
          Some in
      let! resolvedTargetFolderPath :=
        resolveTargetFolderPath targetFolderPath sourceFilePath in
      let! targetFolderScanner :=
        if String.eqb targetIndexPath "" then
          call (scan env resolvedTargetFolderPath pathFilter)
        else next zeroFolderScanner in
      let! r := doReadFromURI env sourceFilePath in
      let! vbuffer := orReturn r Some in
      let! sourceVersionIndex :=
        orReturnErrno (ReadVersionIndexFromBuffer env vbuffer)
          (fun errno => Some (Wrapf errno
             "downSyncVersion: longtaillib.ReadVersionIndexFromBuffer() failed"
             [])) in
      downSyncFromSource env blobStoreURI resolvedTargetFolderPath targetIndexPath
        localCachePath retainPermissions false versionLocalStoreIndexPath
        pathFilter targetFolderScanner sourceVersionIndex) w t)
    ((let! pathFilter :=
        orReturn (MakeRegexPathFilter env includeFilterRegEx excludeFilterRegEx)
          Some in
      let! resolvedTargetFolderPath :=
        resolveTargetFolderPath targetFolderPath sourceFilePath in
      let! targetFolderScanner :=
        if String.eqb targetIndexPath "" then
          call (scan env resolvedTargetFolderPath pathFilter)
        else next zeroFolderScanner in
      let! r := doReadFromURI env sourceFilePath in
      let! vbuffer := orReturn r Some in
      let! sourceVersionIndex :=
        orReturnErrno (ReadVersionIndexFromBuffer env vbuffer)
          (fun errno => Some (Wrapf errno
             "downSyncVersion: longtaillib.ReadVersionIndexFromBuffer() failed"
             [])) in
      downSyncFromSource env blobStoreURI resolvedTargetFolderPath targetIndexPath
        localCachePath retainPermissions true versionLocalStoreIndexPath
        pathFilter targetFolderScanner sourceVersionIndex) w t).
Proof.
  intros resolved.
  apply continuesWith_bind; [not_nil|]. intros pathFilter w0 t0 Hfilter.
  apply continuesWith_bind.
  { intros w' t'. unfold resolveTargetFolderPath.
    repeat match goal with
           | |- context [match ?x with _ => _ end] => destruct x
           end; discriminate. }
  intros resolved' w1 t1 Hresolved.
  apply continuesWith_bind; [destruct (String.eqb targetIndexPath ""); not_nil|].
  intros scanner w2 t2 Hscan.
  apply continuesWith_bind; [not_nil|]. intros r w3 t3 Hread.
  apply continuesWith_bind; [not_nil|]. intros vbuffer w4 t4 Hbuffer.
  apply continuesWith_bind; [not_nil|]. intros sourceVersionIndex w5 t5 Hsource.
  eapply continuesWith_weaken; [|apply downSyncFromSource_validated].
  intros w6 t6 ->.
  unfold orReturn in Hfilter.
  destruct (MakeRegexPathFilter env includeFilterRegEx excludeFilterRegEx)
    as [e|pathFilter'] eqn:Efilter; [discriminate|].
  injection Hfilter as -> <- <-.
  assert (resolved' = resolved /\ w1 = w /\ t1 = t) as (-> & -> & ->).
  { subst resolved. destruct (String.eqb_spec targetFolderPath "") as [->|Hgiven].
    - rewrite resolveTargetFolderPath_default in Hresolved.
      destruct (String.eqb (defaultTargetName sourceFilePath) "");
        [discriminate|].
      injection Hresolved as -> -> ->. auto.
    - rewrite (resolveTargetFolderPath_given _ _ _ _ Hgiven) in Hresolved.
      injection Hresolved as -> -> ->. auto. }
  assert (w2 = (if String.eqb targetIndexPath "" then
                  snd (GetFilesRecursively env pathFilter (normalizePath resolved) w)
                else w)) as ->.
  { destruct (String.eqb targetIndexPath "").
    - destruct (scan_run env resolved pathFilter w t) as [sc Hsc].
      unfold call in Hscan. rewrite Hsc in Hscan. injection Hscan as _ <- _.
      reflexivity.
    - injection Hscan as _ <- _. reflexivity. }
  unfold doReadFromURI in Hread. rewrite logged_run in Hread.
  injection Hread as <- <- <-.
  unfold orReturn in Hbuffer.
  match type of Hbuffer with
  | match ?x with _ => _ end _ _ = _ => destruct x as [e|vbuffer'] eqn:Eread
  end; [discriminate|].
  injection Hbuffer as -> <- <-.
  unfold orReturnErrno in Hsource.
  destruct (Z.eqb_spec (snd (ReadVersionIndexFromBuffer env vbuffer)) 0)
    as [Eerrno|]; [|discriminate].
  injection Hsource as <- <- <-.
  exists pathFilter, vbuffer. cbv zeta. repeat split; assumption || reflexivity.
Qed.

End ValidationRun.


(** C2: a download with the validation runs as the download without it
    and, when that has not failed, goes on with the validation block: it
    re-indexes the target folder, with the path filter of the download and
    the hash identifier and target chunk size of the source index the
    download has read, and returns what the comparison of the re-indexed
    index with that source index gives.  The comparison gives an error
    unless the re-indexed index has as many assets as the source index and
    every re-indexed asset has a source entry for its path with the same size
    and content hash, and with the same permissions when permissions are
    retained; without an error, [downSyncVersion] returns without one. *)
Theorem downSync_validation {World} (env : Env World)
    (blobStoreURI sourceFilePath targetFolderPath targetIndexPath localCachePath : string)
    (retainPermissions : bool)
    (versionLocalStoreIndexPath includeFilterRegEx excludeFilterRegEx : string)
    (w : World) (t : list Event) :
  let downSync validate :=
    downSyncVersion env blobStoreURI sourceFilePath targetFolderPath
      targetIndexPath localCachePath retainPermissions validate
      versionLocalStoreIndexPath includeFilterRegEx excludeFilterRegEx w t in
  let resolved :=
    if String.eqb targetFolderPath "" then defaultTargetName sourceFilePath
    else targetFolderPath in
  (fst (fst (downSync false)) <> Returns None -> downSync true = downSync false) /\
  (forall w6 t6, downSync false = (Returns None, w6, t6) ->
     exists pathFilter vbuffer,
       let sourceVersionIndex := fst (ReadVersionIndexFromBuffer env vbuffer) in
       let hash := viHashIdentifier sourceVersionIndex in
       let targetChunkSize := viTargetChunkSize sourceVersionIndex in
       MakeRegexPathFilter env includeFilterRegEx excludeFilterRegEx
       = inr pathFilter /\
       fst (ReadFromURI env sourceFilePath
              (if String.eqb targetIndexPath "" then
                 snd (GetFilesRecursively env pathFilter (normalizePath resolved) w)
               else w)) = inr vbuffer /\
       snd (ReadVersionIndexFromBuffer env vbuffer) = 0 /\
       downSync true
       = fn (run! downSyncValidate env pathFilter resolved hash targetChunkSize
                    retainPermissions sourceVersionIndex in
             ret None) w6 t6 /\
       (forall validateFileInfos w7 validateVersionIndex w8,
          GetFilesRecursively env pathFilter (normalizePath resolved) w6
          = (validateFileInfos, 0, w7) ->
          CreateVersionIndex env hash (normalizePath resolved) validateFileInfos
            None targetChunkSize w7 = (validateVersionIndex, 0, w8) ->
          downSync true
          = (Returns (validateAgainstSource retainPermissions validateVersionIndex
                        sourceVersionIndex), w8,
             (t6 ++ [EvGetFilesRecursively (normalizePath resolved);
                     EvCreateVersionIndex hash (normalizePath resolved)
                       targetChunkSize])%list))) /\
  (forall (pathFilter : PathFilter) (folder : string) (hash targetChunkSize : Z)
          (sourceVersionIndex : VersionIndex) (w : World) (t : list Event)
          (validateFileInfos : FileInfos) (w1 : World)
          (validateVersionIndex : VersionIndex) (w2 : World),
     GetFilesRecursively env pathFilter (normalizePath folder) w
     = (validateFileInfos, 0, w1) ->
     CreateVersionIndex env hash (normalizePath folder) validateFileInfos None
       targetChunkSize w1 = (validateVersionIndex, 0, w2) ->
     downSyncValidate env pathFilter folder hash targetChunkSize retainPermissions
       sourceVersionIndex w t
     = (match validateAgainstSource retainPermissions validateVersionIndex
                sourceVersionIndex with
        | Some err => Return (Some err)
        | None => Next tt
        end, w2,
        (t ++ [EvGetFilesRecursively (normalizePath folder);
               EvCreateVersionIndex hash (normalizePath folder) targetChunkSize])%list)) /\
  (forall validateVersionIndex sourceVersionIndex : VersionIndex,
     validateAgainstSource retainPermissions validateVersionIndex sourceVersionIndex
     = None <->
     length (viAssets validateVersionIndex) = length (viAssets sourceVersionIndex) /\
     Forall (matchesSource retainPermissions sourceVersionIndex)
       (viAssets validateVersionIndex)).
Proof.
  intros downSync resolved.
  destruct (continuesWith_fn _ _ _ w t
              (downSyncVersion_validated env blobStoreURI sourceFilePath
                 targetFolderPath targetIndexPath localCachePath retainPermissions
                 versionLocalStoreIndexPath includeFilterRegEx excludeFilterRegEx
                 w t)) as [Hfails Hgoes].
  split; [exact Hfails|]. split; [|split].
  - intros w6 t6 Hdone.
    destruct (Hgoes w6 t6 Hdone) as (pathFilter & vbuffer & Hfilter & Hread & Herrno & Hrun).
    exists pathFilter, vbuffer. cbv zeta.
    assert (Hfn : downSync true
                  = fn (run! downSyncValidate env pathFilter resolved
                               (viHashIdentifier (fst (ReadVersionIndexFromBuffer env vbuffer)))
                               (viTargetChunkSize (fst (ReadVersionIndexFromBuffer env vbuffer)))
                               retainPermissions
                               (fst (ReadVersionIndexFromBuffer env vbuffer)) in
                        ret None) w6 t6).
    { unfold downSync, downSyncVersion, fn. fold resolved. rewrite Hrun. reflexivity. }
    repeat (split; [assumption|]).
    intros validateFileInfos w7 validateVersionIndex w8 Hscan Hindex.
    rewrite Hfn. unfold fn, bind at 1.
    rewrite (downSyncValidate_run env _ _ _ _ _ _ _ _ _ _ _ _ Hscan Hindex).
    destruct (validateAgainstSource _ _ _); reflexivity.
  - intros pathFilter folder hash targetChunkSize sourceVersionIndex w0 t0
      validateFileInfos w1 validateVersionIndex w2 Hscan Hindex.
    eapply downSyncValidate_run; eassumption.
  - intros. apply validateAgainstSource_None.
Qed.

(** In a world where the file of the version has another content hash in
    the target folder after the download, the download without the
    validation returns without an error and the download with it returns the
    hash mismatch. *)
Lemma downSync_validation_witness :
  downSyncVersion changedTargetEnv "store" "store/v1.lvi" "v1" "" "" true false
    "" "" "" tt []
  = (Returns None, tt,
     [EvGetFilesRecursively "v1"; EvReadFromURI "store/v1.lvi";
      EvCreateVersionIndex 3 "v1" 32768;
      EvCreateBlockStore "store" "" ReadOnly;
      EvGetExistingStoreIndex
        (ShareBlockStore (LRUBlockStore (CompressBlockStore (FSBlockStore "store")) 32))
        [11] 0;
      EvChangeVersion
        (ShareBlockStore (LRUBlockStore (CompressBlockStore (FSBlockStore "store")) 32))
        "v1" true;
      EvFlush
        [ShareBlockStore (LRUBlockStore (CompressBlockStore (FSBlockStore "store")) 32);
         LRUBlockStore (CompressBlockStore (FSBlockStore "store")) 32;
         CompressBlockStore (FSBlockStore "store"); nilBlockStore; nilBlockStore;
         FSBlockStore "store"]]) /\
  fst (fst (downSyncVersion changedTargetEnv "store" "store/v1.lvi" "v1" "" "" true
              true "" "" "" tt []))
  = Returns (Some (Errorf "downSyncVersion: failed validation: asset %d hash mismatch"
                     [ArgD 0])).
Proof.
  assert (Hdone : downSyncVersion changedTargetEnv "store" "store/v1.lvi" "v1" "" ""
                    true false "" "" "" tt []
                  = (Returns None, tt,
     [EvGetFilesRecursively "v1"; EvReadFromURI "store/v1.lvi";
      EvCreateVersionIndex 3 "v1" 32768;
      EvCreateBlockStore "store" "" ReadOnly;
      EvGetExistingStoreIndex
        (ShareBlockStore (LRUBlockStore (CompressBlockStore (FSBlockStore "store")) 32))
        [11] 0;
      EvChangeVersion
        (ShareBlockStore (LRUBlockStore (CompressBlockStore (FSBlockStore "store")) 32))
        "v1" true;
      EvFlush
        [ShareBlockStore (LRUBlockStore (CompressBlockStore (FSBlockStore "store")) 32);
         LRUBlockStore (CompressBlockStore (FSBlockStore "store")) 32;
         CompressBlockStore (FSBlockStore "store"); nilBlockStore; nilBlockStore;
         FSBlockStore "store"]])).
  { vm_compute. reflexivity. }
  split; [exact Hdone|].
  destruct (proj1 (proj2 (downSync_validation changedTargetEnv "store" "store/v1.lvi"
                            "v1" "" "" true "" "" "" tt [])) _ _ Hdone)
    as (pathFilter & vbuffer & _ & _ & _ & _ & Hrun).
  rewrite (Hrun ["a.txt"] tt changedTargetIndex tt eq_refl eq_refl).
  reflexivity.
Defined.

(** Runs of the comparison: a changed content hash and a missing path are
    reported; changed permissions are reported only when permissions are
    retained. *)
Example validateAgainstSource_runs :
  let changedHash :=
    mkVersionIndex 3 32768 [mkAsset "a.txt" 10 78 420 1 0] [11] [0] in
  let otherPath :=
    mkVersionIndex 3 32768 [mkAsset "b.txt" 10 77 420 1 0] [11] [0] in
  let changedPermissions :=
    mkVersionIndex 3 32768 [mkAsset "a.txt" 10 77 493 1 0] [11] [0] in
  validateAgainstSource true changedHash demoVersionIndex
  = Some (Errorf "downSyncVersion: failed validation: asset %d hash mismatch" [ArgD 0]) /\
  validateAgainstSource true otherPath demoVersionIndex
  = Some (Errorf "downSyncVersion: failed validation: invalid path %s" [ArgS "b.txt"]) /\
  validateAgainstSource true changedPermissions demoVersionIndex
  = Some (Errorf "downSyncVersion: failed validation: asset %d permission mismatch"
            [ArgD 0]) /\
  validateAgainstSource false changedPermissions demoVersionIndex = None /\
  validateAgainstSource true (mkVersionIndex 3 32768 [] [] []) demoVersionIndex
  = Some (Errorf "downSyncVersion: failed validation: asset count mismatch" []).
Proof. vm_compute. repeat split. Qed.

(** ** The batches of [stats] and [pruneStore] *)

Section Batches.
Context {A : Type}.

Lemma batches_concat (batchSize : nat) :
  (0 < batchSize)%nat ->
  forall fuel (l : list A), (length l <= fuel)%nat ->
    concat (batches fuel batchSize l) = l.
Proof.
  intros Hn. induction fuel as [|fuel IH]; intros l Hl.
  - destruct l; [reflexivity|simpl in Hl; lia].
  - destruct l as [|x l]; [reflexivity|].
    cbn [batches concat].
    rewrite IH; [apply take_drop|].
    rewrite length_drop. simpl in *. lia.
Qed.

Lemma batches_nil fuel batchSize : batches fuel batchSize (@nil A) = [].
Proof. destruct fuel; reflexivity. Qed.

End Batches.

(** ** [pruneStore]: the dry run *)

Section PruneDryRun.
Context {World : Type} (env : Env World).

Lemma fnSpec_self {R} (P : Event -> Prop) (f : Fn World R) :
  fnSpec P (fun _ => True) f ->
  fnSpec P (fun r => exists w t, fst (fst (f w t)) = Returns r) f.
Proof.
  intros Hf w t. destruct (Hf w t) as (new & E & Hnew & _).
  exists new. repeat split; try assumption.
  destruct (fst (fst (f w t))) eqn:Eo; simpl; eauto.
Qed.

Lemma pruneOneVersion_dry remoteStore storageURI writeVersionLocalStoreIndex
    sourceFilePath versionLocalStoreIndexFilePath :
  fnSpec dryRunEvent (fun _ => True)
    (pruneOneVersion env remoteStore storageURI writeVersionLocalStoreIndex true
       sourceFilePath versionLocalStoreIndexFilePath).
Proof.
  unfold pruneOneVersion. unfold_calls.
  simpl negb. rewrite ?andb_false_r.
  repeat (spec_head; try exact I; try (intros; exact I)).
Qed.

Lemma firstError_None results :
  firstError results = None -> Forall (fun r => fst r = None) results.
Proof.
  induction results as [|[[e|] hs] rest IH]; simpl; intros H;
    [constructor|discriminate|constructor; auto].
Qed.

Lemma runBatch_dry_at remoteStore storageURI writeVersionLocalStoreIndex
    versionLocalStoreIndexFilePaths batch :
  bodySpec dryRunEvent
    (Forall2 (prunedVersionAt env remoteStore storageURI writeVersionLocalStoreIndex
                true versionLocalStoreIndexFilePaths) batch)
    (fun r : option error => r <> None)
    (runBatch env remoteStore storageURI writeVersionLocalStoreIndex true
       versionLocalStoreIndexFilePaths batch).
Proof.
  induction batch as [|[i sourceFilePath] rest IH]; cbn [runBatch].
  - apply bodySpec_next. constructor.
  - eapply bodySpec_bind with
      (QA := fun lsi =>
         if 0 <? Z.of_nat (length versionLocalStoreIndexFilePaths)
         then versionLocalStoreIndexFilePaths !! i = Some lsi else lsi = "").
    { destruct (0 <? Z.of_nat (length versionLocalStoreIndexFilePaths)).
      - destruct (versionLocalStoreIndexFilePaths !! i) eqn:E.
        + apply bodySpec_next. reflexivity.
        + apply bodySpec_panic.
      - apply bodySpec_next. reflexivity. }
    intros lsi Hlsi.
    eapply bodySpec_bind.
    { apply bodySpec_call, fnSpec_self, pruneOneVersion_dry. }
    intros result (w & t & Hr).
    eapply bodySpec_bind; [exact IH|].
    intros results Hresults. apply bodySpec_next.
    constructor; [|exact Hresults].
    exists lsi, w, t. split; [exact Hlsi|exact Hr].
Qed.

Lemma pruneBatches_dry_at remoteStore storageURI writeVersionLocalStoreIndex
    versionLocalStoreIndexFilePaths bs :
  forall usedBlocks,
    bodySpec dryRunEvent
      (fun usedBlocks' => exists results,
         Forall2 (prunedVersionAt env remoteStore storageURI
                    writeVersionLocalStoreIndex true
                    versionLocalStoreIndexFilePaths) (concat bs) results /\
         Forall (fun r => fst r = None) results /\
         usedBlocks' = countBlocks usedBlocks results)
      (fun r : option error => r <> None)
      (pruneBatches env remoteStore storageURI writeVersionLocalStoreIndex true
         versionLocalStoreIndexFilePaths bs usedBlocks).
Proof.
  induction bs as [|batch rest IH]; intros usedBlocks; cbn [pruneBatches].
  - apply bodySpec_next. exists []. repeat split; constructor.
  - eapply bodySpec_bind; [apply runBatch_dry_at|].
    intros results Hresults.
    destruct (firstError results) eqn:Ef; [apply bodySpec_ret; discriminate|].
    eapply bodySpec_weaken; [apply IH| |auto].
    intros used' (results' & Hres' & Hnone & ->).
    exists (results ++ results')%list. split; [|split].
    + cbn [concat]. apply Forall2_app; assumption.
    + apply Forall_app. split; [apply firstError_None, Ef|exact Hnone].
    + unfold countBlocks. rewrite fold_left_app. reflexivity.
Qed.

End PruneDryRun.

Section Posts.
Context {World : Type}.

Lemma bodyPost_bind {R A B} (QA : A -> list Event -> Prop)
    (QB : B -> list Event -> Prop) (QR : R -> list Event -> Prop)
    (m : Body World R A) (k : A -> Body World R B) :
  bodyPost QA QR m ->
  (forall a new1, QA a new1 ->
     bodyPost (fun b new2 => QB b (new1 ++ new2)%list)
              (fun r new2 => QR r (new1 ++ new2)%list) (k a)) ->
  bodyPost QB QR (bind m k).
Proof.
  intros Hm Hk w t. unfold bind.
  destruct (Hm w t) as (new & E & Hq).
  destruct (m w t) as [[s w'] t']. simpl in E, Hq. subst t'.
  destruct s as [a|r|msg|e]; try (exists new; split; [reflexivity|assumption]).
  destruct (Hk a new Hq w' (t ++ new)%list) as (new' & E' & Hq').
  exists (new ++ new')%list. rewrite E', app_assoc. split; [reflexivity|exact Hq'].
Qed.

Lemma bodyPost_of_spec {R A} (P : Event -> Prop) (QN : A -> Prop) (QR : R -> Prop)
    (m : Body World R A) :
  bodySpec P QN QR m ->
  bodyPost (fun a new => QN a /\ Forall P new) (fun r new => QR r /\ Forall P new) m.
Proof.
  intros Hm w t. destruct (Hm w t) as (new & E & Hnew & Hq).
  exists new. split; [exact E|].
  destruct (fst (fst (m w t))); simpl in *; auto.
Qed.

Lemma bodyPost_weaken {R A} (QN QN' : A -> list Event -> Prop)
    (QR QR' : R -> list Event -> Prop) (m : Body World R A) :
  bodyPost QN QR m ->
  (forall a new, QN a new -> QN' a new) ->
  (forall r new, QR r new -> QR' r new) ->
  bodyPost QN' QR' m.
Proof.
  intros Hm HN HR w t. destruct (Hm w t) as (new & E & Hq).
  exists new. split; [exact E|].
  destruct (fst (fst (m w t))); simpl in *; auto.
Qed.

(** What follows a first part whose early returns are all errors may
    assume what the first part ensures. *)
Lemma bodyPost_after {R A B} (P : Event -> Prop) (QA : A -> Prop)
    (QB : B -> list Event -> Prop) (QR : R -> list Event -> Prop)
    (Bad : R -> Prop) (m : Body World R A) (k : A -> Body World R B) :
  bodySpec P QA Bad m ->
  (forall r new, Bad r -> QR r new) ->
  (forall a new1, QA a ->
     bodyPost (fun b new2 => QB b (new1 ++ new2)%list)
              (fun r new2 => QR r (new1 ++ new2)%list) (k a)) ->
  bodyPost QB QR (bind m k).
Proof.
  intros Hm Hbad Hk. eapply bodyPost_bind.
  - eapply bodyPost_weaken; [apply bodyPost_of_spec, Hm| |].
    + intros a new H. exact H.
    + intros r new [H _]. apply Hbad, H.
  - intros a new1 [Ha _]. apply Hk, Ha.
Qed.

End Posts.

Section PruneReport.
Context {World : Type} (env : Env World).

Lemma countHashes_dom (hs : list Z) :
  forall m : gmap Z Z,
    dom (fold_left (fun m h => <[h := uint32 (default 0 (m !! h) + 1)]> m) hs m)
    = dom m ∪ list_to_set hs.
Proof.
  induction hs as [|h hs IH]; intros m; simpl.
  - apply set_eq. intros x. set_unfold. tauto.
  - rewrite IH, dom_insert_L. apply set_eq. intros x. set_unfold. tauto.
Qed.

Lemma countBlocks_dom results :
  forall m : gmap Z Z, dom (countBlocks m results) = dom m ∪ keptBlocks results.
Proof.
  unfold countBlocks, keptBlocks.
  induction results as [|[e hs] rest IH]; intros m; simpl.
  - apply set_eq. intros x. set_unfold. tauto.
  - rewrite IH, countHashes_dom, list_to_set_app_L.
    apply set_eq. intros x. set_unfold. tauto.
Qed.

Lemma countBlocks_size results :
  size (countBlocks ∅ results) = size (keptBlocks results).
Proof.
  rewrite <- size_dom, countBlocks_dom, dom_empty_L.
  f_equal. apply set_eq. intros x. set_unfold. tauto.
Qed.

Lemma openOrFatal_spec {R} (P : Event -> Prop) (QR : R -> Prop) name :
  P (EvOpen name) ->
  bodySpec P (fun _ => True) QR (openOrFatal env name).
Proof.
  intros H. unfold openOrFatal, doOpen.
  repeat (spec_head; try exact H; try exact I).
Qed.

Lemma doCreateBlockStoreForURI_spec {R} (P : Event -> Prop) (QR : R -> Prop)
    uri optionalStoreIndexPath targetBlockSize maxChunksPerBlock accessType :
  P (EvCreateBlockStore uri optionalStoreIndexPath accessType) ->
  bodySpec P (fun _ => True) QR
    (doCreateBlockStoreForURI env uri optionalStoreIndexPath targetBlockSize
       maxChunksPerBlock accessType).
Proof.
  intros H. unfold doCreateBlockStoreForURI.
  repeat (spec_head; try exact H; try exact I).
Qed.

(** The dry run adds only events of a dry run. *)
Lemma pruneStore_dry_events storageURI sourcePaths versionLocalStoreIndexesPath
    writeVersionLocalStoreIndex :
  fnSpec dryRunEvent (fun _ => True)
    (pruneStore env storageURI sourcePaths versionLocalStoreIndexesPath
       writeVersionLocalStoreIndex true).
Proof.
  unfold pruneStore. apply fnSpec_fn. simpl negb. cbv iota.
  apply bodySpec_bind_any; [apply doCreateBlockStoreForURI_spec; reflexivity|].
  intros r.
  spec_head; [exact (fun _ _ => I)|]. unfold_calls.
  apply bodySpec_bind_any; [apply openOrFatal_spec; exact I|]. intros sourcesFile.
  apply bodySpec_bind_any.
  { spec_head; [|spec_head; exact I].
    apply bodySpec_bind_any; [apply openOrFatal_spec; exact I|]. intros f.
    spec_head; spec_head; exact I. }
  intros paths.
  apply bodySpec_bind_any; [spec_head; spec_head; exact I|]. intros _.
  apply bodySpec_bind_any.
  { eapply bodySpec_weaken; [apply pruneBatches_dry_at|auto|auto]. }
  intros usedBlocks.
  repeat (spec_head; try exact I).
Qed.

Lemma openOrFatal_run {R} name (w : World) t :
  openOrFatal (R:=R) env name w t
  = (match fst (os_Open env name w) with
     | inl e => Exit e
     | inr f => Next f
     end, snd (os_Open env name w), (t ++ [EvOpen name])%list).
Proof.
  unfold openOrFatal, doOpen. unfold bind at 1. rewrite logged_run.
  destruct (fst (os_Open env name w)); reflexivity.
Qed.

Lemma doCreateBlockStoreForURI_run {R} uri optionalStoreIndexPath targetBlockSize
    maxChunksPerBlock accessType (w : World) t :
  doCreateBlockStoreForURI (R:=R) env uri optionalStoreIndexPath targetBlockSize
    maxChunksPerBlock accessType w t
  = (match createBlockStoreForURI (cfg env) uri optionalStoreIndexPath
             targetBlockSize maxChunksPerBlock accessType with
     | Returns a => Next a
     | Panics msg => Panic msg
     | Fatal e => Exit e
     end, w, (t ++ [EvCreateBlockStore uri optionalStoreIndexPath accessType])%list).
Proof.
  unfold doCreateBlockStoreForURI, bind, emit, pure.
  destruct (createBlockStoreForURI _ _ _ _ _ _); reflexivity.
Qed.

(** A dry run that returns without an error has opened the store
    read-only, has read the list of sources, and has last printed the number
    of distinct block hashes of the block sets of the versions on the lines
    of that list. *)
Lemma pruneStore_dry_report storageURI sourcePaths versionLocalStoreIndexesPath
    writeVersionLocalStoreIndex (w : World) :
  0 < numWorkerCount (cfg env) ->
  fst (fst (pruneStore env storageURI sourcePaths versionLocalStoreIndexesPath
              writeVersionLocalStoreIndex true w [])) = Returns None ->
  exists remoteStore sourcesFile w1 results,
    createBlockStoreForURI (cfg env) storageURI "" 8388608 1024 ReadOnly
    = Returns (inr remoteStore) /\
    os_Open env sourcePaths w = (inr sourcesFile, w1) /\
    Forall2 (prunedVersionAt env remoteStore storageURI writeVersionLocalStoreIndex
               true (listedIndexFiles env versionLocalStoreIndexesPath w1))
      (imap (fun i sourceFilePath => (i, sourceFilePath)) (tfLines sourcesFile))
      results /\
    Forall (fun r => fst r = None) results /\
    last (snd (pruneStore env storageURI sourcePaths versionLocalStoreIndexesPath
                 writeVersionLocalStoreIndex true w []))
    = Some (EvOutput (OutPruneWouldKeep (Z.of_nat (size (keptBlocks results))))).
Proof.
  intros Hworkers Hret. unfold pruneStore in *. cbn [negb] in *.
  destruct (fn_bind_inv _ _ _ _ Hret) as (r & w0 & t0 & Hstore & E);
    [not_nil|]. rewrite E in *. clear E.
  destruct (fn_bind_inv _ _ _ _ Hret) as (remoteStore & w0' & t0' & Hr & E);
    [not_nil|]. rewrite E in *. clear E.
  destruct (fn_bind_inv _ _ _ _ Hret) as (sourcesFile & w1 & t1 & Hopen & E);
    [intros ? ?; rewrite openOrFatal_run;
     destruct (fst (os_Open env sourcePaths w0')); discriminate|].
  rewrite E in *. clear E.
  destruct (fn_bind_inv _ _ _ _ Hret) as (paths & w2 & t2 & Hpaths & E).
  { intros ? ?. destruct (negb _); [|discriminate].
    unfold bind. rewrite openOrFatal_run.
    destruct (fst (os_Open env versionLocalStoreIndexesPath w1));
      [discriminate|].
    destruct (negb _); discriminate. }
  rewrite E in *. clear E.
  destruct (fn_bind_inv _ _ _ _ Hret) as ([] & w3 & t3 & Hcount & E).
  { intros ? ?. destruct (_ <? 0); discriminate. }
  rewrite E in *. clear E.
  destruct (fn_bind_inv _ _ _ _ Hret) as (usedBlocks & w4 & t4 & Hbatches & E).
  { intros w' t' Hnil.
    destruct (pruneBatches_dry_at env remoteStore storageURI writeVersionLocalStoreIndex
                paths (batches (length (imap (fun i sourceFilePath => (i, sourceFilePath))
                                          (tfLines sourcesFile)))
                         (Z.to_nat (Z.min (numWorkerCount (cfg env))
                                      (Z.of_nat (length (tfLines sourcesFile)))))
                         (imap (fun i sourceFilePath => (i, sourceFilePath))
                            (tfLines sourcesFile))) ∅ w3 t3)
      as (new & _ & _ & Hpost).
    rewrite Hnil in Hpost. apply Hpost. reflexivity. }
  rewrite E in *. clear E. clear Hret.
  rewrite doCreateBlockStoreForURI_run in Hstore.
  destruct (createBlockStoreForURI (cfg env) storageURI "" 8388608 1024 ReadOnly)
    as [r'| |] eqn:Estore; try discriminate.
  injection Hstore as -> <- <-.
  destruct r as [e|remoteStore']; [discriminate|]. injection Hr as -> <- <-.
  rewrite openOrFatal_run in Hopen.
  destruct (os_Open env sourcePaths w) as [[e|sourcesFile'] w1'] eqn:Eopen;
    [discriminate|].
  injection Hopen as -> -> <-.
  assert (paths = listedIndexFiles env versionLocalStoreIndexesPath w1) as ->.
  { unfold listedIndexFiles.
    destruct (String.eqb (strings_TrimSpace (cfg env) versionLocalStoreIndexesPath) "");
      cbn [negb] in Hpaths; [injection Hpaths as <- _ _; reflexivity|].
    unfold bind in Hpaths. rewrite openOrFatal_run in Hpaths.
    destruct (fst (os_Open env versionLocalStoreIndexesPath w1)); [discriminate|].
    destruct (negb _); [discriminate|].
    injection Hpaths as <- _ _. reflexivity. }
  destruct (pruneBatches_dry_at env remoteStore storageURI writeVersionLocalStoreIndex
              (listedIndexFiles env versionLocalStoreIndexesPath w1)
              (batches (length (imap (fun i sourceFilePath => (i, sourceFilePath))
                                        (tfLines sourcesFile)))
                       (Z.to_nat (Z.min (numWorkerCount (cfg env))
                                    (Z.of_nat (length (tfLines sourcesFile)))))
                       (imap (fun i sourceFilePath => (i, sourceFilePath))
                          (tfLines sourcesFile))) ∅ w3 t3)
    as (new & _ & _ & Hpost).
  rewrite Hbatches in Hpost. destruct Hpost as (results & Hres & Hnone & ->).
  exists remoteStore, sourcesFile, w1, results.
  split; [reflexivity|]. split; [reflexivity|]. split; [|split; [exact Hnone|]].
  - destruct (tfLines sourcesFile) as [|l ls] eqn:El.
    + cbn [imap length] in Hres. rewrite batches_nil in Hres. exact Hres.
    + rewrite batches_concat in Hres; [exact Hres| |lia].
      cbn [length]. lia.
  - unfold fn, printf, bind, emit, ret. cbn [snd].
    rewrite last_snoc, countBlocks_size. reflexivity.
Qed.

End PruneReport.

(** C3: a dry run of [pruneStore] opens its store read-only, issues no
    [PruneBlocks] call and writes no file (it adds only events of a dry
    run); and when it returns without an error it has opened the store at
    the storage URI and the list of sources, every line of that list has
    yielded a block set, none of them with an error, and the last thing it
    has done is to print the number of distinct block hashes in these block
    sets, the blocks a prune would keep.  The worker count is positive. *)
Theorem prune_dry_run_changes_nothing {World} (env : Env World)
    (storageURI sourcePaths versionLocalStoreIndexesPath : string)
    (writeVersionLocalStoreIndex : bool) (w : World) :
  let run := pruneStore env storageURI sourcePaths versionLocalStoreIndexesPath
               writeVersionLocalStoreIndex true w [] in
  (forall e, In e (snd run) -> dryRunEvent e) /\
  (forall uri optionalStoreIndexPath accessType,
     In (EvCreateBlockStore uri optionalStoreIndexPath accessType) (snd run) ->
     accessType = ReadOnly) /\
  (forall store keep, ~ In (EvPruneBlocks store keep) (snd run)) /\
  (forall uri buffer, ~ In (EvWriteToURI uri buffer) (snd run)) /\
  (0 < numWorkerCount (cfg env) ->
   fst (fst run) = Returns None ->
   exists remoteStore sourcesFile w1 results,
     createBlockStoreForURI (cfg env) storageURI "" 8388608 1024 ReadOnly
     = Returns (inr remoteStore) /\
     os_Open env sourcePaths w = (inr sourcesFile, w1) /\
     Forall2 (prunedVersionAt env remoteStore storageURI writeVersionLocalStoreIndex
                true (listedIndexFiles env versionLocalStoreIndexesPath w1))
       (imap (fun i sourceFilePath => (i, sourceFilePath)) (tfLines sourcesFile))
       results /\
     Forall (fun r => fst r = None) results /\
     last (snd run)
     = Some (EvOutput (OutPruneWouldKeep (Z.of_nat (size (keptBlocks results)))))).
Proof.
  intros run.
  assert (H : forall e, In e (snd run) -> dryRunEvent e).
  { intros e. apply (fnSpec_In _ _ _ (pruneStore_dry_events env storageURI sourcePaths
                          versionLocalStoreIndexesPath writeVersionLocalStoreIndex)). }
  split; [exact H|]. split; [|split; [|split]].
  - intros uri p a Hin. exact (H _ Hin).
  - intros store keep Hin. exact (H _ Hin).
  - intros uri buffer Hin. exact (H _ Hin).
  - apply pruneStore_dry_report.
Qed.

(** A dry run over two versions that both lie in the blocks 5 and 6: two
    blocks would be kept. *)
Lemma prune_dry_run_changes_nothing_witness :
  pruneStore twoVersionsEnv "store" "versions.txt" "" false true tt []
  = (Returns None, tt,
     [EvCreateBlockStore "store" "" ReadOnly; EvOpen "versions.txt";
      EvReadFromURI "store/v1.lvi";
      EvGetExistingStoreIndex (FSBlockStore "store") [11] 0;
      EvReadFromURI "store/v2.lvi";
      EvGetExistingStoreIndex (FSBlockStore "store") [11] 0;
      EvOutput (OutPruneWouldKeep 2)]) /\
  exists remoteStore sourcesFile w1 results,
    createBlockStoreForURI (cfg twoVersionsEnv) "store" "" 8388608 1024 ReadOnly
    = Returns (inr remoteStore) /\
    os_Open twoVersionsEnv "versions.txt" tt = (inr sourcesFile, w1) /\
    Forall2 (prunedVersionAt twoVersionsEnv remoteStore "store" false true
               (listedIndexFiles twoVersionsEnv "" w1))
      (imap (fun i sourceFilePath => (i, sourceFilePath)) (tfLines sourcesFile))
      results /\
    Forall (fun r => fst r = None) results /\
    last (snd (pruneStore twoVersionsEnv "store" "versions.txt" "" false true tt []))
    = Some (EvOutput (OutPruneWouldKeep (Z.of_nat (size (keptBlocks results))))).
Proof.
  split; [vm_compute; reflexivity|].
  apply (proj2 (proj2 (proj2 (proj2
           (prune_dry_run_changes_nothing twoVersionsEnv "store" "versions.txt" ""
              false tt))))); [reflexivity|vm_compute; reflexivity].
Defined.

(** A dry run in the small world: one version, one block to keep. *)
Example prune_dry_run_demo :
  pruneStore demoEnv "store" "versions.txt" "" false true tt []
  = (Returns None, tt,
     [EvCreateBlockStore "store" "" ReadOnly; EvOpen "versions.txt";
      EvReadFromURI "store/v1.lvi";
      EvGetExistingStoreIndex (FSBlockStore "store") [11] 0;
      EvOutput (OutPruneWouldKeep 1)]).
Proof. vm_compute. reflexivity. Qed.

(** The same call without the dry run prunes and flushes. *)
Example prune_demo :
  pruneStore demoEnv "store" "versions.txt" "" false false tt []
  = (Returns None, tt,
     [EvCreateBlockStore "store" "" ReadWrite; EvOpen "versions.txt";
      EvReadFromURI "store/v1.lvi";
      EvGetExistingStoreIndex (FSBlockStore "store") [11] 0;
      EvPruneBlocks (FSBlockStore "store") [5]; EvOutput (OutPruned 0);
      EvFlush [FSBlockStore "store"]]).
Proof. vm_compute. reflexivity. Qed.

(** With a negative worker count, [pruneStore] panics when it makes the
    channel of the batch errors, and [stats] when it makes the completions of
    the first batch; one worker takes the versions and the blocks one by
    one. *)
Example negative_worker_count :
  pruneStore (withWorkerCount demoEnv (-1)) "store" "versions.txt" "" false true tt []
  = (Panics "makechan: size out of range", tt,
     [EvCreateBlockStore "store" "" ReadOnly; EvOpen "versions.txt"]) /\
  stats (withWorkerCount demoEnv (-1)) "store" "store/v1.lvi" "" tt []
  = (Panics "makeslice: len out of range", tt,
     [EvCreateBlockStore "store" "" ReadOnly; EvReadFromURI "store/v1.lvi";
      EvGetExistingStoreIndex (FSBlockStore "store") [11] 0]) /\
  pruneStore (withWorkerCount twoVersionsEnv 1) "store" "versions.txt" "" false true
    tt []
  = pruneStore twoVersionsEnv "store" "versions.txt" "" false true tt [] /\
  stats (withWorkerCount fragmentedEnv 1) "store" "store/v1.lvi" "" tt []
  = stats fragmentedEnv "store" "store/v1.lvi" "" tt [].
Proof. vm_compute. repeat split. Qed.

(** ** [pruneStore]: the block set of a version *)

Section PruneBlockSet.
Context {World : Type} (env : Env World).
Variables (remoteStore : BlockStore) (storageURI : string).
Variables (writeVersionLocalStoreIndex dryRun : bool).
Variables (sourceFilePath versionLocalStoreIndexFilePath : string).
Variables (w w1 : World) (t : list Event) (vbuffer : Buffer).
Variable sourceVersionIndex : VersionIndex.
Hypothesis Hread : ReadFromURI env sourceFilePath w = (inr vbuffer, w1).
Hypothesis Hparse :
  ReadVersionIndexFromBuffer env vbuffer = (sourceVersionIndex, 0).

Let run :=
  pruneOneVersion env remoteStore storageURI writeVersionLocalStoreIndex dryRun
    sourceFilePath versionLocalStoreIndexFilePath w t.

Ltac run_step :=
  unfold run, pruneOneVersion, fn, doReadFromURI, doGetExistingStoreIndexSync,
    doWriteToURI, printf, orReturn, orReturnErrno, bind, emit, world, next, ret;
  rewrite ?Hread; cbn [fst snd]; rewrite ?Hparse; cbn [fst snd Z.eqb negb].

Lemma pruneOneVersion_from_file sbuffer w2 storeIndex :
  versionLocalStoreIndexFilePath <> "" ->
  writeVersionLocalStoreIndex = false ->
  ReadFromURI env versionLocalStoreIndexFilePath w1 = (inr sbuffer, w2) ->
  ReadStoreIndexFromBuffer env sbuffer = (storeIndex, 0) ->
  ValidateStore env storeIndex sourceVersionIndex = 0 ->
  run = (Returns (None, siBlockHashes storeIndex), w2,
         (t ++ [EvReadFromURI sourceFilePath;
                EvReadFromURI versionLocalStoreIndexFilePath])%list).
Proof.
  intros Hlsi Hwrite Hfile Hsi Hvalid. run_step.
  destruct (String.eqb_spec versionLocalStoreIndexFilePath ""); [contradiction|].
  rewrite Hwrite. cbn [negb andb].
  rewrite Hfile. cbn [fst snd]. rewrite Hsi. cbn [fst snd Z.eqb negb].
  rewrite Hvalid. cbn [Z.eqb negb andb].
  rewrite <- app_assoc. reflexivity.
Qed.

Ltac remote_part w2 :=
  destruct (GetExistingStoreIndexSync env remoteStore
              (viChunkHashes sourceVersionIndex) 0 w2) as [[storeIndex errno] w3];
  cbn [fst snd]; destruct (negb (errno =? 0)); [reflexivity|];
  cbn [fst snd];
  destruct (negb (ValidateStore env storeIndex sourceVersionIndex =? 0));
  [destruct dryRun; reflexivity|];
  destruct (negb (String.eqb versionLocalStoreIndexFilePath "")
            && writeVersionLocalStoreIndex && negb dryRun); [|reflexivity];
  destruct (WriteStoreIndexToBuffer env storeIndex) as [sbuffer' errno'];
  cbn [fst snd]; destruct (negb (errno' =? 0)); [reflexivity|];
  destruct (WriteToURI env versionLocalStoreIndexFilePath sbuffer' w3) as [[e'|] w4];
  reflexivity.

Lemma pruneOneVersion_after_file w2 :
  fileIndexUnusable env versionLocalStoreIndexFilePath writeVersionLocalStoreIndex
    sourceVersionIndex w1 w2 ->
  exists t2,
    run = afterFile env remoteStore storageURI writeVersionLocalStoreIndex dryRun
            sourceFilePath versionLocalStoreIndexFilePath sourceVersionIndex w2 t2.
Proof.
  unfold afterFile.
  intros [[Hskip ->]|(Hlsi & Hwrite & Hfile)].
  - exists (t ++ [EvReadFromURI sourceFilePath])%list. run_step.
    assert (E : negb (String.eqb versionLocalStoreIndexFilePath "")
                && negb writeVersionLocalStoreIndex = false).
    { destruct Hskip as [-> | ->]; [reflexivity|apply andb_false_r]. }
    rewrite E. remote_part w1.
  - exists (t ++ [EvReadFromURI sourceFilePath;
                  EvReadFromURI versionLocalStoreIndexFilePath])%list.
    run_step.
    destruct (String.eqb_spec versionLocalStoreIndexFilePath ""); [contradiction|].
    rewrite Hwrite. cbn [negb andb].
    replace (t ++ [EvReadFromURI sourceFilePath;
                   EvReadFromURI versionLocalStoreIndexFilePath])%list
      with ((t ++ [EvReadFromURI sourceFilePath])
            ++ [EvReadFromURI versionLocalStoreIndexFilePath])%list
      by (rewrite <- app_assoc; reflexivity).
    destruct Hfile as [[e He]|(sbuffer & si & He & Hsi & Hv)]; rewrite He.
    + cbn [fst snd]. remote_part w2.
    + cbn [fst snd]. rewrite Hsi. cbn [fst snd Z.eqb negb].
      destruct (Z.eqb_spec (ValidateStore env si sourceVersionIndex) 0);
        [contradiction|]. cbn [negb]. remote_part w2.
Qed.

End PruneBlockSet.

(** C4, as stated, fails: with [write-version-local-store-index] on, a
    per-version store index file that is given, readable and valid is not
    consulted.  Here the file names block 1 and the remote store block 2 for
    the version's chunk; the block set is [[2]] and the file is overwritten. *)
Lemma prune_ignores_valid_index_file :
  ReadFromURI twoIndexEnv "v1.lsi" tt = (inr [1], tt) /\
  ReadStoreIndexFromBuffer twoIndexEnv [1] = (mkStoreIndex [1] [11], 0) /\
  ValidateStore twoIndexEnv (mkStoreIndex [1] [11]) demoVersionIndex = 0 /\
  pruneOneVersion twoIndexEnv (FSBlockStore "store") "store" true false
    "v1.lvi" "v1.lsi" tt []
  = (Returns (None, [2]), tt,
     [EvReadFromURI "v1.lvi";
      EvGetExistingStoreIndex (FSBlockStore "store") [11] 0;
      EvWriteToURI "v1.lsi" [2]]).
Proof. vm_compute. repeat split. Qed.

(** C4, amended: for a version whose version index is read, the block set
    is that of the per-version store index file when a file is named, the
    index is not to be written anew, and the file is read, parsed and
    validates against the version; when no file is named, or the index is to
    be written anew, or the file cannot be read or does not validate, the
    remote store's index is queried for the version's chunk hashes and, if
    it validates, gives the block set; if it does not validate, the version
    yields an error, and in a dry run only a logged warning and no
    blocks. *)
Theorem prune_block_set_of_version {World} (env : Env World)
    (remoteStore : BlockStore) (storageURI : string)
    (writeVersionLocalStoreIndex dryRun : bool)
    (sourceFilePath versionLocalStoreIndexFilePath : string)
    (w w1 : World) (t : list Event) (vbuffer : Buffer)
    (sourceVersionIndex : VersionIndex) :
  ReadFromURI env sourceFilePath w = (inr vbuffer, w1) ->
  ReadVersionIndexFromBuffer env vbuffer = (sourceVersionIndex, 0) ->
  let run :=
    pruneOneVersion env remoteStore storageURI writeVersionLocalStoreIndex dryRun
      sourceFilePath versionLocalStoreIndexFilePath w t in
  (forall sbuffer w2 storeIndex,
     versionLocalStoreIndexFilePath <> "" ->
     writeVersionLocalStoreIndex = false ->
     ReadFromURI env versionLocalStoreIndexFilePath w1 = (inr sbuffer, w2) ->
     ReadStoreIndexFromBuffer env sbuffer = (storeIndex, 0) ->
     ValidateStore env storeIndex sourceVersionIndex = 0 ->
     run = (Returns (None, siBlockHashes storeIndex), w2,
            (t ++ [EvReadFromURI sourceFilePath;
                   EvReadFromURI versionLocalStoreIndexFilePath])%list)) /\
  (forall w2 storeIndex w3,
     fileIndexUnusable env versionLocalStoreIndexFilePath writeVersionLocalStoreIndex
       sourceVersionIndex w1 w2 ->
     GetExistingStoreIndexSync env remoteStore (viChunkHashes sourceVersionIndex) 0 w2
     = (storeIndex, 0, w3) ->
     (ValidateStore env storeIndex sourceVersionIndex = 0 ->
      exists err, fst (fst run) = Returns (err, siBlockHashes storeIndex)) /\
     (ValidateStore env storeIndex sourceVersionIndex <> 0 -> dryRun = false ->
      fst run
      = (Returns (Some (Wrapf (ValidateStore env storeIndex sourceVersionIndex)
                          "Data is missing in store `%s` for version `%s`"
                          [ArgS storageURI; ArgS sourceFilePath]), []), w3)) /\
     (ValidateStore env storeIndex sourceVersionIndex <> 0 -> dryRun = true ->
      fst run = (Returns (None, []), w3) /\
      last (snd run) = Some (EvOutput (LogMissingData storageURI sourceFilePath)))).
Proof.
  intros Hread Hparse run. split.
  - intros sbuffer w2 storeIndex Hlsi Hwrite Hfile Hsi Hvalid.
    eapply pruneOneVersion_from_file; eassumption.
  - intros w2 storeIndex w3 Hfile Hquery.
    destruct (pruneOneVersion_after_file env remoteStore storageURI
                writeVersionLocalStoreIndex dryRun sourceFilePath
                versionLocalStoreIndexFilePath w w1 t vbuffer sourceVersionIndex
                Hread Hparse w2 Hfile) as [t2 Hrun].
    fold run in Hrun. rewrite Hrun. unfold afterFile. rewrite Hquery.
    cbn [Z.eqb negb]. split; [|split].
    + intros Hv. rewrite Hv. cbn [Z.eqb negb].
      destruct (negb (String.eqb versionLocalStoreIndexFilePath "")
                && writeVersionLocalStoreIndex && negb dryRun); [|eauto].
      destruct (WriteStoreIndexToBuffer env storeIndex) as [sbuffer errno].
      destruct (negb (errno =? 0)); [eauto|].
      destruct (WriteToURI env versionLocalStoreIndexFilePath sbuffer w3); eauto.
    + intros Hv ->. destruct (Z.eqb_spec (ValidateStore env storeIndex
                                            sourceVersionIndex) 0);
        [contradiction|reflexivity].
    + intros Hv ->. destruct (Z.eqb_spec (ValidateStore env storeIndex
                                            sourceVersionIndex) 0);
        [contradiction|]. cbn [negb fst snd]. rewrite last_snoc. split; reflexivity.
Qed.

Lemma prune_block_set_of_version_witness :
  pruneOneVersion twoIndexEnv (FSBlockStore "store") "store" false false
    "v1.lvi" "v1.lsi" tt []
  = (Returns (None, [1]), tt, [EvReadFromURI "v1.lvi"; EvReadFromURI "v1.lsi"]) /\
  (exists err,
     fst (fst (pruneOneVersion twoIndexEnv (FSBlockStore "store") "store" false false
                 "v1.lvi" "" tt []))
     = Returns (err, [2])).
Proof.
  pose proof (prune_block_set_of_version twoIndexEnv (FSBlockStore "store") "store"
                false false "v1.lvi" "v1.lsi" tt tt [] [1] demoVersionIndex
                eq_refl eq_refl) as [Hfile _].
  pose proof (prune_block_set_of_version twoIndexEnv (FSBlockStore "store") "store"
                false false "v1.lvi" "" tt tt [] [1] demoVersionIndex
                eq_refl eq_refl) as [_ Hstore].
  split.
  - apply (Hfile [1] tt (mkStoreIndex [1] [11])); try reflexivity. discriminate.
  - apply (Hstore tt (mkStoreIndex [2] [11]) tt); try reflexivity.
    left. split; [left; reflexivity|reflexivity].
Defined.

(** Where the source sends a nil [err]: a per-version store index file that
    is read but does not parse ends the goroutine without an error and
    without blocks, and the remote store is not asked. *)
Example prune_unparsable_index_file :
  pruneOneVersion
    (demoEnvWith parseBarePath demoFiles (fun _ => (mkStoreIndex [] [], 22))
       (demoStoreIndex, 0) demoVersionIndex [])
    (FSBlockStore "store") "store" false false "v1.lvi" "v1.lsi" tt []
  = (Returns (None, []), tt, [EvReadFromURI "v1.lvi"; EvReadFromURI "v1.lsi"]).
Proof. vm_compute. reflexivity. Qed.

(** ** [stats]: the asset fragmentation *)

Section Fragmentation.

Lemma uint64_succ x : uint64 (uint64 x + 1) = uint64 (x + 1).
Proof. unfold uint64. rewrite Zplus_mod_idemp_l. reflexivity. Qed.

Lemma runs_changes x blocks : runs (x :: blocks) = 1 + changes x blocks.
Proof.
  revert x. induction blocks as [|y blocks IH]; intros x; [reflexivity|].
  change (runs (x :: y :: blocks))
    with ((if x =? y then 0 else 1) + runs (y :: blocks)).
  rewrite IH. cbn [changes]. rewrite (Z.eqb_sym y x). lia.
Qed.

(** Unless the first block is the value the comparison starts from, the
    changes are the runs. *)
Lemma changes_runs before blocks :
  head blocks <> Some before -> changes before blocks = runs blocks.
Proof.
  destruct blocks as [|x blocks]; [reflexivity|]. intros H.
  rewrite runs_changes. cbn [changes].
  destruct (Z.eqb_spec x before); [subst; contradiction H; reflexivity|lia].
Qed.

Variable versionIndex : VersionIndex.
Variable blockLookup : gmap Z Z.

Lemma countFragments_changes n :
  forall c before x blocks,
    0 <= c -> c + Z.of_nat n < 2 ^ 32 ->
    blocksFrom versionIndex blockLookup (Z.to_nat c) n = Some blocks ->
    exists before',
      countFragments (viChunkHashes versionIndex) (viAssetChunkIndexes versionIndex)
        blockLookup n c before (uint64 x)
      = Some (before', uint64 (x + changes before blocks)).
Proof.
  induction n as [|n IH]; intros c before x blocks Hc Hn Hm.
  - simpl in Hm. injection Hm as <-. exists before. simpl. rewrite Z.add_0_r.
    reflexivity.
  - cbn [blocksFrom] in Hm. unfold chunkBlock at 1 in Hm.
    cbn [countFragments].
    destruct (viAssetChunkIndexes versionIndex !! Z.to_nat c) as [chunkIndex|];
      [|discriminate].
    destruct (viChunkHashes versionIndex !! Z.to_nat chunkIndex) as [chunkHash|];
      [|discriminate].
    destruct (blocksFrom versionIndex blockLookup (S (Z.to_nat c)) n)
      as [rest|] eqn:Hrest; [|discriminate].
    injection Hm as <-.
    assert (Hu : uint32 (c + 1) = c + 1) by (unfold uint32; apply Z.mod_small; lia).
    rewrite Hu.
    replace (S (Z.to_nat c)) with (Z.to_nat (c + 1)) in Hrest by lia.
    cbn [changes].
    destruct (Z.eqb_spec (default 0 (blockLookup !! chunkHash)) before) as [E|E];
      cbn [negb].
    + destruct (IH (c + 1) before x rest ltac:(lia) ltac:(lia) Hrest) as [b' Hb'].
      exists b'. rewrite Hb', E. reflexivity.
    + rewrite uint64_succ.
      destruct (IH (c + 1) (default 0 (blockLookup !! chunkHash)) (x + 1) rest
                  ltac:(lia) ltac:(lia) Hrest) as [b' Hb'].
      exists b'. rewrite Hb'. do 2 f_equal. f_equal. lia.
Qed.

Lemma countAssetFragments_changes assets :
  forall blocks x,
    Forall2
      (fun a bs =>
         0 <= assetChunkIndexStart a /\ 0 <= assetChunkCount a /\
         assetChunkIndexStart a + assetChunkCount a < 2 ^ 32 /\
         assetBlocks versionIndex blockLookup a = Some bs)
      assets blocks ->
    countAssetFragments (viChunkHashes versionIndex)
      (viAssetChunkIndexes versionIndex) blockLookup assets (uint64 x)
    = Some (uint64 (x + sumZ (map (changes uint64_ones) blocks))).
Proof.
  induction assets as [|a assets IH]; intros blocks x H.
  - inversion H; subst. simpl. rewrite Z.add_0_r. reflexivity.
  - inversion H as [|? bs ? rest (Hs & Hc & Hb & Hbs) Hrest]; subst.
    cbn [countAssetFragments].
    assert (Hrounds : chunkLoopRounds (assetChunkIndexStart a) (assetChunkCount a)
                      = Z.to_nat (assetChunkCount a)).
    { unfold chunkLoopRounds, uint32. rewrite Z.mod_small by lia. f_equal. lia. }
    rewrite Hrounds.
    destruct (countFragments_changes (Z.to_nat (assetChunkCount a))
                (assetChunkIndexStart a) uint64_ones x bs Hs ltac:(lia) Hbs)
      as [b' Hb'].
    rewrite Hb'. rewrite (IH rest _ Hrest). cbn [map sumZ fold_right].
    f_equal. f_equal. unfold sumZ. lia.
Qed.

End Fragmentation.

Lemma changes_nonneg before blocks : 0 <= changes before blocks.
Proof.
  revert before. induction blocks as [|x blocks IH]; intros before; simpl; [lia|].
  specialize (IH x). destruct (x =? before); lia.
Qed.

Lemma sumZ_changes_nonneg blocks : 0 <= sumZ (map (changes uint64_ones) blocks).
Proof.
  induction blocks as [|bs blocks IH]; simpl; [lia|].
  pose proof (changes_nonneg uint64_ones bs). unfold sumZ in *. simpl. lia.
Qed.

Lemma sumZ_changes_runs blocks :
  Forall (fun bs => head bs <> Some uint64_ones) blocks ->
  sumZ (map (changes uint64_ones) blocks) = sumZ (map runs blocks).
Proof.
  induction 1 as [|bs blocks H _ IH]; [reflexivity|].
  unfold sumZ in *. simpl. rewrite IH, (changes_runs _ _ H). reflexivity.
Qed.

(** The wrap-around of the subtraction when the quotient is below 100. *)
Lemma fragmentation_wraps q :
  0 <= q < 100 -> uint32 (uint64 (q - 100)) = 2 ^ 32 - 100 + q.
Proof.
  intros Hq. unfold uint32, uint64.
  replace ((q - 100) mod 2 ^ 64) with (q - 100 + 2 ^ 64).
  2: { symmetry. rewrite <- (Z.mod_add _ 1) by lia. apply Z.mod_small. lia. }
  replace (q - 100 + 2 ^ 64) with (2 ^ 32 - 100 + q + (2 ^ 32 - 1) * 2 ^ 32) by lia.
  rewrite Z.mod_add by lia. apply Z.mod_small. lia.
Qed.

Section StatsReport.
Context {World : Type} (env : Env World).

Lemma fetchBlocks_silent {R} (P : Event -> Prop) (QR : R -> Prop) indexStore batch :
  (forall h, P (EvGetStoredBlock indexStore h)) ->
  bodySpec P (fun _ => True) QR (fetchBlocks env indexStore batch).
Proof.
  intros HP. induction batch as [|h rest IH]; cbn [fetchBlocks].
  - apply bodySpec_next. exact I.
  - unfold doGetStoredBlock.
    spec_head; [apply HP|].
    apply bodySpec_bind_any; [exact IH|]. intros rs. apply bodySpec_next. exact I.
Qed.

Lemma collectBlocks_silent (P : Event -> Prop) completions :
  forall errno blockLookup blockChunkCount,
    bodySpec P (fun _ => True) (fun _ => True)
      (collectBlocks (World:=World) completions errno blockLookup blockChunkCount).
Proof.
  induction completions as [|[h [sb err]] rest IH]; intros; cbn [collectBlocks].
  - apply bodySpec_next. exact I.
  - destruct (negb (err =? 0)); [apply bodySpec_ret; exact I|apply IH].
Qed.

Lemma fetchAllBlocks_silent (P : Event -> Prop) indexStore bs :
  (forall h, P (EvGetStoredBlock indexStore h)) ->
  forall errno blockLookup blockChunkCount,
    bodySpec P (fun _ => True) (fun _ => True)
      (fetchAllBlocks env indexStore bs errno blockLookup blockChunkCount).
Proof.
  intros HP. induction bs as [|batch rest IH]; intros; cbn [fetchAllBlocks].
  - apply bodySpec_next. exact I.
  - apply bodySpec_bind_any; [apply fetchBlocks_silent, HP|]. intros completions.
    apply bodySpec_bind_any; [apply collectBlocks_silent|]. intros [l c].
    apply IH.
Qed.

Lemma stats_reportsFragmentation blobStoreURI versionIndexPath localCachePath :
  fnSpec (reportsFragmentation env versionIndexPath) (fun _ => True)
    (stats env blobStoreURI versionIndexPath localCachePath).
Proof.
  unfold stats. apply fnSpec_fn.
  apply bodySpec_bind_any.
  { apply doCreateBlockStoreForURI_spec. intros ? [=]. }
  intros r. spec_head; [exact (fun _ _ => I)|].
  destruct (if String.eqb localCachePath "" then _ else _) as [[l c] indexStore].
  unfold_calls.
  spec_head; [intros ? [=]|].
  spec_head; [exact (fun _ _ => I)|].
  spec_head; [exact (fun _ => I)|].
  spec_head; [intros ? [=]|].
  spec_head; [exact (fun _ => I)|].
  apply bodySpec_bind_any; [spec_head; spec_head; exact I|]. intros _.
  apply bodySpec_bind_any.
  { apply fetchAllBlocks_silent. intros ? ? [=]. }
  intros [blockLookup blockChunkCount].
  match goal with
  | |- context [assetFragmentation ?vi blockLookup] =>
      destruct (assetFragmentation vi blockLookup) as [fragmentation|] eqn:Ef;
      [|apply bodySpec_panic]
  end.
  spec_head; [spec_head; intros ? [=]|].
  spec_head.
  { spec_head. intros p [= <-]. subst.
    eexists _, _, blockLookup. repeat split; eauto. }
  repeat (spec_head; try exact I; try (intros ? [=])).
Qed.

End StatsReport.

Section StatsRun.
Context {World : Type} (env : Env World).

Lemma storedBlocks_app indexStore l1 l2 (w : World) :
  storedBlocks env indexStore (l1 ++ l2) w
  = ((fst (storedBlocks env indexStore l1 w)
        ++ fst (storedBlocks env indexStore l2
                  (snd (storedBlocks env indexStore l1 w))))%list,
     snd (storedBlocks env indexStore l2
            (snd (storedBlocks env indexStore l1 w)))).
Proof.
  revert w. induction l1 as [|h l1 IH]; intros w; cbn [storedBlocks app].
  - cbn [fst snd app]. destruct (storedBlocks env indexStore l2 w); reflexivity.
  - destruct (GetStoredBlock env indexStore h w) as [r w1].
    rewrite IH.
    destruct (storedBlocks env indexStore l1 w1) as [rs w2]. reflexivity.
Qed.

Lemma fetchBlocks_run {R} indexStore batch (w : World) t :
  fetchBlocks (R:=R) env indexStore batch w t
  = (Next (fst (storedBlocks env indexStore batch w)),
     snd (storedBlocks env indexStore batch w),
     (t ++ map (EvGetStoredBlock indexStore) batch)%list).
Proof.
  revert w t. induction batch as [|h rest IH]; intros w t;
    cbn [fetchBlocks storedBlocks map].
  - rewrite app_nil_r. reflexivity.
  - unfold doGetStoredBlock. rewrite (bind_Next _ _ _ _ _ _ _ (logged_run _ _ _ _)).
    destruct (GetStoredBlock env indexStore h w) as [r w1]. cbn [fst snd].
    rewrite (bind_Next _ _ _ _ _ _ _ (IH _ _)).
    destruct (storedBlocks env indexStore rest w1) as [rs w2].
    unfold next. rewrite <- app_assoc. reflexivity.
Qed.

Lemma collectBlocks_run completions :
  Forall (fun c => snd (snd c) = 0) completions ->
  forall errno blockLookup blockChunkCount (w : World) t,
    collectBlocks completions errno blockLookup blockChunkCount w t
    = (Next (fold_left
               (fun m c => addBlock m (fst c) (sbChunkHashes (fst (snd c))))
               completions blockLookup,
             fold_left
               (fun count c =>
                  uint32 (count
                          + uint32 (Z.of_nat (length (sbChunkHashes (fst (snd c)))))))
               completions blockChunkCount), w, t).
Proof.
  induction 1 as [|[h [sb err]] rest Hok _ IH]; intros; cbn [collectBlocks fold_left].
  - reflexivity.
  - cbn [fst snd] in *. subst err. cbn [Z.eqb negb]. apply IH.
Qed.

Lemma fetchAllBlocks_run indexStore bs :
  forall errno blockLookup blockChunkCount (w : World) t,
    Forall (fun c => snd (snd c) = 0)
      (fst (storedBlocks env indexStore (concat bs) w)) ->
    fetchAllBlocks env indexStore bs errno blockLookup blockChunkCount w t
    = (Next (fold_left
               (fun m c => addBlock m (fst c) (sbChunkHashes (fst (snd c))))
               (fst (storedBlocks env indexStore (concat bs) w)) blockLookup,
             fold_left
               (fun count c =>
                  uint32 (count
                          + uint32 (Z.of_nat (length (sbChunkHashes (fst (snd c)))))))
               (fst (storedBlocks env indexStore (concat bs) w)) blockChunkCount),
       snd (storedBlocks env indexStore (concat bs) w),
       (t ++ map (EvGetStoredBlock indexStore) (concat bs))%list).
Proof.
  induction bs as [|batch rest IH]; intros errno blockLookup blockChunkCount w t Hok;
    cbn [fetchAllBlocks concat].
  - cbn [storedBlocks fst snd fold_left map]. rewrite app_nil_r. reflexivity.
  - cbn [concat] in Hok. rewrite storedBlocks_app in *. cbn [fst snd] in *.
    apply Forall_app in Hok as [Hbatch Hrest].
    rewrite (bind_Next _ _ _ _ _ _ _ (fetchBlocks_run _ _ _ _)).
    rewrite (bind_Next _ _ _ _ _ _ _ (collectBlocks_run _ Hbatch _ _ _ _ _)).
    rewrite (IH _ _ _ _ _ Hrest).
    rewrite !fold_left_app, map_app, app_assoc. reflexivity.
Qed.

Lemma addBlock_lookup (blockLookup : gmap Z Z) blockHash chunkHashes chunkHash :
  addBlock blockLookup blockHash chunkHashes !! chunkHash
  = if existsb (Z.eqb chunkHash) chunkHashes then Some blockHash
    else blockLookup !! chunkHash.
Proof.
  unfold addBlock. revert blockLookup.
  induction chunkHashes as [|h hs IH]; intros blockLookup; cbn [fold_left existsb].
  - reflexivity.
  - rewrite IH. destruct (existsb (Z.eqb chunkHash) hs).
    + rewrite orb_true_r. reflexivity.
    + rewrite orb_false_r. destruct (Z.eqb_spec chunkHash h) as [->|Hne].
      * apply lookup_insert_eq.
      * apply lookup_insert_ne. congruence.
Qed.

(** The lookup that [stats] fills records, for a chunk, the last fetched
    block that lists it. *)
Lemma fetched_lookup fetched :
  forall (blockLookup : gmap Z Z) chunkHash,
    fold_left (fun m c => addBlock m (fst c) (sbChunkHashes (fst (snd c))))
      fetched blockLookup !! chunkHash
    = match blockOfChunk fetched chunkHash with
      | Some blockHash => Some blockHash
      | None => blockLookup !! chunkHash
      end.
Proof.
  induction fetched as [|[h [sb err]] rest IH]; intros blockLookup chunkHash;
    cbn [fold_left blockOfChunk fst snd].
  - reflexivity.
  - rewrite IH. destruct (blockOfChunk rest chunkHash); [reflexivity|].
    rewrite addBlock_lookup.
    destruct (existsb (Z.eqb chunkHash) (sbChunkHashes sb)); reflexivity.
Qed.

(** A run of [stats] in which every call succeeds: it fetches the blocks of
    the store index one by one and prints the fragmentation of the version
    for the lookup these blocks give. *)
Lemma stats_run blobStoreURI versionIndexPath localCachePath (w : World) t
    remoteStore vbuffer w1 versionIndex existingStoreIndex w2 fetched w3
    blockLookup fragmentation :
  let indexStore :=
    if String.eqb localCachePath "" then remoteStore
    else CacheBlockStore (FSBlockStore (normalizePath localCachePath)) remoteStore in
  let stores :=
    if String.eqb localCachePath "" then [nilBlockStore; nilBlockStore; remoteStore]
    else [CacheBlockStore (FSBlockStore (normalizePath localCachePath)) remoteStore;
          FSBlockStore (normalizePath localCachePath); remoteStore] in
  createBlockStoreForURI (cfg env) blobStoreURI "" 8388608 1024 ReadOnly
  = Returns (inr remoteStore) ->
  ReadFromURI env versionIndexPath w = (inr vbuffer, w1) ->
  ReadVersionIndexFromBuffer env vbuffer = (versionIndex, 0) ->
  GetExistingStoreIndexSync env indexStore (viChunkHashes versionIndex) 0 w1
  = (existingStoreIndex, 0, w2) ->
  0 < numWorkerCount (cfg env) ->
  storedBlocks env indexStore (siBlockHashes existingStoreIndex) w2 = (fetched, w3) ->
  Forall (fun c => snd (snd c) = 0) fetched ->
  (forall chunkHash, blockLookup !! chunkHash = blockOfChunk fetched chunkHash) ->
  assetFragmentation versionIndex blockLookup = Some fragmentation ->
  stats env blobStoreURI versionIndexPath localCachePath w t
  = (Returns (if negb (fst (FlushStoresSync env stores w3) =? 0) then
                Some (Wrapf (fst (FlushStoresSync env stores w3))
                        "longtailutils.FlushStoresSync: Failed for `%v`" [])
              else None),
     snd (FlushStoresSync env stores w3),
     (t ++ [EvCreateBlockStore blobStoreURI "" ReadOnly;
            EvReadFromURI versionIndexPath;
            EvGetExistingStoreIndex indexStore (viChunkHashes versionIndex) 0]
        ++ map (EvGetStoredBlock indexStore) (siBlockHashes existingStoreIndex)
        ++ [EvOutput (OutBlockUsage
                        (blockUsage existingStoreIndex (fetchedChunkCount fetched)));
            EvOutput (OutAssetFragmentation fragmentation);
            EvFlush stores])%list).
Proof.
  intros indexStore stores Hstore Hread Hindex Hexisting Hworkers Hfetched Hok
    Hlookup Hfragmentation.
  assert (Hbatches : concat (batches (length (siBlockHashes existingStoreIndex))
                               (Z.to_nat (numWorkerCount (cfg env)))
                               (siBlockHashes existingStoreIndex))
                     = siBlockHashes existingStoreIndex)
    by (apply batches_concat; lia).
  assert (Hbuilt : fold_left
                     (fun m c => addBlock m (fst c) (sbChunkHashes (fst (snd c))))
                     fetched ∅ = blockLookup).
  { apply map_eq. intros chunkHash.
    rewrite fetched_lookup, Hlookup, lookup_empty.
    destruct (blockOfChunk fetched chunkHash); reflexivity. }
  assert (Hcount : (numWorkerCount (cfg env) <? 0) = false) by lia.
  unfold stats.
  erewrite fn_bind_Next by (rewrite doCreateBlockStoreForURI_run, Hstore; reflexivity).
  erewrite fn_bind_Next by reflexivity.
  subst indexStore stores.
  destruct (String.eqb localCachePath ""); cbv iota beta.
  all: unfold doReadFromURI;
    erewrite fn_bind_Next by (rewrite logged_run, Hread; reflexivity);
    cbn [fst snd];
    erewrite fn_bind_Next by reflexivity;
    erewrite fn_bind_Next
      by (unfold orReturnErrno; rewrite Hindex; reflexivity);
    cbn [fst snd];
    unfold doGetExistingStoreIndexSync;
    erewrite fn_bind_Next by (rewrite logged_run, Hexisting; reflexivity);
    cbn [fst snd];
    erewrite fn_bind_Next by reflexivity;
    cbn [fst snd];
    rewrite Hcount; cbn [andb];
    erewrite fn_bind_Next by reflexivity;
    erewrite fn_bind_Next
      by (rewrite fetchAllBlocks_run; rewrite Hbatches, Hfetched;
          [reflexivity|exact Hok]);
    cbn [fst snd]; rewrite Hbuilt, Hfragmentation.
  all: unfold printf, doFlushStoresSync;
    erewrite fn_bind_Next by reflexivity;
    erewrite fn_bind_Next by reflexivity;
    erewrite fn_bind_Next by apply logged_run;
    fold (fetchedChunkCount fetched);
    unfold fn, ret; rewrite <- !app_assoc; cbn [app];
    destruct (negb _); reflexivity.
Qed.

End StatsRun.

(** C6 fails on the code: the loop over an asset's chunks starts from the
    block value [2^64 - 1], which a block hash can take.  For an asset whose
    one chunk lies in a block with that hash no fragment is counted although
    the asset has one run; [stats] prints [2^32 - 100] where the formula on
    the number of runs gives 0. *)
Lemma stats_sentinel_block_hash :
  assetBlocks demoVersionIndex onesLookup (mkAsset "a.txt" 10 77 420 1 0)
  = Some [uint64_ones] /\
  runs [uint64_ones] = 1 /\
  uint32 (uint64 (uint64 (100 * 1) / 1 - 100)) = 0 /\
  assetFragmentation demoVersionIndex onesLookup = Some 4294967196 /\
  stats onesEnv "store" "store/v1.lvi" "" tt []
  = (Returns None, tt,
     [EvCreateBlockStore "store" "" ReadOnly; EvReadFromURI "store/v1.lvi";
      EvGetExistingStoreIndex (FSBlockStore "store") [11] 0;
      EvGetStoredBlock (FSBlockStore "store") uint64_ones;
      EvOutput (OutBlockUsage 100); EvOutput (OutAssetFragmentation 4294967196);
      EvFlush [nilBlockStore; nilBlockStore; FSBlockStore "store"]]).
Proof. vm_compute. repeat split. Qed.

(** The asset fragmentation of [stats]: for a well-formed version index with
    at least one asset, the value [stats] computes, and prints, is
    [100 * fragments / assets - 100] in unsigned 64-bit arithmetic cut to 32
    bits, where [fragments] counts, per asset, the chunks whose block (the
    block hash recorded for the chunk, 0 for a chunk of no fetched block)
    differs from that of the chunk before, the first chunk being compared
    with [2^64 - 1]; this is the number of maximal same-block runs when no
    asset's first chunk lies in a block with the hash [2^64 - 1].  The 100
    is subtracted from the truncated quotient: when [fragments < assets] the
    result is [2^32 - 100 + 100 * fragments / assets].  The block recorded
    for a chunk is the last of the blocks of the store index, fetched in
    their order, whose block index lists the chunk's hash: a run of [stats]
    in which every call succeeds fetches these blocks and prints this value
    of the version index it has read. *)
Theorem stats_asset_fragmentation {World} (env : Env World)
    (blobStoreURI versionIndexPath localCachePath : string)
    (versionIndex : VersionIndex) (blockLookup : gmap Z Z) (blocks : list (list Z)) :
  assetsIndexed versionIndex blockLookup blocks ->
  0 < Z.of_nat (length (viAssets versionIndex)) < 2 ^ 32 ->
  let assets := Z.of_nat (length (viAssets versionIndex)) in
  let fragments := sumZ (map (changes uint64_ones) blocks) in
  assetFragmentation versionIndex blockLookup
  = Some (uint32 (uint64 (uint64 (100 * uint64 fragments) / assets - 100))) /\
  (Forall (fun bs => head bs <> Some uint64_ones) blocks ->
   fragments = sumZ (map runs blocks)) /\
  (fragments < assets ->
   assetFragmentation versionIndex blockLookup
   = Some (2 ^ 32 - 100 + 100 * fragments / assets)) /\
  (assets <= fragments -> 100 * fragments < 2 ^ 64 ->
   assetFragmentation versionIndex blockLookup
   = Some (uint32 (100 * fragments / assets - 100))) /\
  (forall w e,
     In e (snd (stats env blobStoreURI versionIndexPath localCachePath w [])) ->
     reportsFragmentation env versionIndexPath e) /\
  (forall (w : World) (t : list Event) (remoteStore : BlockStore) (vbuffer : Buffer)
          (w1 : World) (existingStoreIndex : StoreIndex) (w2 : World)
          (fetched : list (Z * (StoredBlock * Z))) (w3 : World),
     let indexStore :=
       if String.eqb localCachePath "" then remoteStore
       else CacheBlockStore (FSBlockStore (normalizePath localCachePath))
              remoteStore in
     let stores :=
       if String.eqb localCachePath "" then
         [nilBlockStore; nilBlockStore; remoteStore]
       else
         [CacheBlockStore (FSBlockStore (normalizePath localCachePath)) remoteStore;
          FSBlockStore (normalizePath localCachePath); remoteStore] in
     createBlockStoreForURI (cfg env) blobStoreURI "" 8388608 1024 ReadOnly
     = Returns (inr remoteStore) ->
     ReadFromURI env versionIndexPath w = (inr vbuffer, w1) ->
     ReadVersionIndexFromBuffer env vbuffer = (versionIndex, 0) ->
     GetExistingStoreIndexSync env indexStore (viChunkHashes versionIndex) 0 w1
     = (existingStoreIndex, 0, w2) ->
     0 < numWorkerCount (cfg env) ->
     storedBlocks env indexStore (siBlockHashes existingStoreIndex) w2
     = (fetched, w3) ->
     Forall (fun c => snd (snd c) = 0) fetched ->
     (forall chunkHash, blockLookup !! chunkHash = blockOfChunk fetched chunkHash) ->
     stats env blobStoreURI versionIndexPath localCachePath w t
     = (Returns (if negb (fst (FlushStoresSync env stores w3) =? 0) then
                   Some (Wrapf (fst (FlushStoresSync env stores w3))
                           "longtailutils.FlushStoresSync: Failed for `%v`" [])
                 else None),
        snd (FlushStoresSync env stores w3),
        (t ++ [EvCreateBlockStore blobStoreURI "" ReadOnly;
               EvReadFromURI versionIndexPath;
               EvGetExistingStoreIndex indexStore (viChunkHashes versionIndex) 0]
           ++ map (EvGetStoredBlock indexStore) (siBlockHashes existingStoreIndex)
           ++ [EvOutput (OutBlockUsage
                           (blockUsage existingStoreIndex
                              (fetchedChunkCount fetched)));
               EvOutput (OutAssetFragmentation
                           (uint32 (uint64 (uint64 (100 * uint64 fragments) / assets
                                            - 100))));
               EvFlush stores])%list)).
Proof.
  intros Hwf Hn assets fragments.
  assert (Hcode : assetFragmentation versionIndex blockLookup
                  = Some (uint32 (uint64 (uint64 (100 * uint64 fragments) / assets
                                          - 100)))).
  { unfold assetFragmentation.
    change 0 with (uint64 0) at 1.
    rewrite (countAssetFragments_changes versionIndex blockLookup _ blocks 0 Hwf).
    fold assets. destruct (Z.ltb_spec 0 assets); [|lia].
    rewrite Z.add_0_l. reflexivity. }
  pose proof (sumZ_changes_nonneg blocks) as Hf. fold fragments in Hf.
  split; [exact Hcode|]. split; [apply sumZ_changes_runs|].
  split; [|split; [|split]].
  - intros Hlt. rewrite Hcode.
    assert (E : uint64 fragments = fragments)
      by (unfold uint64; apply Z.mod_small; lia).
    rewrite E.
    assert (E' : uint64 (100 * fragments) = 100 * fragments)
      by (unfold uint64; apply Z.mod_small; lia).
    rewrite E'. f_equal.
    assert (Hq : 0 <= 100 * fragments / assets < 100).
    { split; [apply Z.div_pos; lia|apply Z.div_lt_upper_bound; lia]. }
    replace (uint64 (100 * fragments) / assets - 100)
      with (100 * fragments / assets - 100) by (rewrite E'; reflexivity).
    rewrite fragmentation_wraps by exact Hq. lia.
  - intros Hge Hsmall. rewrite Hcode.
    assert (E : uint64 fragments = fragments)
      by (unfold uint64; apply Z.mod_small; lia).
    rewrite E.
    assert (E' : uint64 (100 * fragments) = 100 * fragments)
      by (unfold uint64; apply Z.mod_small; lia).
    rewrite E'. f_equal.
    assert (Hq : 100 <= 100 * fragments / assets).
    { apply Z.div_le_lower_bound; lia. }
    assert (Hq' : 100 * fragments / assets <= 100 * fragments).
    { apply Z.div_le_upper_bound; nia. }
    f_equal. unfold uint64. apply Z.mod_small. lia.
  - intros w e Hin.
    eapply fnSpec_In; [apply stats_reportsFragmentation|exact Hin].
  - intros w t remoteStore vbuffer w1 existingStoreIndex w2 fetched w3
      indexStore stores Hstore Hread Hindex Hexisting Hworkers Hfetched Hok Hlookup.
    eapply stats_run; eassumption.
Qed.

(** The version of two files in the small world: its chunks lie in the
    blocks 5, 6 and 5, three fragments for two files, and [stats] prints 50. *)
Lemma stats_asset_fragmentation_witness :
  assetFragmentation fragmentedVersionIndex fragmentedLookup = Some 50 /\
  sumZ (map (changes uint64_ones) [[5; 6]; [5]]) = sumZ (map runs [[5; 6]; [5]]) /\
  stats fragmentedEnv "store" "store/v1.lvi" "" tt []
  = (Returns None, tt,
     [EvCreateBlockStore "store" "" ReadOnly; EvReadFromURI "store/v1.lvi";
      EvGetExistingStoreIndex (FSBlockStore "store") [11; 12; 13] 0;
      EvGetStoredBlock (FSBlockStore "store") 5;
      EvGetStoredBlock (FSBlockStore "store") 6;
      EvOutput (OutBlockUsage 100); EvOutput (OutAssetFragmentation 50);
      EvFlush [nilBlockStore; nilBlockStore; FSBlockStore "store"]]).
Proof.
  assert (Hwf : assetsIndexed fragmentedVersionIndex fragmentedLookup [[5; 6]; [5]]).
  { repeat constructor; try (vm_compute; congruence). }
  destruct (stats_asset_fragmentation fragmentedEnv "store" "store/v1.lvi" ""
              fragmentedVersionIndex fragmentedLookup [[5; 6]; [5]] Hwf)
    as (Hcode & Hruns & _ & _ & _ & Hstats).
  { vm_compute. split; reflexivity. }
  split; [rewrite Hcode; vm_compute; reflexivity|].
  split; [apply Hruns; repeat constructor; vm_compute; congruence|].
  rewrite (Hstats tt [] (FSBlockStore "store") [1] tt fragmentedStoreIndex tt
             [(5, (mkStoredBlock 5 [11; 13], 0)); (6, (mkStoredBlock 6 [12], 0))] tt).
  - vm_compute. reflexivity.
  - reflexivity.
  - reflexivity.
  - reflexivity.
  - reflexivity.
  - reflexivity.
  - reflexivity.
  - repeat constructor.
  - intros chunkHash. unfold fragmentedLookup.
    cbn [blockOfChunk existsb sbChunkHashes].
    destruct (Z.eqb_spec chunkHash 12) as [->|H12]; [reflexivity|].
    destruct (Z.eqb_spec chunkHash 11) as [->|H11]; [reflexivity|].
    destruct (Z.eqb_spec chunkHash 13) as [->|H13]; [reflexivity|].
    rewrite !lookup_insert_ne by congruence.
    rewrite lookup_singleton_ne by congruence. reflexivity.
Defined.

(** ** [cloneStore] *)

Section Clone.
Context {World : Type} (env : Env World).

Let any : Event -> Prop := fun _ => True.

Ltac spec_auto := repeat (spec_head; try exact I; try (intros; exact I)).

Lemma validateOneVersion_any targetStore targetFilePath skipValidate :
  fnSpec any (fun _ => True)
    (validateOneVersion env targetStore targetFilePath skipValidate).
Proof. unfold validateOneVersion. unfold_calls. spec_auto. Qed.

Lemma getFolderIndex_any folder indexPath targetChunkSize compressionType
    hashIdentifier pathFilter scanner :
  fnSpec any (fun _ => True)
    (getFolderIndex env folder indexPath targetChunkSize compressionType
       hashIdentifier pathFilter scanner).
Proof. unfold getFolderIndex. unfold_calls. spec_auto. Qed.

Lemma extractAndWriteFile_any targetPath f :
  fnSpec any (fun _ => True) (extractAndWriteFile env targetPath f).
Proof.
  unfold extractAndWriteFile, panicOnError. unfold_calls. spec_auto.
Qed.

Lemma extractAll_any {R} (QR : R -> Prop) targetPath files (onError : error -> R) :
  (forall e, QR (onError e)) ->
  bodySpec any (fun _ => True) QR (extractAll env targetPath files onError).
Proof.
  intros H. induction files as [|f rest IH]; cbn [extractAll].
  - apply bodySpec_next. exact I.
  - apply bodySpec_bind_any; [apply bodySpec_call, extractAndWriteFile_any|].
    intros [e|]; [apply bodySpec_ret, H|exact IH].
Qed.

Lemma zipFallback_any targetPath sourceFilePath sourceFileZipPath pathFilter
    hashIdentifier targetChunkSize errno err :
  bodySpec any (fun _ => True) (fun _ => True)
    (zipFallback env targetPath sourceFilePath sourceFileZipPath pathFilter
       hashIdentifier targetChunkSize errno err).
Proof.
  unfold zipFallback. unfold_calls.
  repeat (first [spec_head | apply extractAll_any];
          try exact I; try (intros; exact I)).
Qed.

Ltac clone_head :=
  first [ spec_head
        | apply scan_emits
        | apply validateOneVersion_any
        | apply getFolderIndex_any
        | apply zipFallback_any ].

Lemma cloneOneVersion_any targetPath pathFilter retainPermissions
    createVersionLocalStoreIndex skipValidate minBlockUsagePercent targetBlockSize
    maxChunksPerBlock sourceStore targetStore sourceRemoteIndexStore
    targetRemoteStore targetFilePath sourceFilePath sourceFileZipPath
    currentVersionIndex :
  fnSpec any (fun _ => True)
    (cloneOneVersion env targetPath pathFilter retainPermissions
       createVersionLocalStoreIndex skipValidate minBlockUsagePercent
       targetBlockSize maxChunksPerBlock sourceStore targetStore
       sourceRemoteIndexStore targetRemoteStore targetFilePath sourceFilePath
       sourceFileZipPath currentVersionIndex).
Proof.
  unfold cloneOneVersion. unfold_calls.
  repeat (clone_head; try exact I; try (intros; exact I)).
Qed.

Lemma cloneLoop_keeps_nil targetPath retainPermissions
    createVersionLocalStoreIndex skipValidate minBlockUsagePercent targetBlockSize
    maxChunksPerBlock sourceStore targetStore sourceRemoteIndexStore
    targetRemoteStore pending pathFilter remaining :
  forall text targetsScanner currentVersionIndex,
    bodySpec any (fun r => snd r = None) (fun r : option error => r <> None)
      (cloneLoop env targetPath retainPermissions createVersionLocalStoreIndex
         skipValidate minBlockUsagePercent targetBlockSize maxChunksPerBlock
         sourceStore targetStore sourceRemoteIndexStore targetRemoteStore
         remaining text pending targetsScanner None pathFilter currentVersionIndex).
Proof.
  induction remaining as [|line rest IH]; intros; cbn [cloneLoop].
  - apply bodySpec_next. reflexivity.
  - destruct (Scan targetsScanner) as [ok targetsScanner'].
    destruct (negb ok); [apply bodySpec_next; reflexivity|].
    cbn [negb].
    apply bodySpec_bind_any.
    { apply bodySpec_call, cloneOneVersion_any. }
    intros [newCurrentVersionIndex [e|]]; [apply bodySpec_ret; discriminate|].
    apply IH.
Qed.

Lemma fatalOnScannerError_nil {R} (P : Event -> Prop) (QR : R -> Prop) :
  bodySpec P (fun _ => False) QR (fatalOnScannerError (World:=World) None).
Proof.
  unfold fatalOnScannerError. simpl Scanner_Err.
  eapply bodySpec_bind; [apply bodySpec_pure|]. intros a [=].
Qed.

Lemma fatalOnScannerError_any {R} (P : Event -> Prop) (QR : R -> Prop) scanner :
  bodySpec P (fun _ => True) QR (fatalOnScannerError (World:=World) scanner).
Proof. unfold fatalOnScannerError. repeat (spec_head; try exact I). Qed.

(** Without a file of zip paths, [cloneStore] never returns without an
    error: when the loop over the versions completes, the check of the zip
    scanner, which was never made, panics. *)
Lemma cloneStore_without_zip_paths sourceStoreURI targetStoreURI localCachePath
    targetPath sourcePaths targetPaths targetBlockSize maxChunksPerBlock
    retainPermissions createVersionLocalStoreIndex hashing compression
    minBlockUsagePercent skipValidate :
  fnSpec any (fun r => r <> None)
    (cloneStore env sourceStoreURI targetStoreURI localCachePath targetPath
       sourcePaths "" targetPaths targetBlockSize maxChunksPerBlock
       retainPermissions createVersionLocalStoreIndex hashing compression
       minBlockUsagePercent skipValidate).
Proof.
  unfold cloneStore. apply fnSpec_fn. cbn [String.eqb negb].
  apply bodySpec_bind_any; [apply doCreateBlockStoreForURI_spec; exact I|]. intros r.
  spec_head; [intros; discriminate|].
  apply bodySpec_bind_any; [apply doCreateBlockStoreForURI_spec; exact I|]. intros r'.
  spec_head; [intros; discriminate|].
  apply bodySpec_bind_any; [apply openOrFatal_spec; exact I|]. intros sourcesFile.
  eapply bodySpec_bind with (QA := fun z => z = None);
    [apply bodySpec_next; reflexivity|]. intros z ->.
  apply bodySpec_bind_any; [apply openOrFatal_spec; exact I|]. intros targetsFile.
  eapply bodySpec_bind; [apply cloneLoop_keeps_nil|].
  intros [[sourcesScanner targetsScanner] z] Hz. simpl in Hz. subst z.
  apply bodySpec_bind_any; [apply fatalOnScannerError_any|]. intros _.
  eapply bodySpec_bind; [apply fatalOnScannerError_nil|]. intros _ [].
Qed.

End Clone.

(** C8 fails on the code: with an empty [sourceZipPaths] the zip scanner is
    a nil pointer, the loop guards its use, but the check after the loop
    calls [Err] on it.  So [cloneStore] never returns without an error, and
    in the small world, where the one version is cloned without an error, it
    panics once the loop is done; with a file of zip paths it returns. *)
Theorem cloneStore_nil_zip_scanner :
  (forall World (env : Env World) sourceStoreURI targetStoreURI localCachePath
          targetPath sourcePaths targetPaths targetBlockSize maxChunksPerBlock
          retainPermissions createVersionLocalStoreIndex hashing compression
          minBlockUsagePercent skipValidate,
     fnSpec (fun _ => True) (fun r => r <> None)
       (cloneStore env sourceStoreURI targetStoreURI localCachePath targetPath
          sourcePaths "" targetPaths targetBlockSize maxChunksPerBlock
          retainPermissions createVersionLocalStoreIndex hashing compression
          minBlockUsagePercent skipValidate)) /\
  cloneStore demoEnv "src" "dst" "" "work" "sources.txt" "" "targets.txt"
    8388608 1024 true false "blake3" "zstd" 0 false tt []
  = (Panics "invalid memory address or nil pointer dereference", tt,
     [EvCreateBlockStore "src" "" ReadOnly; EvCreateBlockStore "dst" "" ReadWrite;
      EvOpen "sources.txt"; EvOpen "targets.txt"; EvGetFilesRecursively "work";
      EvReadFromURI "store/v1.lvi"; EvOutput (OutValidating "store/v1.lvi");
      EvGetExistingStoreIndex (CompressBlockStore (FSBlockStore "dst")) [11] 0]) /\
  fst (fst (cloneStore demoEnv "src" "dst" "" "work" "sources.txt" "zips.txt"
              "targets.txt" 8388608 1024 true false "blake3" "zstd" 0 false tt []))
  = Returns None.
Proof.
  split; [|split; vm_compute; reflexivity].
  intros. apply cloneStore_without_zip_paths.
Qed.

(** ** The zip fallback of [cloneOneVersion] *)

(** An entry whose joined path fails the prefix test is refused: the call
    prints the path, returns the error, and leaves the world as it was. *)
Lemma extractAndWriteFile_refuses {World} (env : Env World) targetPath f
    (w : World) t :
  zfOpenError f = None ->
  zfCloseError f = None ->
  Strings.HasPrefix (Filepath.Join targetPath (zfName f))
    (Filepath.Clean targetPath +:+ "/") = false ->
  extractAndWriteFile env targetPath f w t
  = (Returns (Some (Errorf "illegal file path: %s"
                      [ArgS (Filepath.Join targetPath (zfName f))])), w,
     (t ++ [EvOutput (OutUnzipping (Filepath.Join targetPath (zfName f)))])%list).
Proof.
  intros Hopen Hclose Hprefix.
  unfold extractAndWriteFile, fn, withDefer, panicOnError, printf, bind, emit, ret, next.
  cbv zeta. rewrite Hopen, Hclose, Hprefix. reflexivity.
Qed.

Lemma extractAndWriteFile_refuses_witness :
  extractAndWriteFile demoEnv "/tmp/out" evilEntry tt []
  = (Returns (Some (Errorf "illegal file path: %s"
                      [ArgS (Filepath.Join "/tmp/out" (zfName evilEntry))])), tt,
     ([] ++ [EvOutput (OutUnzipping (Filepath.Join "/tmp/out" (zfName evilEntry)))])%list).
Proof.
  apply (extractAndWriteFile_refuses demoEnv "/tmp/out" evilEntry tt []);
    reflexivity.
Defined.

(** An entry whose joined path passes the prefix test is written when the
    file system raises no error. *)
Lemma extractAndWriteFile_extracts {World} (env : Env World) targetPath f
    (w : World) t :
  zfOpenError f = None ->
  zfCloseError f = None ->
  zfIsDir f = false ->
  Strings.HasPrefix (Filepath.Join targetPath (zfName f))
    (Filepath.Clean targetPath +:+ "/") = true ->
  let path := Filepath.Join targetPath (zfName f) in
  let w1 := os_MkdirAll env (Filepath.Dir path) 511 w in
  fst (os_OpenFile env path (zfMode f) w1) = None ->
  fst (io_Copy env path (zfContent f) (snd (os_OpenFile env path (zfMode f) w1)))
  = None ->
  fst (file_Close env path
         (snd (io_Copy env path (zfContent f)
                 (snd (os_OpenFile env path (zfMode f) w1))))) = None ->
  exists w',
    extractAndWriteFile env targetPath f w t
    = (Returns None, w',
       (t ++ [EvOutput (OutUnzipping path); EvMkdirAll (Filepath.Dir path) 511;
              EvOpenFile path (zfMode f); EvCopy path (zfContent f);
              EvClose path])%list).
Proof.
  intros Hopen Hclose Hdir Hprefix path w1 Hfile Hcopy Hfclose.
  unfold extractAndWriteFile, fn, withDefer, panicOnError, printf, doMkdirAll,
    doOpenFile, doCopy, doClose, bind, emit, world, ret, next.
  cbv zeta. rewrite Hopen, Hclose, Hprefix, Hdir. cbn [negb]. fold path. fold w1.
  destruct (os_OpenFile env path (zfMode f) w1) as [o w2] eqn:E2.
  simpl in Hfile, Hcopy, Hfclose. subst o.
  destruct (io_Copy env path (zfContent f) w2) as [o w3] eqn:E3.
  simpl in Hcopy, Hfclose. subst o.
  destruct (file_Close env path w3) as [o w4] eqn:E4.
  simpl in Hfclose. subst o.
  exists w4. rewrite <- !app_assoc. reflexivity.
Qed.

(** C5 fails on the code: unpacking into the target [".."], the entry
    ["../evil.txt"] is joined to ["../../evil.txt"], which has the prefix
    ["../"] that the test asks for, so the file is created; but from a
    working directory [/home/user/work] the target is [/home/user] and the
    file is [/home/evil.txt], outside of it.  The other way round, for the
    target ["."] the test asks for the prefix ["./"], which no joined path
    has, so an entry inside the target is refused. *)
Theorem zip_slip_through_parent_target :
  Filepath.Join ".." "../evil.txt" = "../../evil.txt" /\
  Filepath.Clean ".." +:+ "/" = "../" /\
  resolvePath ["home"; "user"; "work"] ".." = ["home"; "user"] /\
  resolvePath ["home"; "user"; "work"] "../../evil.txt" = ["home"; "evil.txt"] /\
  liesStrictlyInside ["home"; "user"; "work"] ".." "../../evil.txt" = false /\
  extractAndWriteFile demoEnv ".." evilEntry tt []
  = (Returns None, tt,
     [EvOutput (OutUnzipping "../../evil.txt"); EvMkdirAll "../.." 511;
      EvOpenFile "../../evil.txt" 420; EvCopy "../../evil.txt" [1; 2; 3];
      EvClose "../../evil.txt"]) /\
  liesStrictlyInside ["home"; "user"; "work"] "." "a.txt" = true /\
  extractAndWriteFile demoEnv "." (mkZipFile "a.txt" false 420 None None [1]) tt []
  = (Returns (Some (Errorf "illegal file path: %s" [ArgS "a.txt"])), tt,
     [EvOutput (OutUnzipping "a.txt")]).
Proof. vm_compute. repeat split. Qed.

(** For an ordinary target the test does its work. *)
Example zip_slip_refused_run :
  liesStrictlyInside ["home"; "user"; "work"] "/tmp/out" "/tmp/evil.txt" = false /\
  extractAndWriteFile demoEnv "/tmp/out" evilEntry tt []
  = (Returns (Some (Errorf "illegal file path: %s" [ArgS "/tmp/evil.txt"])), tt,
     [EvOutput (OutUnzipping "/tmp/evil.txt")]) /\
  liesStrictlyInside ["home"; "user"; "work"] "out" "out/a/b.txt" = true /\
  extractAndWriteFile demoEnv "out" (mkZipFile "a/b.txt" false 420 None None [1]) tt []
  = (Returns None, tt,
     [EvOutput (OutUnzipping "out/a/b.txt"); EvMkdirAll "out/a" 511;
      EvOpenFile "out/a/b.txt" 420; EvCopy "out/a/b.txt" [1];
      EvClose "out/a/b.txt"]).
Proof. vm_compute. repeat split. Qed.

(** ** [createBlockStoreForURI] *)

(** The store made for each parse of the URI; a [file] URL without a path
    is left out here. *)
Lemma createBlockStoreForURI_dispatch (cfg : Config) (uri optionalStoreIndexPath : string)
    (targetBlockSize maxChunksPerBlock : Z) (accessType : AccessType) :
  let result := createBlockStoreForURI cfg uri optionalStoreIndexPath targetBlockSize
                  maxChunksPerBlock accessType in
  (forall e, url_Parse cfg uri = inl e -> result = Returns (inr (FSBlockStore uri))) /\
  (forall u, url_Parse cfg uri = inr u ->
     (Scheme u = "abfs" ->
      result = Returns (inl (Errorf "azure Gen1 storage not yet implemented" []))) /\
     (Scheme u = "abfss" ->
      result = Returns (inl (Errorf "azure Gen2 storage not yet implemented" []))) /\
     (Scheme u = "gs" ->
      NewGCSBlobStore_fails cfg u = None ->
      NewRemoteBlockStore_fails cfg (gcsBlobStore u false) optionalStoreIndexPath
        accessType = None ->
      result = Returns (inr (RemoteBlockStore (gcsBlobStore u false)
                               optionalStoreIndexPath (numWorkerCount cfg)
                               accessType))) /\
     (Scheme u = "s3" ->
      forall blob, NewS3BlobStore u = inr blob ->
      NewRemoteBlockStore_fails cfg blob optionalStoreIndexPath accessType = None ->
      result = Returns (inr (RemoteBlockStore blob optionalStoreIndexPath
                               (numWorkerCount cfg) accessType))) /\
     (Scheme u = "file" ->
      forall c rest, Path u = String c rest ->
      result = Returns (inr (FSBlockStore rest))) /\
     (Scheme u <> "gs" -> Scheme u <> "s3" -> Scheme u <> "abfs" ->
      Scheme u <> "abfss" -> Scheme u <> "file" ->
      result = Returns (inr (FSBlockStore uri)))).
Proof.
  intros result. unfold result, createBlockStoreForURI. split.
  - intros e ->. reflexivity.
  - intros u ->. repeat apply conj.
    + intros ->. reflexivity.
    + intros ->. reflexivity.
    + intros -> -> ->. reflexivity.
    + intros -> blob -> ->. reflexivity.
    + intros -> c rest ->. reflexivity.
    + intros H1 H2 H3 H4 H5.
      repeat match goal with
             | |- context [String.eqb (Scheme u) ?s] =>
                 destruct (String.eqb_spec (Scheme u) s); [contradiction|]
             end.
      reflexivity.
Qed.

(** C7 fails on the code for the scheme [file]: a [file] URL without a path,
    as [url.Parse] gives for ["file://store"], makes [Path[1:]] panic where
    the claim promises a file-system block store. *)
Theorem createBlockStoreForURI_file_without_path :
  (forall (cfg : Config) uri u optionalStoreIndexPath targetBlockSize
          maxChunksPerBlock accessType,
     url_Parse cfg uri = inr u -> Scheme u = "file" -> Path u = "" ->
     createBlockStoreForURI cfg uri optionalStoreIndexPath targetBlockSize
       maxChunksPerBlock accessType
     = Panics "slice bounds out of range [1:0]") /\
  createBlockStoreForURI (demoConfig parseFileHost) "file://store" "" 8388608 1024
    ReadOnly
  = Panics "slice bounds out of range [1:0]" /\
  NewS3BlobStore (mkURL "s3" "bucket" "") = inr (s3BlobStore "bucket" "").
Proof.
  split; [|split; reflexivity].
  intros cfg uri u p tbs mcb a Hparse Hscheme Hpath.
  unfold createBlockStoreForURI. rewrite Hparse, Hscheme, Hpath. reflexivity.
Qed.

(** * More properties of the command line *)

(** ** [normalizePath]: its fixed points *)

(** [normalizePath] never lengthens a path, and it leaves a path as it is
    exactly when the path holds no backslash and no doubled slash. *)
Theorem normalizePath_fixed_point_iff (p : string) :
  (String.length (normalizePath p) <= String.length p)%nat /\
  (normalizePath p = p <->
   Strings.Contains p (String backslash "") = false /\
   Strings.Contains p "//" = false).
Proof.
  split.
  - unfold normalizePath.
    pose proof (Replace_length_le p "//" "/" ltac:(simpl; lia)) as H1.
    pose proof (Replace_length_le (Strings.Replace p "//" "/")
                  (String backslash (String backslash "")) "/"
                  ltac:(simpl; lia)) as H2.
    pose proof (Replace_length_le
                  (Strings.Replace (Strings.Replace p "//" "/")
                     (String backslash (String backslash "")) "/")
                  (String backslash "") "/" ltac:(simpl; lia)) as H3.
    lia.
  - split.
    + intros Heq. split.
      * rewrite <- Heq. apply normalizePath_no_backslash.
      * destruct (Strings.Contains p "//") eqn:Hs; [|reflexivity].
        apply normalizePath_shortens in Hs. rewrite Heq in Hs. lia.
    + intros [Hb Hs]. apply normalizePath_fixed; assumption.
Qed.

(** ** [downSyncVersion]: what a download does not do *)

Ltac spec_run := repeat (spec_head; try exact I; try reflexivity; try (intros; exact I)).

Section Download.
Context {World : Type} (env : Env World).

Lemma resolveTargetFolderPath_silent (P : Event -> Prop) targetFolderPath
    sourceFilePath :
  bodySpec P (fun _ => True) (fun _ => True)
    (resolveTargetFolderPath (World:=World) targetFolderPath sourceFilePath).
Proof.
  unfold resolveTargetFolderPath. spec_run.
Qed.

Lemma scan_download folder pathFilter :
  fnSpec downloadEvent (fun _ => True) (scan env folder pathFilter).
Proof. unfold scan. unfold_calls. spec_run. Qed.

Lemma getFolderIndex_download folder indexPath targetChunkSize compressionType
    hashIdentifier pathFilter scanner :
  fnSpec downloadEvent (fun _ => True)
    (getFolderIndex env folder indexPath targetChunkSize compressionType
       hashIdentifier pathFilter scanner).
Proof. unfold getFolderIndex. unfold_calls. spec_run. Qed.

Lemma downSyncVersion_download blobStoreURI sourceFilePath targetFolderPath
    targetIndexPath localCachePath retainPermissions validate
    versionLocalStoreIndexPath includeFilterRegEx excludeFilterRegEx :
  fnSpec downloadEvent (fun _ => True)
    (downSyncVersion env blobStoreURI sourceFilePath targetFolderPath
       targetIndexPath localCachePath retainPermissions validate
       versionLocalStoreIndexPath includeFilterRegEx excludeFilterRegEx).
Proof.
  unfold downSyncVersion, downSyncFromSource, downSyncValidate. apply fnSpec_fn.
  spec_head; [exact (fun _ _ => I)|].
  apply bodySpec_bind_any; [apply resolveTargetFolderPath_silent|].
  intros resolved.
  apply bodySpec_bind_any.
  { spec_head; [|spec_head; exact I]. apply bodySpec_call, scan_download. }
  intros targetFolderScanner. unfold_calls.
  spec_head; [exact I|].
  spec_head; [exact (fun _ _ => I)|].
  spec_head; [exact (fun _ => I)|]. subst.
  apply bodySpec_bind_any; [apply bodySpec_call, getFolderIndex_download|].
  intros targetIndexReader.
  spec_run.
Qed.



End Download.

(** [downSyncVersion] only downloads: whatever its arguments and whatever the
    library calls answer, it opens its store read-only and it writes nothing to
    a URI or into a store, prunes nothing and unpacks nothing; what it changes,
    it changes through [ChangeVersion]. *)
Theorem downSync_only_downloads {World} (env : Env World)
    (blobStoreURI sourceFilePath targetFolderPath targetIndexPath
     localCachePath : string) (retainPermissions validate : bool)
    (versionLocalStoreIndexPath includeFilterRegEx excludeFilterRegEx : string)
    (w : World) :
  let run := downSyncVersion env blobStoreURI sourceFilePath targetFolderPath
               targetIndexPath localCachePath retainPermissions validate
               versionLocalStoreIndexPath includeFilterRegEx excludeFilterRegEx
               w [] in
  (forall e, In e (snd run) -> downloadEvent e) /\
  (forall uri optionalStoreIndexPath accessType,
     In (EvCreateBlockStore uri optionalStoreIndexPath accessType) (snd run) ->
     accessType = ReadOnly) /\
  (forall uri buffer, ~ In (EvWriteToURI uri buffer) (snd run)) /\
  (forall store versionPath, ~ In (EvWriteContent store versionPath) (snd run)) /\
  (forall store keep, ~ In (EvPruneBlocks store keep) (snd run)).
Proof.
  intros run.
  assert (H : forall e, In e (snd run) -> downloadEvent e).
  { intros e. apply (fnSpec_In _ _ _ (downSyncVersion_download env blobStoreURI
                       sourceFilePath targetFolderPath targetIndexPath localCachePath
                       retainPermissions validate versionLocalStoreIndexPath
                       includeFilterRegEx excludeFilterRegEx)). }
  split; [exact H|]. split; [|split; [|split]].
  - intros uri p a Hin. exact (H _ Hin).
  - intros uri buffer Hin. exact (H _ Hin).
  - intros store versionPath Hin. exact (H _ Hin).
  - intros store keep Hin. exact (H _ Hin).
Qed.



(** ** [pruneStore]: what is kept *)

Section PruneKeeps.
Context {World : Type} (env : Env World).
Variables (storageURI sourcePaths : string) (writeVersionLocalStoreIndex : bool).

Let P := prunesToVersions env storageURI sourcePaths writeVersionLocalStoreIndex.

Ltac no_prune := try exact I; try (intros ? ? [=]); try (intros; exact I).

Lemma pruneOneVersion_no_prune remoteStore dryRun sourceFilePath
    versionLocalStoreIndexFilePath :
  fnSpec P (fun _ => True)
    (pruneOneVersion env remoteStore storageURI writeVersionLocalStoreIndex dryRun
       sourceFilePath versionLocalStoreIndexFilePath).
Proof.
  unfold pruneOneVersion. unfold_calls.
  repeat (spec_head; no_prune).
Qed.

Lemma runBatch_results {R} remoteStore dryRun versionLocalStoreIndexFilePaths batch
    (QR : R -> Prop) :
  bodySpec P
    (Forall2 (prunedVersionAt env remoteStore storageURI writeVersionLocalStoreIndex
                dryRun versionLocalStoreIndexFilePaths) batch)
    QR
    (runBatch env remoteStore storageURI writeVersionLocalStoreIndex dryRun
       versionLocalStoreIndexFilePaths batch).
Proof.
  induction batch as [|[i sourceFilePath] rest IH]; cbn [runBatch].
  - apply bodySpec_next. constructor.
  - eapply bodySpec_bind with
      (QA := fun lsi =>
         if 0 <? Z.of_nat (length versionLocalStoreIndexFilePaths)
         then versionLocalStoreIndexFilePaths !! i = Some lsi else lsi = "").
    { destruct (0 <? Z.of_nat (length versionLocalStoreIndexFilePaths)).
      - destruct (versionLocalStoreIndexFilePaths !! i) eqn:E.
        + apply bodySpec_next. reflexivity.
        + apply bodySpec_panic.
      - apply bodySpec_next. reflexivity. }
    intros lsi Hlsi.
    eapply bodySpec_bind.
    { apply bodySpec_call, fnSpec_self, pruneOneVersion_no_prune. }
    intros result (w & t & Hr).
    eapply bodySpec_bind; [exact IH|].
    intros results Hresults. apply bodySpec_next.
    constructor; [|exact Hresults].
    exists lsi, w, t. split; [exact Hlsi|exact Hr].
Qed.

Lemma pruneBatches_results remoteStore dryRun versionLocalStoreIndexFilePaths bs :
  forall usedBlocks,
    bodySpec P
      (fun usedBlocks' => exists results,
         Forall2 (prunedVersionAt env remoteStore storageURI
                    writeVersionLocalStoreIndex dryRun
                    versionLocalStoreIndexFilePaths) (concat bs) results /\
         Forall (fun r => fst r = None) results /\
         usedBlocks' = countBlocks usedBlocks results)
      (fun _ => True)
      (pruneBatches env remoteStore storageURI writeVersionLocalStoreIndex dryRun
         versionLocalStoreIndexFilePaths bs usedBlocks).
Proof.
  induction bs as [|batch rest IH]; intros usedBlocks; cbn [pruneBatches].
  - apply bodySpec_next. exists []. repeat split; constructor.
  - eapply bodySpec_bind; [apply runBatch_results|].
    intros results Hresults.
    destruct (firstError results) eqn:Ef; [apply bodySpec_ret; exact I|].
    eapply bodySpec_weaken; [apply IH| |auto].
    intros used' (results' & Hres' & Hnone & ->).
    exists (results ++ results')%list. split; [|split].
    + cbn [concat]. apply Forall2_app; assumption.
    + apply Forall_app. split; [apply firstError_None, Ef|exact Hnone].
    + unfold countBlocks. rewrite fold_left_app. reflexivity.
Qed.

Lemma keys_dom (m : gmap Z Z) h : In h (map_to_list m).*1 <-> h ∈ dom m.
Proof.
  rewrite <- list_elem_of_In, list_elem_of_fmap, elem_of_dom. split.
  - intros ([k v] & -> & Hin). apply elem_of_map_to_list in Hin. eauto.
  - intros [v Hv]. exists (h, v). split; [reflexivity|].
    apply elem_of_map_to_list, Hv.
Qed.

Lemma keys_of_countBlocks results h :
  In h (map_to_list (countBlocks ∅ results)).*1 <->
  exists r, In r results /\ In h (snd r).
Proof.
  rewrite keys_dom, countBlocks_dom, dom_empty_L.
  unfold keptBlocks. rewrite elem_of_union, elem_of_list_to_set.
  rewrite list_elem_of_In, in_concat. split.
  - intros [Hin|(hs & Hhs & Hin)]; [set_solver|].
    rewrite <- list_elem_of_In in Hhs.
    apply list_elem_of_fmap in Hhs as (r & -> & Hr).
    exists r. split; [apply list_elem_of_In, Hr|exact Hin].
  - intros (r & Hr & Hin). right. exists (snd r). split; [|exact Hin].
    apply list_elem_of_In, list_elem_of_fmap. exists r.
    split; [reflexivity|apply list_elem_of_In, Hr].
Qed.

Lemma pruneStore_prunesToVersions versionLocalStoreIndexesPath :
  0 < numWorkerCount (cfg env) ->
  fnSpec P (fun _ => True)
    (pruneStore env storageURI sourcePaths versionLocalStoreIndexesPath
       writeVersionLocalStoreIndex false).
Proof.
  intros Hworkers. unfold pruneStore. apply fnSpec_fn. cbn [negb].
  eapply bodySpec_bind with
    (QA := fun r => createBlockStoreForURI (cfg env) storageURI "" 8388608 1024
                      ReadWrite = Returns r).
  { unfold doCreateBlockStoreForURI.
    eapply bodySpec_bind; [apply bodySpec_emit; intros ? ? [=]|].
    intros _ _. apply bodySpec_pure. }
  intros r Hstore.
  spec_head; [exact (fun _ _ => I)|]. cbv beta in *. subst r.
  eapply bodySpec_bind with
    (QA := fun f => exists w0, fst (os_Open env sourcePaths w0) = inr f).
  { unfold openOrFatal, doOpen.
    eapply bodySpec_bind; [apply bodySpec_logged; intros ? ? [=]|].
    intros x (w0 & ->).
    destruct (fst (os_Open env sourcePaths w0)) eqn:E.
    - apply bodySpec_log_Fatal.
    - apply bodySpec_next. exists w0. exact E. }
  intros sourcesFile (w0 & Hopen).
  apply bodySpec_bind_any.
  { unfold openOrFatal, doOpen. repeat (spec_head; no_prune). }
  intros versionLocalStoreIndexFilePaths.
  apply bodySpec_bind_any;
    [destruct (_ <? 0); [apply bodySpec_panic|apply bodySpec_next; exact I]|].
  intros _.
  eapply bodySpec_bind; [apply pruneBatches_results|].
  intros usedBlocks (results & Hres & Hnone & ->).
  unfold_calls.
  eapply bodySpec_bind_any; [|intros; repeat (spec_head; no_prune)].
  eapply bodySpec_any. apply bodySpec_logged.
  intros store keep [= <- <-].
  split; [exact Hstore|]. split; [apply NoDup_fst_map_to_list|].
  exists w0, sourcesFile, versionLocalStoreIndexFilePaths, results.
  split; [exact Hopen|]. split; [|split; [exact Hnone|apply keys_of_countBlocks]].
  destruct (tfLines sourcesFile) as [|l ls] eqn:El.
  - cbn [imap length] in Hres. rewrite batches_nil in Hres. exact Hres.
  - rewrite batches_concat in Hres; [exact Hres| |lia].
    cbn [length]. lia.
Qed.

End PruneKeeps.

(** When [pruneStore] prunes, it prunes the store it has opened for writing
    at the storage URI, and the blocks it asks to keep are, each once, the
    blocks of the block sets of the versions listed in the file of sources:
    every line of the file has yielded a block set, none of them with an
    error, and a block is kept exactly when one of these sets holds it. *)
Theorem prune_keeps_blocks_of_versions {World} (env : Env World)
    (storageURI sourcePaths versionLocalStoreIndexesPath : string)
    (writeVersionLocalStoreIndex : bool) (w : World)
    (store : BlockStore) (keep : list Z) :
  0 < numWorkerCount (cfg env) ->
  In (EvPruneBlocks store keep)
     (snd (pruneStore env storageURI sourcePaths versionLocalStoreIndexesPath
             writeVersionLocalStoreIndex false w [])) ->
  createBlockStoreForURI (cfg env) storageURI "" 8388608 1024 ReadWrite
  = Returns (inr store) /\
  NoDup keep /\
  exists w0 sourcesFile versionLocalStoreIndexFilePaths results,
    fst (os_Open env sourcePaths w0) = inr sourcesFile /\
    Forall2 (prunedVersionAt env store storageURI writeVersionLocalStoreIndex false
               versionLocalStoreIndexFilePaths)
      (imap (fun i sourceFilePath => (i, sourceFilePath)) (tfLines sourcesFile))
      results /\
    Forall (fun r => fst r = None) results /\
    forall h, In h keep <-> exists r, In r results /\ In h (snd r).
Proof.
  intros Hworkers Hin.
  exact (fnSpec_In _ _ _
           (pruneStore_prunesToVersions env storageURI sourcePaths
              writeVersionLocalStoreIndex versionLocalStoreIndexesPath Hworkers)
           w _ Hin store keep eq_refl).
Qed.

(** In the small world the one version has the block 5, which is kept. *)
Lemma prune_keeps_blocks_of_versions_witness :
  In (EvPruneBlocks (FSBlockStore "store") [5])
     (snd (pruneStore demoEnv "store" "versions.txt" "" false false tt [])) /\
  NoDup [5] /\
  exists w0 sourcesFile versionLocalStoreIndexFilePaths results,
    fst (os_Open demoEnv "versions.txt" w0) = inr sourcesFile /\
    Forall2 (prunedVersionAt demoEnv (FSBlockStore "store") "store" false false
               versionLocalStoreIndexFilePaths)
      (imap (fun i sourceFilePath => (i, sourceFilePath)) (tfLines sourcesFile))
      results /\
    Forall (fun r => fst r = None) results /\
    forall h, In h [5] <-> exists r, In r results /\ In h (snd r).
Proof.
  assert (Hin : In (EvPruneBlocks (FSBlockStore "store") [5])
                  (snd (pruneStore demoEnv "store" "versions.txt" "" false false
                          tt []))).
  { vm_compute. tauto. }
  split; [exact Hin|].
  apply (prune_keeps_blocks_of_versions demoEnv "store" "versions.txt" "" false tt
           (FSBlockStore "store") [5]); [reflexivity|exact Hin].
Defined.

(** When the list of per-version store index files has another number of
    lines than the list of sources, [pruneStore] returns an error once it has
    opened the store and the two lists: no version is read and nothing is
    pruned. *)
Theorem prune_refuses_unequal_lists {World} (env : Env World)
    (storageURI sourcePaths versionLocalStoreIndexesPath : string)
    (writeVersionLocalStoreIndex dryRun : bool) (w w1 w2 : World) (t : list Event)
    (store : BlockStore) (sourcesFile versionLocalStoreIndexFile : TextFile) :
  createBlockStoreForURI (cfg env) storageURI "" 8388608 1024
    (if negb dryRun then ReadWrite else ReadOnly) = Returns (inr store) ->
  strings_TrimSpace (cfg env) versionLocalStoreIndexesPath <> "" ->
  os_Open env sourcePaths w = (inr sourcesFile, w1) ->
  os_Open env versionLocalStoreIndexesPath w1 = (inr versionLocalStoreIndexFile, w2) ->
  length (tfLines sourcesFile) <> length (tfLines versionLocalStoreIndexFile) ->
  pruneStore env storageURI sourcePaths versionLocalStoreIndexesPath
    writeVersionLocalStoreIndex dryRun w t
  = (Returns (Some (Errorf
       "Number of files in `%s` does not match number of files in `%s`"
       [ArgFile sourcePaths; ArgS versionLocalStoreIndexesPath])), w2,
     (t ++ [EvCreateBlockStore storageURI "" (if negb dryRun then ReadWrite else ReadOnly);
            EvOpen sourcePaths; EvOpen versionLocalStoreIndexesPath])%list).
Proof.
  intros Hstore Htrim Hsources Hindexes Hcount.
  unfold pruneStore, fn, doCreateBlockStoreForURI, openOrFatal, doOpen, orReturn,
    bind, emit, world, pure, next, ret.
  rewrite Hstore, Hsources.
  destruct (String.eqb_spec (strings_TrimSpace (cfg env) versionLocalStoreIndexesPath)
              ""); [contradiction|].
  cbn [negb]. rewrite Hindexes.
  destruct (Z.eqb_spec (Z.of_nat (length (tfLines sourcesFile)))
              (Z.of_nat (length (tfLines versionLocalStoreIndexFile)))); [lia|].
  cbn [negb]. rewrite <- !app_assoc. reflexivity.
Qed.

Lemma prune_refuses_unequal_lists_witness :
  pruneStore
    (demoEnvWith parseBarePath
       (fun name => if String.eqb name "versions.txt"
                    then inr (mkTextFile ["store/v1.lvi"; "store/v2.lvi"] None)
                    else inr (mkTextFile ["store/v1.lsi"] None))
       (fun _ => (demoStoreIndex, 0)) (demoStoreIndex, 0) demoVersionIndex [])
    "store" "versions.txt" "indexes.txt" false false tt []
  = (Returns (Some (Errorf
       "Number of files in `%s` does not match number of files in `%s`"
       [ArgFile "versions.txt"; ArgS "indexes.txt"])), tt,
     ([] ++ [EvCreateBlockStore "store" "" ReadWrite;
             EvOpen "versions.txt"; EvOpen "indexes.txt"])%list).
Proof.
  eapply (prune_refuses_unequal_lists _ "store" "versions.txt" "indexes.txt" false
            false tt tt tt [] (FSBlockStore "store")
            (mkTextFile ["store/v1.lvi"; "store/v2.lvi"] None)
            (mkTextFile ["store/v1.lsi"] None));
    try reflexivity; discriminate.
Defined.

(** ** [cloneOneVersion]: a version that cannot be fetched *)

Section PostsWithEvents.
Context {World : Type}.

(** As [bodyPost_after], keeping what is known of the events of the first
    part. *)
Lemma bodyPost_after_events {R A B} (P : Event -> Prop) (QA : A -> Prop)
    (QB : B -> list Event -> Prop) (QR : R -> list Event -> Prop)
    (m : Body World R A) (k : A -> Body World R B) :
  bodySpec P QA (fun _ => True) m ->
  (forall r new, Forall P new -> QR r new) ->
  (forall a new1, QA a -> Forall P new1 ->
     bodyPost (fun b new2 => QB b (new1 ++ new2)%list)
              (fun r new2 => QR r (new1 ++ new2)%list) (k a)) ->
  bodyPost QB QR (bind m k).
Proof.
  intros Hm Hret Hk. eapply bodyPost_bind.
  - eapply bodyPost_weaken; [apply bodyPost_of_spec, Hm| |].
    + intros a new H. exact H.
    + intros r new [_ H]. apply Hret, H.
  - intros a new1 [Ha Hnew]. apply Hk; assumption.
Qed.

Lemma bodyPost_events {R A} (P : Event -> Prop) (QN : A -> list Event -> Prop)
    (QR : R -> list Event -> Prop) (m : Body World R A) :
  bodySpec P (fun _ => True) (fun _ => True) m ->
  (forall a new, Forall P new -> QN a new) ->
  (forall r new, Forall P new -> QR r new) ->
  bodyPost QN QR m.
Proof.
  intros Hm HN HR.
  eapply bodyPost_weaken; [apply bodyPost_of_spec, Hm| |].
  - intros a new [_ H]. apply HN, H.
  - intros r new [_ H]. apply HR, H.
Qed.

Lemma fn_post {R} (Q : R -> list Event -> Prop) (b : Body World R R) w :
  bodyPost Q Q b ->
  forall r, fst (fst (fn b w [])) = Returns r -> Q r (snd (fn b w [])).
Proof.
  intros Hb r. unfold fn. destruct (Hb w []) as (new & E & Hq).
  destruct (b w []) as [[s w'] t']. simpl in E, Hq. subst t'.
  destruct s; simpl; intros [= <-] || intros [=]; exact Hq.
Qed.

End PostsWithEvents.

Section CloneSkips.
Context {World : Type} (env : Env World).
Variables (sourceFilePath sourceFileZipPath : string).

Let R : Type := (option VersionIndex * option error)%type.
Let P : Event -> Prop := fun e => notSkipping e /\ notWritten e.
Let QR : R -> list Event -> Prop :=
  fun r new => Forall notSkipping new \/
               skippedVersion sourceFilePath sourceFileZipPath r new.
Let goalAt (before : list Event) (b : Body World R R) : Prop :=
  bodyEnds (fun r new => QR r (before ++ new)%list)
           (fun r new => QR r (before ++ new)%list)
           (fun new => Forall notSkipping (before ++ new)%list) b.

Lemma P_notSkipping l : Forall P l -> Forall notSkipping l.
Proof. intros H. eapply Forall_impl; [exact H|]. intros e [He _]. exact He. Qed.

Lemma goalAt_step {A} before (m : Body World R A) (k : A -> Body World R R) :
  Forall P before ->
  bodySpec P (fun _ => True) (fun _ => True) m ->
  (forall a new1, Forall P (before ++ new1)%list ->
     goalAt (before ++ new1)%list (k a)) ->
  goalAt before (bind m k).
Proof.
  intros Hbefore Hm Hk w t. unfold bind.
  destruct (Hm w t) as (new & E & Hnew & _).
  assert (Hall : Forall P (before ++ new)%list) by (apply Forall_app; auto).
  destruct (m w t) as [[s w'] t']. simpl in E. subst t'.
  destruct s as [a|r|msg|e].
  - destruct (Hk a new Hall w' (t ++ new)%list) as (new' & E' & Hq').
    exists (new ++ new')%list. rewrite E', !app_assoc. split; [reflexivity|].
    rewrite <- !app_assoc in Hq'. rewrite <- app_assoc.
    destruct (fst (fst (k a w' (t ++ new)%list))); exact Hq'.
  - exists new. split; [reflexivity|]. left. apply P_notSkipping, Hall.
  - exists new. split; [reflexivity|]. apply P_notSkipping, Hall.
  - exists new. split; [reflexivity|]. apply P_notSkipping, Hall.
Qed.

Lemma goalAt_rest before (b : Body World R R) :
  Forall notSkipping before ->
  bodySpec notSkipping (fun _ => True) (fun _ => True) b ->
  goalAt before b.
Proof.
  intros Hbefore Hb w t. destruct (Hb w t) as (new & E & Hnew & _).
  assert (Hall : Forall notSkipping (before ++ new)%list) by (apply Forall_app; auto).
  exists new. split; [exact E|].
  destruct (fst (fst (b w t))); try left; exact Hall.
Qed.

Ltac quiet := try exact I; try (split; intros ? ?; discriminate);
              try (intros ? ?; discriminate); try (intros; exact I).

Lemma extractAndWriteFile_notSkipping targetPath f :
  fnSpec notSkipping (fun _ => True) (extractAndWriteFile env targetPath f).
Proof.
  unfold extractAndWriteFile, panicOnError. unfold_calls.
  repeat (spec_head; quiet).
Qed.

Lemma extractAll_notSkipping {A} targetPath files (onError : error -> A) :
  bodySpec notSkipping (fun _ => True) (fun _ => True)
    (extractAll env targetPath files onError).
Proof.
  induction files as [|f rest IH]; cbn [extractAll].
  - apply bodySpec_next. exact I.
  - apply bodySpec_bind_any;
      [apply bodySpec_call, extractAndWriteFile_notSkipping|].
    intros [e|]; [apply bodySpec_ret; exact I|exact IH].
Qed.

Lemma getFolderIndex_quiet folder indexPath targetChunkSize compressionType
    hashIdentifier pathFilter scanner :
  fnSpec P (fun _ => True)
    (getFolderIndex env folder indexPath targetChunkSize compressionType
       hashIdentifier pathFilter scanner).
Proof. unfold getFolderIndex. unfold_calls. repeat (spec_head; quiet). Qed.

Lemma validateOneVersion_quiet targetStore targetFilePath skipValidate :
  fnSpec P (fun _ => True)
    (validateOneVersion env targetStore targetFilePath skipValidate).
Proof. unfold validateOneVersion. unfold_calls. repeat (spec_head; quiet). Qed.

Lemma scan_quiet folder pathFilter :
  fnSpec P (fun _ => True) (scan env folder pathFilter).
Proof. unfold scan. unfold_calls. repeat (spec_head; quiet). Qed.

Ltac step x :=
  apply goalAt_step; [assumption| |intros x ? ?].

Lemma cloneOneVersion_goal targetPath pathFilter retainPermissions
    createVersionLocalStoreIndex skipValidate minBlockUsagePercent targetBlockSize
    maxChunksPerBlock sourceStore targetStore sourceRemoteIndexStore
    targetRemoteStore targetFilePath currentVersionIndex (w : World) :
  let run := cloneOneVersion env targetPath pathFilter retainPermissions
               createVersionLocalStoreIndex skipValidate minBlockUsagePercent
               targetBlockSize maxChunksPerBlock sourceStore targetStore
               sourceRemoteIndexStore targetRemoteStore targetFilePath
               sourceFilePath sourceFileZipPath currentVersionIndex w [] in
  match fst (fst run) with
  | Returns r => QR r (snd run)
  | _ => Forall notSkipping (snd run)
  end.
Proof.
  intros run. subst run. unfold cloneOneVersion.
  match goal with
  | |- context [fn ?b] =>
      assert (Hb : goalAt [] b); [|
        unfold fn; destruct (Hb w []) as (new & E & Hq);
        destruct (b w []) as [[s w'] t']; simpl in E, Hq; subst t';
        destruct s; simpl; exact Hq]
  end.
  assert (H0 : Forall P []) by constructor.
  step scanner; [apply bodySpec_call, scan_quiet|].
  step err; [apply bodySpec_call, validateOneVersion_quiet|].
  destruct err as [err|];
    [|apply goalAt_rest; [apply P_notSkipping; assumption|apply bodySpec_ret; exact I]].
  unfold_calls.
  step u; [repeat (spec_head; quiet)|].
  step r; [repeat (spec_head; quiet)|].
  step vbuffer; [repeat (spec_head; quiet)|].
  step sourceVersionIndex; [repeat (spec_head; quiet)|].
  step tvh.
  { destruct currentVersionIndex; repeat (spec_head; quiet).
    apply getFolderIndex_quiet. }
  destruct tvh as [targetVersionIndex hash].
  step versionDiff; [repeat (spec_head; quiet)|].
  step chunkHashes; [repeat (spec_head; quiet)|].
  step r2; [repeat (spec_head; quiet)|].
  step existingStoreIndex; [repeat (spec_head; quiet)|].
  step errno; [repeat (spec_head; quiet)|].
  destruct (Z.eqb_spec errno 0) as [Hz|Hnz].
  - apply goalAt_rest; [apply P_notSkipping; assumption|].
    repeat (spec_head; quiet).
  - unfold zipFallback.
    destruct (String.eqb_spec sourceFileZipPath "") as [Hzip|Hzip].
    + intros w0 t0. unfold bind, printf, emit, ret. cbn.
      eexists [_]. split; [reflexivity|].
      right. eexists _, errno. split; [reflexivity|].
      repeat split; try assumption.
    + apply goalAt_rest; [apply P_notSkipping; assumption|].
      unfold_calls.
      repeat (spec_head; quiet).
      all: try apply extractAll_notSkipping.
Qed.

End CloneSkips.

(** When [cloneOneVersion] prints that it skips a version, it does so for
    its source version, after a download that failed with a non-zero errno and
    with no zip file to fall back to; it is the last thing it does, it returns
    no error (and an invalid version index), and it has written no version
    index or store index. *)
Theorem clone_skips_unfetched_version {World} (env : Env World)
    (targetPath : string) (pathFilter : PathFilter)
    (retainPermissions createVersionLocalStoreIndex skipValidate : bool)
    (minBlockUsagePercent targetBlockSize maxChunksPerBlock : Z)
    (sourceStore targetStore sourceRemoteIndexStore targetRemoteStore : BlockStore)
    (targetFilePath sourceFilePath sourceFileZipPath : string)
    (currentVersionIndex : option VersionIndex) (w : World)
    (skipped : string) (errno : Z) :
  let run := cloneOneVersion env targetPath pathFilter retainPermissions
               createVersionLocalStoreIndex skipValidate minBlockUsagePercent
               targetBlockSize maxChunksPerBlock sourceStore targetStore
               sourceRemoteIndexStore targetRemoteStore targetFilePath
               sourceFilePath sourceFileZipPath currentVersionIndex w [] in
  In (EvOutput (OutSkipping skipped errno)) (snd run) ->
  fst (fst run) = Returns (None, None) /\
  skipped = sourceFilePath /\ errno <> 0 /\ sourceFileZipPath = "" /\
  last (snd run) = Some (EvOutput (OutSkipping skipped errno)) /\
  (forall uri buffer, ~ In (EvWriteToURI uri buffer) (snd run)).
Proof.
  intros run Hin.
  pose proof (cloneOneVersion_goal env sourceFilePath sourceFileZipPath targetPath
                pathFilter retainPermissions createVersionLocalStoreIndex
                skipValidate minBlockUsagePercent targetBlockSize maxChunksPerBlock
                sourceStore targetStore sourceRemoteIndexStore targetRemoteStore
                targetFilePath currentVersionIndex w) as H.
  cbv zeta in H. fold run in H.
  assert (Hno : Forall notSkipping (snd run) -> False).
  { intros Hall. rewrite Forall_forall in Hall.
    apply (Hall _ (proj2 (list_elem_of_In _ _) Hin) skipped errno). reflexivity. }
  destruct (fst (fst run)) as [r| |]; try (exfalso; exact (Hno H)).
  destruct H as [H|(before & errno' & Hnew & Hnz & Hbefore & -> & Hzip)];
    [exfalso; exact (Hno H)|].
  rewrite Hnew in Hin |- *.
  assert (Hev : skipped = sourceFilePath /\ errno = errno').
  { apply in_app_or in Hin as [Hin|[Heq|[]]].
    - exfalso. rewrite Forall_forall in Hbefore.
      destruct (Hbefore _ (proj2 (list_elem_of_In _ _) Hin)) as [Hs _].
      apply (Hs skipped errno). reflexivity.
    - injection Heq as <- <-. auto. }
  destruct Hev as [-> ->].
  repeat split; try assumption.
  - apply last_snoc.
  - intros uri buffer Hw. apply in_app_or in Hw as [Hw|[Heq|[]]]; [|discriminate].
    rewrite Forall_forall in Hbefore.
    destruct (Hbefore _ (proj2 (list_elem_of_In _ _) Hw)) as [_ Hn].
    apply (Hn uri buffer). reflexivity.
Qed.

(** A store without the chunk of the version, a download that fails, and
    no zip file: the version is skipped without an error. *)
Lemma clone_skips_unfetched_version_witness :
  snd (cloneOneVersion brokenStoreEnv "work" nilPathFilter true false false 0 8388608
         1024 (FSBlockStore "src") (FSBlockStore "dst") (FSBlockStore "src")
         (FSBlockStore "dst") "dst/v1.lvi" "src/v1.lvi" "" None tt [])
  = [EvGetFilesRecursively "work"; EvReadFromURI "dst/v1.lvi";
     EvOutput (OutValidating "dst/v1.lvi");
     EvGetExistingStoreIndex (FSBlockStore "dst") [11] 0;
     EvOutput (OutClone "src/v1.lvi" "dst/v1.lvi"); EvReadFromURI "src/v1.lvi";
     EvCreateVersionIndex 3 "work" 32768;
     EvGetExistingStoreIndex (FSBlockStore "src") [11] 0;
     EvChangeVersion (FSBlockStore "src") "work" true;
     EvOutput (OutSkipping "src/v1.lvi" 5)] /\
  fst (fst (cloneOneVersion brokenStoreEnv "work" nilPathFilter true false false 0
              8388608 1024 (FSBlockStore "src") (FSBlockStore "dst")
              (FSBlockStore "src") (FSBlockStore "dst") "dst/v1.lvi" "src/v1.lvi" ""
              None tt []))
  = Returns (None, None).
Proof.
  split; [vm_compute; reflexivity|].
  apply (clone_skips_unfetched_version brokenStoreEnv "work" nilPathFilter true false
           false 0 8388608 1024 (FSBlockStore "src") (FSBlockStore "dst")
           (FSBlockStore "src") (FSBlockStore "dst") "dst/v1.lvi" "src/v1.lvi" ""
           None tt "src/v1.lvi" 5).
  vm_compute. tauto.
Defined.
